(** * migi: the action-language interpreter of [migi/automation/engine.py]

    A shallow embedding of the extractor ([_split_multi_actions]), the builtin
    parser ([_extract_call_parts], [_extract_quoted_arg], [_extract_point_arg],
    [_parse_builtin_action]), the coordinate normalizer ([_point_to_screen_xy],
    [_box_to_screen_xy]), the dispatcher ([execute_pyautogui_action]) and the
    driver ([parse_and_execute_action]).

    Python [str] is modelled by [string], whose characters stand for the code
    points below 256; Python [float] by the primitive binary64 floats; Python
    [int] by [Z].  Calls into pyautogui, pyperclip and [time.sleep] are
    recorded, in order, as a list of events. *)

From Stdlib Require Import ZArith Bool List String Ascii Floats Lia DecimalString.
Import ListNotations.

Set Implicit Arguments.
Set Warnings "-inexact-float".

(** ** Python [str] operations *)

Module PyStr.
Local Open Scope string_scope.

(** [str.isspace] on one character (code points below 256); the same class is
    the regular-expression [\s] of a [str] pattern. *)
Definition isspace (c : ascii) : bool :=
  let n := N_of_ascii c in
  ((9 <=? n) && (n <=? 13) || (28 <=? n) && (n <=? 32) || (n =? 133) || (n =? 160))%N.

(** [str.lower] on one character (code points below 256). *)
Definition lower_char (c : ascii) : ascii :=
  let n := N_of_ascii c in
  if ((65 <=? n) && (n <=? 90) || (192 <=? n) && (n <=? 222) && negb (n =? 215))%N
  then ascii_of_N (n + 32) else c.

Fixpoint lower (s : string) : string :=
  match s with
  | "" => ""
  | String c s' => String (lower_char c) (lower s')
  end.

Fixpoint lstrip (s : string) : string :=
  match s with
  | "" => ""
  | String c s' => if isspace c then lstrip s' else s
  end.

Fixpoint rstrip (s : string) : string :=
  match s with
  | "" => ""
  | String c s' =>
      match rstrip s' with
      | "" => if isspace c then "" else String c ""
      | r => String c r
      end
  end.

Definition strip (s : string) : string := rstrip (lstrip s).

(** [s[n:]] and [s[:n]]. *)
Fixpoint drop (n : nat) (s : string) : string :=
  match n, s with
  | O, _ => s
  | S _, "" => ""
  | S k, String _ s' => drop k s'
  end.

Fixpoint take (n : nat) (s : string) : string :=
  match n, s with
  | O, _ => ""
  | S _, "" => ""
  | S k, String c s' => String c (take k s')
  end.

Definition startswith (p s : string) : bool := prefix p s.

Fixpoint endswith (suf s : string) : bool :=
  (s =? suf) ||
  match s with
  | "" => false
  | String _ s' => endswith suf s'
  end.

(** [sub in s]. *)
Fixpoint contains (sub s : string) : bool :=
  prefix sub s ||
  match s with
  | "" => false
  | String _ s' => contains sub s'
  end.

(** A literal pattern matched at the head of [s] under [re.IGNORECASE]. *)
Fixpoint prefix_ci (p s : string) : bool :=
  match p, s with
  | "", _ => true
  | String _ _, "" => false
  | String a p', String b s' =>
      (lower_char b =? lower_char a)%char && prefix_ci p' s'
  end.

(** [s.replace(old, new)]: occurrences are replaced left to right without
    overlap; [skip] counts the characters of the occurrence still to pass. *)
Fixpoint replace_from (old new : string) (skip : nat) (s : string) : string :=
  match s with
  | "" => ""
  | String c s' =>
      match skip with
      | S k => replace_from old new k s'
      | O =>
          if prefix old s
          then new ++ replace_from old new (String.length old - 1) s'
          else String c (replace_from old new 0 s')
      end
  end.

Definition replace (old new s : string) : string := replace_from old new 0 s.

Definition flush (cur : string) : list string :=
  match cur with "" => [] | _ => [cur] end.

(** [s.split()]: the maximal runs of non-whitespace characters. *)
Fixpoint split_from (cur s : string) : list string :=
  match s with
  | "" => flush cur
  | String c s' =>
      if isspace c then flush cur ++ split_from "" s'
      else split_from (cur ++ String c "") s'
  end.

Definition split (s : string) : list string := split_from "" s.

(** [re.split(r"\s+", s)]: cut at every maximal run of whitespace; the pieces
    at both ends are kept even when empty. *)
Fixpoint re_split_from (cur : string) (in_ws : bool) (s : string) : list string :=
  match s with
  | "" => [cur]
  | String c s' =>
      if isspace c
      then (if in_ws then re_split_from "" true s'
            else cur :: re_split_from "" true s')
      else re_split_from (cur ++ String c "") false s'
  end.

Definition re_split_ws (s : string) : list string := re_split_from "" false s.

(** [sep.join(l)]. *)
Definition join (sep : string) (l : list string) : string := concat sep l.

(** An [int] inside an f-string. *)
Definition of_int (z : Z) : string := NilZero.string_of_int (Z.to_int z).

(** Truth value of a [str]. *)
Definition nonempty (s : string) : bool :=
  match s with "" => false | _ => true end.

End PyStr.

(** ** Exceptions and fallible computations *)

Inductive exn : Set :=
| ValueError
| TypeError
| AttributeError
| IndexError
| SyntaxError
| ZeroDivisionError
| OverflowError
| ModuleNotFoundError
| DependencyError          (* class DependencyError(RuntimeError) *)
| OtherError (name : string).

Inductive result (A : Type) : Type :=
| Ok (a : A)
| Raise (e : exn).

Arguments Ok {A} a.
Arguments Raise {A} e.

Definition rbind {A B} (c : result A) (k : A -> result B) : result B :=
  match c with
  | Ok a => k a
  | Raise e => Raise e
  end.

Notation "x <- c ;; k" := (rbind c (fun x => k))
  (at level 61, c at next level, right associativity).
Notation "' pat <- c ;; k" := (rbind c (fun x => match x with pat => k end))
  (at level 61, pat pattern, c at next level, right associativity).

(** ** Python numbers *)

Module PyNum.
Local Open Scope Z_scope.

Inductive pynum : Set :=
| PInt (z : Z)
| PFloat (f : float).

(** The signed mantissa of a finite binary64 value. *)
Definition signed (s : bool) (m : positive) : Z := if s then Z.neg m else Z.pos m.

(** [float(z)] for an [int]: the nearest binary64 value, ties to even;
    OverflowError when it does not fit. *)
Definition int_to_float (z : Z) : result float :=
  let f := SF2Prim (binary_normalize prec emax z 0 false) in
  if is_infinity f then Raise OverflowError else Ok f.

(** [z / 2] for an [int]: true division, correctly rounded. *)
Definition int_half (z : Z) : result float :=
  let f := SF2Prim (binary_normalize prec emax z (-1) false) in
  if is_infinity f then Raise OverflowError else Ok f.

(** [f <= z] between a [float] and an [int]: Python compares the exact values. *)
Definition float_le_int (f : float) (z : Z) : bool :=
  match Prim2SF f with
  | S754_nan => false
  | S754_infinity s => s
  | S754_zero _ => 0 <=? z
  | S754_finite s m e =>
      if 0 <=? e then signed s m * 2 ^ e <=? z
      else signed s m <=? z * 2 ^ (- e)
  end.

(** [int(f)]: truncation toward zero. *)
Definition float_to_int (f : float) : result Z :=
  match Prim2SF f with
  | S754_nan => Raise ValueError
  | S754_infinity _ => Raise OverflowError
  | S754_zero _ => Ok 0
  | S754_finite s m e =>
      if 0 <=? e then Ok (signed s m * 2 ^ e)
      else Ok (Z.quot (signed s m) (2 ^ (- e)))
  end.

(** [math.floor(f)], for comparison with [int(f)]. *)
Definition float_floor (f : float) : result Z :=
  match Prim2SF f with
  | S754_nan => Raise ValueError
  | S754_infinity _ => Raise OverflowError
  | S754_zero _ => Ok 0
  | S754_finite s m e =>
      if 0 <=? e then Ok (signed s m * 2 ^ e)
      else Ok (signed s m / 2 ^ (- e))
  end.

(** [round(f)] with one argument: the nearest [int], ties to even. *)
Definition round_half_even (m : positive) (k : Z) : Z :=
  let d := 2 ^ k in
  let q := Z.pos m / d in
  let r := Z.pos m mod d in
  if 2 * r <? d then q
  else if d <? 2 * r then q + 1
  else if Z.even q then q else q + 1.

Definition round (f : float) : result Z :=
  match Prim2SF f with
  | S754_nan => Raise ValueError
  | S754_infinity _ => Raise OverflowError
  | S754_zero _ => Ok 0
  | S754_finite s m e =>
      if 0 <=? e then Ok (signed s m * 2 ^ e)
      else let a := round_half_even m (- e) in Ok (if s then - a else a)
  end.

(** [f * z] and [f / z] with a [float] on the left and an [int] on the right:
    the [int] is converted first; a zero divisor raises. *)
Definition float_mul_int (f : float) (z : Z) : result float :=
  g <- int_to_float z ;; Ok (f * g)%float.

Definition float_div_int (f : float) (z : Z) : result float :=
  g <- int_to_float z ;;
  if is_zero g then Raise ZeroDivisionError else Ok (f / g)%float.

End PyNum.

(** ** Values, commands and the host *)

Import PyNum.
Open Scope string_scope.

(** What a parsed command carries as an argument: a [str], or a flat list or
    tuple whose items are numbers or [str]s. *)
Inductive pyitem : Set :=
| INum (n : pynum)
| IStr (s : string).

Inductive value : Set :=
| VStr (s : string)
| VSeq (items : list pyitem).

(** A [dict] with [str] keys, in insertion order. *)
Definition dict : Set := list (string * value).

Fixpoint dict_get (k : string) (d : dict) : option value :=
  match d with
  | [] => None
  | (k', v) :: d' => if k' =? k then Some v else dict_get k d'
  end.

Fixpoint dict_set (k : string) (v : value) (d : dict) : dict :=
  match d with
  | [] => [(k, v)]
  | (k', v') :: d' => if k' =? k then (k, v) :: d' else (k', v') :: dict_set k v d'
  end.

Definition dict_get_default (k : string) (default : value) (d : dict) : value :=
  match dict_get k d with
  | Some v => v
  | None => default
  end.

(** Truth value of an argument, and of [d.get(k)] (None is false). *)
Definition truthy (v : value) : bool :=
  match v with
  | VStr s => PyStr.nonempty s
  | VSeq [] => false
  | VSeq (_ :: _) => true
  end.

Definition truthy_opt (o : option value) : bool :=
  match o with
  | Some v => truthy v
  | None => false
  end.

(** [a or b]. *)
Definition py_or (a b : value) : value := if truthy a then a else b.

(** A parsed command: [{"action_type": ..., "action_inputs": {...}}]; a
    missing type is [None], missing inputs are the empty dict. *)
Record command : Set := Command {
  action_type : option string;
  action_inputs : dict
}.

(** What a parser backend hands back: a dict, a list (whose items that are
    not dicts are [None] here), or anything else. *)
Inductive parsed : Set :=
| ParsedDict (c : command)
| ParsedList (items : list (option command))
| ParsedOther.

(** An attribute of an imported module. *)
Record pyobject : Type := PyObject {
  callable : bool;
  call : string -> Z -> Z -> Z -> result parsed
}.

(** What the code takes from its surroundings. *)
Record host : Type := Host {
  sysname : string;                              (* os.uname().sysname *)
  screen_height : Z;                             (* pyautogui.size()[1] *)
  literal_eval : string -> result value;         (* ast.literal_eval *)
  str_of_seq : list pyitem -> string;            (* str() of a list or tuple *)
  float_of_str : string -> option float;         (* float() of a str; None for ValueError *)
  import_module : string -> result (string -> option pyobject);
                                                 (* importlib.import_module, then getattr *)
  ui_tars : result (string -> Z -> Z -> result parsed)
                                                 (* from ui_tars.action_parser import
                                                    parse_action_to_structure_output *)
}.

(** ** Coordinate normalizer *)

Section Normalizer.
Variable H : host.

Definition py_len (v : value) : nat :=
  match v with
  | VStr s => String.length s
  | VSeq l => List.length l
  end.

(** [v[i]] *)
Definition getitem (v : value) (i : nat) : result pyitem :=
  match v with
  | VStr s =>
      match String.get i s with
      | Some c => Ok (IStr (String c ""))
      | None => Raise IndexError
      end
  | VSeq l =>
      match nth_error l i with
      | Some x => Ok x
      | None => Raise IndexError
      end
  end.

(** [float(x)] *)
Definition to_float (x : pyitem) : result float :=
  match x with
  | INum (PInt z) => int_to_float z
  | INum (PFloat f) => Ok f
  | IStr s =>
      match float_of_str H s with
      | Some f => Ok f
      | None => Raise ValueError
      end
  end.

(** [a + b] *)
Definition py_add (a b : pyitem) : result pyitem :=
  match a, b with
  | INum (PInt x), INum (PInt y) => Ok (INum (PInt (x + y)))
  | INum (PInt x), INum (PFloat g) => f <- int_to_float x ;; Ok (INum (PFloat (f + g)))
  | INum (PFloat f), INum (PInt y) => g <- int_to_float y ;; Ok (INum (PFloat (f + g)))
  | INum (PFloat f), INum (PFloat g) => Ok (INum (PFloat (f + g)))
  | IStr s, IStr t => Ok (IStr (s ++ t))
  | _, _ => Raise TypeError
  end.

(** [float(a / 2)] *)
Definition py_half (a : pyitem) : result float :=
  match a with
  | INum (PInt z) => int_half z
  | INum (PFloat f) => Ok (f / 2)%float
  | IStr _ => Raise TypeError
  end.

Definition _point_to_screen_xy (point : value) (image_width image_height scale_factor : Z)
  : result (Z * Z) :=
  p0 <- getitem point 0 ;;
  x <- to_float p0 ;;
  p1 <- getitem point 1 ;;
  y <- to_float p1 ;;
  if float_le_int (abs x) scale_factor && float_le_int (abs y) scale_factor
  then
    xw <- float_mul_int x image_width ;;
    xs <- float_div_int xw scale_factor ;;
    px <- round xs ;;
    yh <- float_mul_int y image_height ;;
    ys <- float_div_int yh scale_factor ;;
    py <- round ys ;;
    Ok (px, py)
  else
    px <- round x ;;
    py <- round y ;;
    Ok (px, py).

(** The centre of a four-element box: [(box[0] + box[2]) / 2] and
    [(box[1] + box[3]) / 2]. *)
Definition box_center (box : value) : result (float * float) :=
  b0 <- getitem box 0 ;;
  b2 <- getitem box 2 ;;
  sx <- py_add b0 b2 ;;
  x <- py_half sx ;;
  b1 <- getitem box 1 ;;
  b3 <- getitem box 3 ;;
  sy <- py_add b1 b3 ;;
  y <- py_half sy ;;
  Ok (x, y).

Definition _box_to_screen_xy (box : value) (image_width image_height scale_factor : Z)
  : result (Z * Z) :=
  if Nat.eqb (py_len box) 4
  then
    '(x, y) <- box_center box ;;
    _point_to_screen_xy (VSeq [INum (PFloat x); INum (PFloat y)])
                        image_width image_height scale_factor
  else _point_to_screen_xy box image_width image_height scale_factor.

End Normalizer.

(** ** Events and effectful computations *)

(** One call into [time], pyperclip, pyautogui or a parser backend. *)
Inductive event : Type :=
| Sleep (seconds : pynum)                          (* time.sleep(seconds) *)
| ClipboardCopy (content : value)                  (* pyperclip.copy(content) *)
| Hotkey (keys : list string) (interval : pynum)   (* pyautogui.hotkey( *keys, interval=...) *)
| Press (key : string)                             (* pyautogui.press(key) *)
| MoveTo (x y : Z)                                 (* pyautogui.moveTo(x, y) *)
| DragTo (x y : Z) (duration : pynum)              (* pyautogui.dragTo(x, y, duration=...) *)
| ScrollBy (clicks : Z) (at_xy : option (Z * Z))   (* pyautogui.scroll(clicks, x=x, y=y) *)
| Click (x y : Z) (button : option string)         (* pyautogui.click(x, y[, button=...]) *)
| DoubleClick (x y : Z)                            (* pyautogui.doubleClick(x, y) *)
| CustomParse (text : string) (w h s : Z)          (* parser(response, img_width, img_height, scale_factor) *)
| TarsParse (text : string) (w h : Z).             (* parse_action_to_structure_output(...) *)

(** A computation that calls out: the events it emitted, in order, and how it
    ended. *)
Definition M (A : Type) : Type := (list event * result A)%type.

Definition mret {A} (a : A) : M A := ([], Ok a).

Definition mbind {A B} (c : M A) (k : A -> M B) : M B :=
  match c with
  | (t, Ok a) => let (t', r) := k a in ((t ++ t')%list, r)
  | (t, Raise e) => (t, Raise e)
  end.

Definition emit (ev : event) : M unit := ([ev], Ok tt).

Definition lift {A} (r : result A) : M A := ([], r).

Notation "x <~ c ;; k" := (mbind c (fun x => k))
  (at level 61, c at next level, right associativity).
Notation "' pat <~ c ;; k" := (mbind c (fun x => match x with pat => k end))
  (at level 61, pat pattern, c at next level, right associativity).
Notation "c ;;; k" := (mbind c (fun _ => k))
  (at level 61, right associativity).

(** ** Action dispatcher *)

Definition PIXELS_PER_SCROLL_CLICK : Z := 15.
Definition MAX_PIXELS : Z := 16384 * 28 * 28.
Definition MIN_PIXELS : Z := 100 * 28 * 28.

Definition KEY_MAPPING : list (string * string) :=
  [("content", "content"); ("start_box", "start_box");
   ("end_box", "end_box"); ("direction", "direction")].

(** [table.get(k, k)] for a table from [str] to [str]. *)
Fixpoint get_or_self (table : list (string * string)) (k : string) : string :=
  match table with
  | [] => k
  | (k', v) :: table' => if k' =? k then v else get_or_self table' k
  end.

(** The alias table of the hotkey branch. *)
Definition key_map : list (string * string) :=
  [("ctrl", "ctrl"); ("control", "ctrl"); ("cmd", "command"); ("command", "command");
   ("alt", "alt"); ("option", "alt"); ("shift", "shift"); ("enter", "enter");
   ("return", "enter"); ("tab", "tab"); ("esc", "escape"); ("escape", "escape");
   ("space", "space"); ("backspace", "backspace"); ("delete", "delete")].

(** The newline character. *)
Definition nl : string := String (ascii_of_nat 10) "".

(** [action_type == name] and [action_type in {...}]. *)
Definition kind_is (t : option string) (name : string) : bool :=
  match t with
  | Some s => s =? name
  | None => false
  end.

Definition kind_in (t : option string) (names : list string) : bool :=
  existsb (kind_is t) names.

(** [result_info.append(item)] *)
Definition append (result_info : list string) (item : string) : list string :=
  (result_info ++ [item])%list.

(** How one round of the loop ends: go on with the next command, or leave the
    function with the log. *)
Inductive control : Set :=
| Next (result_info : list string)
| Return (result_info : list string).

Section Dispatcher.
Variable H : host.
Variables image_height image_width scale_factor : Z.

(** Lines 290-296: every argument that is a [str] holding ["<point>"] is
    passed through [safe_literal_eval]. *)
Definition normalize_value (v : value) : result value :=
  match v with
  | VStr s => if PyStr.contains "<point>" s then literal_eval H s else Ok v
  | VSeq _ => Ok v
  end.

Fixpoint normalize_inputs (items : dict) (normalized_inputs : dict) : result dict :=
  match items with
  | [] => Ok normalized_inputs
  | (key, v) :: items' =>
      v' <- normalize_value v ;;
      normalize_inputs items' (dict_set (get_or_self KEY_MAPPING key) v' normalized_inputs)
  end.

(** [if isinstance(box, str): box = safe_literal_eval(box)] *)
Definition eval_if_str (box : value) : result value :=
  match box with
  | VStr s => literal_eval H s
  | VSeq _ => Ok box
  end.

Definition to_xy (box : value) : result (Z * Z) :=
  _box_to_screen_xy H box image_width image_height scale_factor.

(** [str(v)] *)
Definition py_str (v : value) : string :=
  match v with
  | VStr s => s
  | VSeq l => str_of_seq H l
  end.

Definition do_type (action_inputs : dict) (result_info : list string) : M control :=
  let content := dict_get_default "content" (VStr "") action_inputs in
  if truthy content then
    emit (ClipboardCopy content) ;;;
    emit (Sleep (PFloat 0.2)) ;;;
    (if sysname H =? "Darwin"
     then emit (Hotkey ["command"; "v"] (PFloat 0.1))
     else emit (Hotkey ["ctrl"; "v"] (PFloat 0.1))) ;;;
    emit (Sleep (PFloat 0.5)) ;;;
    match content with
    | VStr s =>
        (if PyStr.endswith nl s || PyStr.endswith "\n" s
         then emit (Press "enter") else mret tt) ;;;
        mret (Next (append result_info ("type:" ++ PyStr.take 50 s)))
    | VSeq _ => lift (Raise AttributeError)
    end
  else mret (Next result_info).

Definition do_drag (action_inputs : dict) (result_info : list string) : M control :=
  match dict_get "start_box" action_inputs, dict_get "end_box" action_inputs with
  | Some start_box, Some end_box =>
      if truthy start_box && truthy end_box then
        start_box <~ lift (eval_if_str start_box) ;;
        end_box <~ lift (eval_if_str end_box) ;;
        '(sx, sy) <~ lift (to_xy start_box) ;;
        '(ex, ey) <~ lift (to_xy end_box) ;;
        emit (MoveTo sx sy) ;;;
        emit (DragTo ex ey (PFloat 1.0)) ;;;
        mret (Next (append result_info
          ("drag:" ++ PyStr.of_int sx ++ "," ++ PyStr.of_int sy ++ "->"
                   ++ PyStr.of_int ex ++ "," ++ PyStr.of_int ey)))
      else mret (Next result_info)
  | _, _ => mret (Next result_info)
  end.

(** [max(1, int(screen_height * 0.25) // PIXELS_PER_SCROLL_CLICK)] *)
Definition scroll_amount (screen_height : Z) : result Z :=
  h <- int_to_float screen_height ;;
  q <- float_to_int (h * 0.25)%float ;;
  Ok (Z.max 1 (q / PIXELS_PER_SCROLL_CLICK)).

(** The optional target of a scroll: [x = y = None] unless [start_box] is
    present and true. *)
Definition scroll_target (action_inputs : dict) : result (option (Z * Z)) :=
  match dict_get "start_box" action_inputs with
  | Some start_box =>
      if truthy start_box then
        start_box <- eval_if_str start_box ;;
        xy <- to_xy start_box ;;
        Ok (Some xy)
      else Ok None
  | None => Ok None
  end.

Definition do_scroll (action_inputs : dict) (result_info : list string) : M control :=
  let direction :=
    PyStr.lower (py_str (dict_get_default "direction" (VStr "") action_inputs)) in
  xy <~ lift (scroll_target action_inputs) ;;
  scroll_amount <~ lift (scroll_amount (screen_height H)) ;;
  if PyStr.contains "up" direction then
    emit (ScrollBy scroll_amount xy) ;;;
    mret (Next (append result_info "scroll:up"))
  else if PyStr.contains "down" direction then
    emit (ScrollBy (- scroll_amount) xy) ;;;
    mret (Next (append result_info "scroll:down"))
  else mret (Next result_info).

Definition do_click (action_type : option string) (action_inputs : dict)
                    (result_info : list string) : M control :=
  match dict_get "start_box" action_inputs with
  | Some start_box =>
      if truthy start_box then
        start_box <~ lift (eval_if_str start_box) ;;
        '(x, y) <~ lift (to_xy start_box) ;;
        let xy := PyStr.of_int x ++ "," ++ PyStr.of_int y in
        if kind_in action_type ["left_single"; "click"] then
          emit (Click x y None) ;;;
          mret (Next (append result_info ("click:" ++ xy)))
        else if kind_is action_type "left_double" then
          emit (DoubleClick x y) ;;;
          mret (Next (append result_info ("double_click:" ++ xy)))
        else if kind_is action_type "right_single" then
          emit (Click x y (Some "right")) ;;;
          mret (Next (append result_info ("right_click:" ++ xy)))
        else if kind_is action_type "hover" then
          emit (MoveTo x y) ;;;
          mret (Next (append result_info ("hover:" ++ xy)))
        else mret (Next result_info)
      else mret (Next result_info)
  | None => mret (Next result_info)
  end.

Definition do_hotkey (action_inputs : dict) (result_info : list string) : M control :=
  let key_combo := py_or (dict_get_default "content" (VStr "") action_inputs)
                         (dict_get_default "key" (VStr "") action_inputs) in
  let keys := PyStr.split (PyStr.strip (PyStr.lower (py_str key_combo))) in
  match keys with
  | [] => mret (Next result_info)
  | _ :: _ =>
      let mapped := map (get_or_self key_map) keys in
      emit (Hotkey mapped (PFloat 0.1)) ;;;
      mret (Next (append result_info ("hotkey:" ++ PyStr.join "+" mapped)))
  end.

(** The [if]/[elif] chain on [action_type], lines 298-387. *)
Definition dispatch (action_type : option string) (action_inputs : dict)
                    (result_info : list string) : M control :=
  if kind_is action_type "type" then do_type action_inputs result_info
  else if kind_in action_type ["drag"; "select"] then do_drag action_inputs result_info
  else if kind_is action_type "scroll" then do_scroll action_inputs result_info
  else if kind_in action_type ["click"; "left_single"; "left_double"; "right_single"; "hover"]
       then do_click action_type action_inputs result_info
  else if kind_is action_type "hotkey" then do_hotkey action_inputs result_info
  else if kind_is action_type "finished" then mret (Return (append result_info "finished"))
  else if kind_is action_type "wait" then
    emit (Sleep (PInt 5)) ;;;
    mret (Next (append result_info "wait:5s"))
  else mret (Next result_info).

(** The body of the loop after the settle delay, lines 287-387. *)
Definition step (response : command) (result_info : list string) : M control :=
  action_inputs <~ lift (normalize_inputs (action_inputs response) []) ;;
  dispatch (action_type response) action_inputs result_info.

(** The settle delay of lines 285-286. *)
Definition settle (index : nat) : M unit :=
  if Nat.ltb 0 index then emit (Sleep (PFloat 0.3)) else mret tt.

(** [for index, response in enumerate(responses)], from [index] on. *)
Fixpoint loop (index : nat) (responses : list command) (result_info : list string)
  : M (list string) :=
  match responses with
  | [] => mret result_info
  | response :: responses' =>
      settle index ;;;
      ctl <~ step response result_info ;;
      match ctl with
      | Return result_info' => mret result_info'
      | Next result_info' => loop (S index) responses' result_info'
      end
  end.

(** The argument [responses]: one dict or a list of dicts. *)
Inductive responses : Set :=
| One (response : command)
| Many (responses : list command).

Definition execute_pyautogui_action (rs : responses) : M (list string) :=
  let responses := match rs with One r => [r] | Many l => l end in
  loop 0 responses [].

End Dispatcher.

(** ** Action-string extractor *)

Module Extractor.
Import PyStr.

(** [finditer] / [findall]: the pattern is tried at every position from left
    to right; after a match of length [len] the scan resumes behind it
    ([skip] counts the characters of the match still to pass). *)
Fixpoint scan {A} (match_at : string -> option (A * nat)) (skip : nat) (s : string) : list A :=
  match s with
  | "" => []
  | String _ s' =>
      match skip with
      | S k => scan match_at k s'
      | O =>
          match match_at s with
          | Some (a, len) => a :: scan match_at (len - 1) s'
          | None => scan match_at 0 s'
          end
      end
  end.

(** [(.*?)</action>] at the head of [s]: the shortest body that a closing
    tag follows. *)
Fixpoint until_close (s : string) : option string :=
  if prefix_ci "</action>" s then Some ""
  else match s with
       | "" => None
       | String c s' =>
           match until_close s' with
           | Some body => Some (String c body)
           | None => None
           end
       end.

(** [<action>(.*?)</action>] with [re.IGNORECASE | re.DOTALL] at the head of
    [s]: group 1 and the length of the match. *)
Definition xml_match_at (s : string) : option (string * nat) :=
  if prefix_ci "<action>" s then
    match until_close (drop 8 s) with
    | Some body => Some (body, 8 + String.length body + 9)
    | None => None
    end
  else None.

Definition xml_findall (response : string) : list string := scan xml_match_at 0 response.

Definition action_funcs : list string :=
  ["click"; "left_double"; "right_single"; "drag"; "hotkey"; "type"; "scroll";
   "wait"; "finished"; "left_single"; "hover"; "select"].

(** The number of characters before the first [close], if there is one. *)
Fixpoint until_char (close : ascii) (s : string) : option nat :=
  match s with
  | "" => None
  | String c s' =>
      if (c =? close)%char then Some 0
      else match until_char close s' with
           | Some n => Some (S n)
           | None => None
           end
  end.

(** [\s*\([^)]*\)] at the head of [s]: the length of the match. *)
Definition call_tail (s : string) : option nat :=
  let s1 := lstrip s in
  match s1 with
  | String c s2 =>
      if (c =? "(")%char then
        match until_char ")" s2 with
        | Some n => Some (String.length s - String.length s1 + 1 + n + 1)
        | None => None
        end
      else None
  | "" => None
  end.

(** [(click|left_double|...)\s*\([^)]*\)] at the head of [s]: the
    alternatives are tried in order. *)
Fixpoint named_call (names : list string) (s : string) : option nat :=
  match names with
  | [] => None
  | name :: names' =>
      match (if prefix_ci name s then call_tail (drop (String.length name) s) else None) with
      | Some n => Some (String.length name + n)
      | None => named_call names' s
      end
  end.

(** The pattern of line 416 with [re.IGNORECASE] at the head of [s]: an
    optional label (the literal Action: and any whitespace), one of the names
    and the parenthesised tail; group 0 and its length.  The optional label
    is tried first. *)
Definition bare_match_at (s : string) : option (string * nat) :=
  let labelled :=
    if prefix_ci "Action:" s then
      let s1 := lstrip (drop 7 s) in
      match named_call action_funcs s1 with
      | Some n => Some (String.length s - String.length s1 + n)
      | None => None
      end
    else None in
  let len :=
    match labelled with
    | Some n => Some n
    | None => named_call action_funcs s
    end in
  match len with
  | Some n => Some (take n s, n)
  | None => None
  end.

Definition label (action_str : string) : string := "Action: " ++ action_str.

(** Lines 396-400: the loop over the delimited matches. *)
Definition xml_actions (xml_matches : list string) : list string :=
  flat_map (fun m => let action_str := strip m in
                     if nonempty action_str then [label action_str] else [])
           xml_matches.

(** Lines 402-422: the pass over bare calls, and the whole response when it
    finds none. *)
Definition bare_actions (response : string) : list string :=
  let actions :=
    map (fun action_str =>
           label (if startswith "action:" (lower action_str)
                  then strip (drop 7 action_str) else action_str))
        (scan bare_match_at 0 response) in
  match actions with
  | [] => [label (strip response)]
  | _ :: _ => actions
  end.

Definition _split_multi_actions (response : string) : list string :=
  match xml_findall response with
  | [] => bare_actions response
  | xml_matches => xml_actions xml_matches
  end.

End Extractor.

(** ** Builtin action-call parser *)

Module Builtin.
Import PyStr.

Definition is_letter (c : ascii) : bool :=
  let n := N_of_ascii c in
  ((97 <=? n) && (n <=? 122) || (65 <=? n) && (n <=? 90))%N.

Definition is_digit (c : ascii) : bool :=
  let n := N_of_ascii c in ((48 <=? n) && (n <=? 57))%N.

(** [[a-zA-Z_]] and [[a-zA-Z0-9_]] *)
Definition ident_start (c : ascii) : bool := is_letter c || (c =? "_")%char.
Definition ident_char (c : ascii) : bool := ident_start c || is_digit c.

(** The longest run of identifier characters at the head of [s], and the rest. *)
Fixpoint span_ident (s : string) : string * string :=
  match s with
  | "" => ("", "")
  | String c s' =>
      if ident_char c
      then let (name, rest) := span_ident s' in (String c name, rest)
      else ("", s)
  end.

(** [s[:-1]] and [s[-1]] *)
Fixpoint split_last (s : string) : option (string * ascii) :=
  match s with
  | "" => None
  | String c s' =>
      match split_last s' with
      | None => Some ("", c)
      | Some (init, last) => Some (String c init, last)
      end
  end.

(** The greedy group and the closing parenthesis of line 429: the parenthesis
    is the last character, or the last but one before a final newline (where
    [$] also matches). *)
Definition call_args (inner : string) : option string :=
  match split_last inner with
  | Some (body, last) =>
      if (last =? ")")%char then Some body
      else if (last =? ascii_of_nat 10)%char then
        match split_last body with
        | Some (body', last') => if (last' =? ")")%char then Some body' else None
        | None => None
        end
      else None
  | None => None
  end.

(** [re.match] of line 429 with [re.DOTALL]: groups 1 and 2. *)
Definition call_match (raw : string) : option (string * string) :=
  match raw with
  | "" => None
  | String c _ =>
      if ident_start c then
        let (name, rest) := span_ident raw in
        match rest with
        | String p inner =>
            if (p =? "(")%char then
              match call_args inner with
              | Some args => Some (name, args)
              | None => None
              end
            else None
        | "" => None
        end
      else None
  end.

(** Lines 426-428: the expression without surrounding whitespace and label. *)
Definition call_text (action_str : string) : string :=
  let raw := strip action_str in
  if startswith "action:" (lower raw) then strip (drop 7 raw) else raw.

Definition _extract_call_parts (action_str : string) : string * string :=
  let raw := call_text action_str in
  match call_match raw with
  | None => (lower raw, "")
  | Some (name, args) => (lower name, strip args)
  end.

(** The characters before the first [q], when there is one. *)
Fixpoint until_quote (q : ascii) (s : string) : option string :=
  match s with
  | "" => None
  | String c s' =>
      if (c =? q)%char then Some ""
      else match until_quote q s' with
           | Some v => Some (String c v)
           | None => None
           end
  end.

(** The pattern of lines 436 and 440 at the head of [s]: the name, an equals
    sign with optional whitespace on both sides, and a run of characters
    other than the quote [q] between two quotes; group 1 is that run.  The
    name is matched as it is written, which is what the pattern does for a
    name without regex operators: the code passes the identifiers [point],
    [start_point], [end_point], [direction], [content] and [key]. *)
Definition quoted_at (name : string) (q : ascii) (s : string) : option string :=
  if prefix name s then
    match lstrip (drop (String.length name) s) with
    | String e s1 =>
        if (e =? "=")%char then
          match lstrip s1 with
          | String c s2 => if (c =? q)%char then until_quote q s2 else None
          | "" => None
          end
        else None
    | "" => None
    end
  else None.

(** [pattern.search(s)]: the first position at which the pattern matches. *)
Fixpoint re_search {A} (match_at : string -> option A) (s : string) : option A :=
  match match_at s with
  | Some a => Some a
  | None =>
      match s with
      | "" => None
      | String _ s' => re_search match_at s'
      end
  end.

Definition double_quote : ascii := ascii_of_nat 34.

Definition _extract_quoted_arg (args name : string) : option string :=
  match re_search (quoted_at name "'") args with
  | Some v => Some v
  | None => re_search (quoted_at name double_quote) args
  end.

Section WithHost.
Variable H : host.

(** The two floats come back as a list. *)
Definition _extract_point_arg (args name : string) : option value :=
  match _extract_quoted_arg args name with
  | None => None
  | Some v =>
      if nonempty v then
        let cleaned := strip (replace "</point>" "" (replace "<point>" "" v)) in
        match re_split_ws cleaned with
        | p0 :: p1 :: _ =>
            match float_of_str H p0, float_of_str H p1 with
            | Some x, Some y => Some (VSeq [INum (PFloat x); INum (PFloat y)])
            | _, _ => None
            end
        | _ => None
        end
      else None
  end.

(** [a or b] where both are a list or None. *)
Definition or_else {A} (a b : option A) : option A :=
  match a with
  | Some _ => a
  | None => b
  end.

(** [a or b] where both are a [str] or None. *)
Definition str_or (a b : option string) : option string :=
  match a with
  | Some (String _ _) => a
  | _ => b
  end.

Definition in_set (s : string) (names : list string) : bool :=
  existsb (String.eqb s) names.

Definition _parse_builtin_action (action_str : string) : option command :=
  let (action_type, args) := _extract_call_parts action_str in
  if in_set action_type ["click"; "left_single"; "left_double"; "right_single"; "hover"] then
    match or_else (_extract_point_arg args "point") (_extract_point_arg args "start_point") with
    | None => None
    | Some point => Some (Command (Some action_type) [("start_box", point)])
    end
  else if in_set action_type ["drag"; "select"] then
    match _extract_point_arg args "start_point", _extract_point_arg args "end_point" with
    | Some start, Some end_ =>
        Some (Command (Some action_type) [("start_box", start); ("end_box", end_)])
    | _, _ => None
    end
  else if action_type =? "scroll" then
    let direction :=
      match str_or (_extract_quoted_arg args "direction") (Some "down") with
      | Some d => d
      | None => "down"
      end in
    let inputs := [("direction", VStr direction)] in
    let inputs :=
      match _extract_point_arg args "point" with
      | Some point => dict_set "start_box" point inputs
      | None => inputs
      end in
    Some (Command (Some action_type) inputs)
  else if action_type =? "type" then
    match _extract_quoted_arg args "content" with
    | None => None
    | Some content => Some (Command (Some action_type) [("content", VStr content)])
    end
  else if action_type =? "hotkey" then
    match str_or (_extract_quoted_arg args "key") (_extract_quoted_arg args "content") with
    | None => None
    | Some key_combo => Some (Command (Some action_type) [("key", VStr key_combo)])
    end
  else if action_type =? "wait" then
    Some (Command (Some action_type) [])
  else if action_type =? "finished" then
    match _extract_quoted_arg args "content" with
    | Some (String c content) =>
        Some (Command (Some action_type) [("content", VStr (String c content))])
    | _ => Some (Command (Some action_type) [])
    end
  else None.

End WithHost.
End Builtin.

(** ** Parser backends and the driver *)

Section Driver.
Variable H : host.

(** [callable_path.split(":", 1)] when the path holds a colon. *)
Fixpoint split_colon (callable_path : string) : option (string * string) :=
  match callable_path with
  | "" => None
  | String c s' =>
      if (c =? ":")%char then Some ("", s')
      else match split_colon s' with
           | Some (module_name, func_name) => Some (String c module_name, func_name)
           | None => None
           end
  end.

Definition _load_custom_action_parser (callable_path : string) : result pyobject :=
  match split_colon callable_path with
  | None => Raise ValueError
  | Some (module_name, func_name) =>
      module <- import_module H module_name ;;
      match module func_name with
      | None => Raise AttributeError
      | Some parser => if callable parser then Ok parser else Raise ValueError
      end
  end.

(** Lines 535-538 and 562-565: the dicts among what a backend returned. *)
Definition dicts_of (p : parsed) : list command :=
  match p with
  | ParsedDict c => [c]
  | ParsedList items => flat_map (fun item => match item with Some c => [c] | None => [] end) items
  | ParsedOther => []
  end.

(** Lines 541-545: a missing module becomes a DependencyError. *)
Definition import_ui_tars : result (string -> Z -> Z -> result parsed) :=
  match ui_tars H with
  | Ok parse => Ok parse
  | Raise ModuleNotFoundError => Raise DependencyError
  | Raise e => Raise e
  end.

(** Lines 546-567: the loop of the ui_tars backend; only a ValueError of the
    external parser is caught. *)
Fixpoint ui_tars_loop (parse : string -> Z -> Z -> result parsed)
                      (img_width img_height : Z)
                      (action_strings : list string) (parsed_all : list command)
  : M (list command) :=
  match action_strings with
  | [] => mret parsed_all
  | action_str :: action_strings' =>
      let normalized := PyStr.strip action_str in
      let normalized :=
        if PyStr.contains "Action:" normalized then normalized
        else "Action: " ++ normalized in
      emit (TarsParse normalized img_width img_height) ;;;
      match parse normalized img_width img_height with
      | Ok p => ui_tars_loop parse img_width img_height action_strings'
                             (parsed_all ++ dicts_of p)%list
      | Raise ValueError => ui_tars_loop parse img_width img_height action_strings' parsed_all
      | Raise e => lift (Raise e)
      end
  end.

(** Lines 569-572: the loop of the builtin backend. *)
Definition builtin_loop (action_strings : list string) : list command :=
  flat_map (fun action_str =>
              match Builtin._parse_builtin_action H action_str with
              | Some c => [c]
              | None => []
              end)
           action_strings.

(** [action_parser or "builtin"] *)
Definition parser_or_builtin (action_parser : option string) : string :=
  match action_parser with
  | Some (String c s) => String c s
  | _ => "builtin"
  end.

(** Lines 523-572: the commands the selected backend parses. *)
Definition parse_all (response : string) (img_height img_width : Z)
                     (action_parser action_parser_callable : option string)
                     (scale_factor : Z) : M (list command) :=
  let action_strings := Extractor._split_multi_actions response in
  let parser_name := PyStr.lower (PyStr.strip (parser_or_builtin action_parser)) in
  if parser_name =? "custom" then
    match action_parser_callable with
    | Some (String c s) =>
        parser <~ lift (_load_custom_action_parser (String c s)) ;;
        emit (CustomParse response img_width img_height scale_factor) ;;;
        p <~ lift (call parser response img_width img_height scale_factor) ;;
        mret (dicts_of p)
    | _ => lift (Raise ValueError)
    end
  else if parser_name =? "ui_tars" then
    parse <~ lift import_ui_tars ;;
    ui_tars_loop parse img_width img_height action_strings []
  else mret (builtin_loop action_strings).

Definition parse_and_execute_action (response : string) (img_height img_width : Z)
                                    (action_parser action_parser_callable : option string)
                                    (scale_factor : Z)
  : M (bool * list string * option string) :=
  parsed_all <~ parse_all response img_height img_width
                          action_parser action_parser_callable scale_factor ;;
  match parsed_all with
  | [] => mret (false, [], None)
  | first :: _ =>
      let first_type := action_type first in
      result <~ execute_pyautogui_action H img_height img_width scale_factor
                                         (Many parsed_all) ;;
      mret (true, result, first_type)
  end.

End Driver.

(** ** A host for running the model on examples *)

Module Demo.
Import PyStr.

(** [float] of a run of decimal digits. *)
Fixpoint digits_value (acc : Z) (s : string) : option Z :=
  match s with
  | "" => Some acc
  | String c s' =>
      if Builtin.is_digit c
      then digits_value (10 * acc + Z.of_N (N_of_ascii c) - 48)%Z s'
      else None
  end.

Definition float_of_digits (s : string) : option float :=
  match s with
  | "" => None
  | _ => match digits_value 0 s with
         | Some z => Some (SF2Prim (binary_normalize prec emax z 0 false))
         | None => None
         end
  end.

(** A Linux desktop of height 1080 without the ui_tars package and without
    importable parser modules. *)
Definition linux : host :=
  {| sysname := "Linux";
     screen_height := 1080;
     literal_eval := fun _ => Raise SyntaxError;
     str_of_seq := fun _ => "[...]";
     float_of_str := float_of_digits;
     import_module := fun _ => Raise ModuleNotFoundError;
     ui_tars := Raise ModuleNotFoundError |}.

(** An external structured parser that knows [wait] only. *)
Definition tars_stub (text : string) (w h : Z) : result parsed :=
  if contains "wait" text then Ok (ParsedDict (Command (Some "wait") []))
  else Raise ValueError.

(** A module [my_parsers] with a function [parse], which answers every
    response with one [finished] command, and a constant [VERSION]. *)
Definition my_parsers (name : string) : option pyobject :=
  if name =? "parse" then
    Some (PyObject true (fun _ _ _ _ => Ok (ParsedDict (Command (Some "finished") []))))
  else if name =? "VERSION" then
    Some (PyObject false (fun _ _ _ _ => Raise TypeError))
  else None.

(** The same desktop with ui_tars and [my_parsers] installed. *)
Definition equipped : host :=
  {| sysname := "Linux";
     screen_height := 1080;
     literal_eval := fun _ => Raise SyntaxError;
     str_of_seq := fun _ => "[...]";
     float_of_str := float_of_digits;
     import_module := fun module_name =>
       if module_name =? "my_parsers" then Ok my_parsers else Raise ModuleNotFoundError;
     ui_tars := Ok tars_stub |}.

End Demo.

(** ** Definitions used to state the properties *)

(** [round(value * image_dimension / scale_factor)] on one axis. *)
Definition scale_axis (v : float) (image_dimension scale_factor : Z) : result Z :=
  vd <- float_mul_int v image_dimension ;;
  vs <- float_div_int vd scale_factor ;;
  round vs.

(** A point of two floats, as a Python list. *)
Definition point_of (x y : float) : value := VSeq [INum (PFloat x); INum (PFloat y)].

(** [max(1, floor(screen_height * 0.25) // 15)], the product taken in
    binary64 as the code takes it. *)
Definition scroll_units (screen_height : Z) : result Z :=
  h <- int_to_float screen_height ;;
  q <- float_floor (h * 0.25)%float ;;
  Ok (Z.max 1 (q / 15)).

(** The same count in integer arithmetic. *)
Definition scroll_units_exact (screen_height : Z) : Z :=
  Z.max 1 (screen_height / 4 / 15).

Definition scroll_units_agree (screen_height : Z) : bool :=
  match scroll_units screen_height with
  | Ok units => (units =? scroll_units_exact screen_height)%Z
  | Raise _ => false
  end.

(** The lowercased direction of a scroll command. *)
Definition scroll_direction (H : host) (action_inputs : dict) : string :=
  PyStr.lower (py_str H (dict_get_default "direction" (VStr "") action_inputs)).

(** [P] on every integer of [lo, lo + 2^bits). *)
Fixpoint all_in (bits : nat) (lo : Z) (P : Z -> bool) : bool :=
  match bits with
  | O => P lo
  | S b => all_in b lo P && all_in b (lo + 2 ^ Z.of_nat b)%Z P
  end.

(** *** The dispatcher, seen from outside *)

(** The settle delay of the loop. *)
Definition settle_delay : event := Sleep (PFloat 0.3).

Section DispatcherSpec.
Variable H : host.
Variables image_height image_width scale_factor : Z.

(** What one command does on its own: the events of its round without the
    settle delay. *)
Definition own_events (c : command) : list event :=
  fst (step H image_height image_width scale_factor c []).

(** Whether the loop ends with this command (it returns or it raises). *)
Definition stops (c : command) : bool :=
  match snd (step H image_height image_width scale_factor c []) with
  | Ok (Next _) => false
  | _ => true
  end.

(** The commands of a batch that are started: all up to and including the
    first that stops the loop. *)
Fixpoint started (cs : list command) : list command :=
  match cs with
  | [] => []
  | c :: cs' => c :: (if stops c then [] else started cs')
  end.

(** The events of a batch as the specification words them: the first started
    command runs at once, every later one behind one settle delay. *)
Definition settled_events (cs : list command) : list event :=
  match started cs with
  | [] => []
  | c :: rest => (own_events c ++ flat_map (fun c' => settle_delay :: own_events c') rest)%list
  end.

End DispatcherSpec.

(** The log to which a round appended, started from another log. *)
Definition relog (log : list string) (r : result control) : result control :=
  match r with
  | Ok (Next items) => Ok (Next (log ++ items)%list)
  | Ok (Return items) => Ok (Return (log ++ items)%list)
  | Raise e => Raise e
  end.

(** The delay in front of the round with this index. *)
Definition settle_events (index : nat) : list event :=
  if Nat.ltb 0 index then [settle_delay] else [].

(** The modifier of the paste shortcut. *)
Definition paste_modifier (H : host) : string :=
  if sysname H =? "Darwin" then "command" else "ctrl".

(** The events of typing [content]. *)
Definition type_events (H : host) (content : string) : list event :=
  ([ClipboardCopy (VStr content); Sleep (PFloat 0.2);
    Hotkey [paste_modifier H; "v"] (PFloat 0.1); Sleep (PFloat 0.5)]
   ++ (if PyStr.endswith nl content || PyStr.endswith "\n" content
       then [Press "enter"] else []))%list.

(** Commands as the builtin parser builds them. *)
Definition click_command (point : list pyitem) : command :=
  Command (Some "click") [("start_box", VSeq point)].

Definition type_command (content : string) : command :=
  Command (Some "type") [("content", VStr content)].

Definition finished_command : command := Command (Some "finished") [].

(** *** The backends, seen from outside *)

(** The backend that [action_parser] selects. *)
Definition selected_parser (action_parser : option string) : string :=
  PyStr.lower (PyStr.strip (parser_or_builtin action_parser)).

(** The ways in which a parser reference fails to resolve, with the error
    each one raises. *)
Inductive resolution_failure (H : host) (callable_path : string) : exn -> Prop :=
| no_separator :
    PyStr.contains ":" callable_path = false ->
    resolution_failure H callable_path ValueError
| import_fails (module_name func_name : string) (e : exn) :
    split_colon callable_path = Some (module_name, func_name) ->
    import_module H module_name = Raise e ->
    resolution_failure H callable_path e
| missing_symbol (module_name func_name : string) (module : string -> option pyobject) :
    split_colon callable_path = Some (module_name, func_name) ->
    import_module H module_name = Ok module ->
    module func_name = None ->
    resolution_failure H callable_path AttributeError
| not_callable (module_name func_name : string) (module : string -> option pyobject)
               (parser : pyobject) :
    split_colon callable_path = Some (module_name, func_name) ->
    import_module H module_name = Ok module ->
    module func_name = Some parser ->
    callable parser = false ->
    resolution_failure H callable_path ValueError.

(** The text the ui_tars backend hands to the external parser. *)
Definition tars_text (action_str : string) : string :=
  let normalized := PyStr.strip action_str in
  if PyStr.contains "Action:" normalized then normalized else "Action: " ++ normalized.

(** The commands one expression contributes: none when the external parser
    raised. *)
Definition commands_of (r : result parsed) : list command :=
  match r with
  | Ok p => dicts_of p
  | Raise _ => []
  end.

(** The outcomes of the external parser that the loop survives. *)
Definition tolerated (r : result parsed) : Prop :=
  match r with
  | Ok _ => True
  | Raise ValueError => True
  | Raise _ => False
  end.

(** *** The builtin parser, seen from outside *)

(** What the builtin parser makes of an expression without call syntax whose
    lowercase text is [kind]. *)
Definition bare_word_command (kind : string) : option command :=
  if kind =? "scroll" then Some (Command (Some "scroll") [("direction", VStr "down")])
  else if kind =? "wait" then Some (Command (Some "wait") [])
  else if kind =? "finished" then Some (Command (Some "finished") [])
  else None.

(** Every character of [s] is an identifier character. *)
Fixpoint all_ident (s : string) : bool :=
  match s with
  | "" => true
  | String c s' => Builtin.ident_char c && all_ident s'
  end.

(** [name] is an identifier: a letter or underscore, then letters, digits
    and underscores. *)
Definition is_identifier (name : string) : bool :=
  match name with
  | "" => false
  | String c s => Builtin.ident_start c && all_ident s
  end.

(** *** The extractor, seen from outside *)

(** The literal [p] occurs somewhere in [s], letter case ignored. *)
Fixpoint occurs_ci (p s : string) : bool :=
  PyStr.prefix_ci p s ||
  match s with
  | "" => false
  | String _ s' => occurs_ci p s'
  end.

(** A start marker and an end marker, in any letter case. *)
Definition open_tag (o : string) : Prop := PyStr.lower o = "<action>".
Definition close_tag (c : string) : Prop := PyStr.lower c = "</action>".

(** A response cut into well-formed delimited spans with their bodies, in
    document order: text without a start marker, then a start marker, a body
    without an end marker, an end marker, and so on. *)
Inductive Tagged : string -> list string -> Prop :=
| tagged_text (t : string) :
    occurs_ci "<action>" t = false ->
    Tagged t []
| tagged_span (t o body c rest : string) (bodies : list string) :
    occurs_ci "<action>" t = false ->
    open_tag o ->
    occurs_ci "</action>" body = false ->
    close_tag c ->
    Tagged rest bodies ->
    Tagged (t ++ o ++ body ++ c ++ rest) (body :: bodies).

(** No character of [p] is a [<] (in either letter case). *)
Fixpoint no_lt (p : string) : bool :=
  match p with
  | "" => true
  | String a p' => negb (PyStr.lower_char "<" =? PyStr.lower_char a)%char && no_lt p'
  end.

(** The action expressions of the delimited spans with these bodies. *)
Definition labelled_bodies (bodies : list string) : list string :=
  map Extractor.label (filter PyStr.nonempty (map PyStr.strip bodies)).

(** *** More on the dispatcher *)

(** The kinds the [if]/[elif] chain of the dispatcher knows. *)
Definition handled_kinds : list string :=
  ["type"; "drag"; "select"; "scroll"; "click"; "left_single"; "left_double";
   "right_single"; "hover"; "hotkey"; "finished"; "wait"].

(** No argument is a [str] that holds the point marker. *)
Definition marker_free (d : dict) : Prop :=
  forall (k s : string), In (k, VStr s) d -> PyStr.contains "<point>" s = false.

(** The four kinds that act on one point. *)
Definition pointer_kinds : list string :=
  ["click"; "left_single"; "left_double"; "right_single"; "hover"].

(** *** More on the builtin parser and the extractor *)

(** The kinds for which the builtin parser builds a command. *)
Definition builtin_kinds : list string :=
  ["click"; "left_single"; "left_double"; "right_single"; "hover";
   "drag"; "select"; "scroll"; "type"; "hotkey"; "wait"; "finished"].

(** The character [q] occurs in [s]. *)
Fixpoint has_char (q : ascii) (s : string) : bool :=
  match s with
  | "" => false
  | String c s' => (c =? q)%char || has_char q s'
  end.

(** A call as text: [name(args)]. *)
Definition call_text_of (name args : string) : string := name ++ "(" ++ args ++ ")".

(** An argument as text: [name='v']. *)
Definition quoted_text (name v : string) : string := name ++ "='" ++ v ++ "'".

(** *** Model inference and the screen operation *)

Definition COORDINATE_SCALE : Z := 1000.
Definition SCREENSHOT_FORMAT : string := "jpeg".
Definition DEFAULT_MODEL : string := "gpt-4o-mini".
Definition DEFAULT_BASE_URL : string := "https://api.openai.com/v1".

(** [COMPUTER_USE_PROMPT] up to the place of the instruction; a newline
    follows the instruction. *)
Definition COMPUTER_USE_PROMPT_head : string :=
  "You are a GUI agent. You are given a task and your action history, with screenshots. You need to perform actions to complete the task.

## Output Format (STRICT - Use XML tags)
Wrap EACH action in <action></action> tags. Output actions only, NO explanations.

Single action:
<action>click(point='<point>512 384</point>')</action>

Multiple actions (same screen, no UI change between):
<action>click(point='<point>512 384</point>')</action>
<action>type(content='hello')</action>
<action>hotkey(key='enter')</action>

IMPORTANT: Only use multiple <action> tags when they can execute on CURRENT screen without waiting.

## Action Space
click(point='<point>x1 y1</point>')
left_double(point='<point>x1 y1</point>')
right_single(point='<point>x1 y1</point>')
drag(start_point='<point>x1 y1</point>', end_point='<point>x2 y2</point>')
hotkey(key='ctrl c')
type(content='xxx')
scroll(point='<point>x1 y1</point>', direction='down or up or right or left')
wait()
finished(content='xxx')

## User Instruction
".

(** [COMPUTER_USE_PROMPT.format(instruction=instruction)] *)
Definition format_prompt (instruction : string) : string :=
  COMPUTER_USE_PROMPT_head ++ instruction ++ nl.

(** The two user messages of [build_conversation]: the prompt, and the
    screenshot as a data URL behind the text [[Current Screenshot]]. *)
Record conversation : Set := Conversation {
  system_prompt : string;
  image_url : string
}.

Definition build_conversation (instruction base64_image image_format : string)
  : conversation :=
  {| system_prompt := format_prompt instruction;
     image_url := "data:image/" ++ image_format ++ ";base64," ++ base64_image |}.

(** One part of a message content that is a list: a dict with its text
    (when it has one that is a [str]), or something else. *)
Inductive chat_part : Set :=
| PartDict (text : option string)
| PartOther.

(** The content of a message: a [str], a list, or anything else with its
    [str()] (a missing content is [None], whose [str()] is [None] as text). *)
Inductive chat_content : Set :=
| ContentStr (s : string)
| ContentList (parts : list chat_part)
| ContentOther (as_str : string).

(** Lines 164-169: the texts of the parts that are dicts with a true text. *)
Definition part_texts (part : chat_part) : list string :=
  match part with
  | PartDict (Some (String c s)) => [String c s]
  | PartDict _ => []
  | PartOther => []
  end.

Definition _normalize_chat_content (content : chat_content) : string :=
  match content with
  | ContentStr s => s
  | ContentList parts => PyStr.join nl (flat_map part_texts parts)
  | ContentOther as_str => as_str
  end.

(** The answer of the provider: the status and, per choice, the content of
    its message (None when the message or its content is missing). *)
Record http_response : Set := HttpResponse {
  status_code : Z;
  choices : list (option chat_content)
}.

(** [message.get("content")] as handed to [_normalize_chat_content]. *)
Definition content_of_choice (choice : option chat_content) : chat_content :=
  match choice with
  | Some content => content
  | None => ContentOther "None"
  end.

(** Lines 195-208: what [_call_model_inference_async] makes of the answer. *)
Definition read_reply (response : http_response) : result string :=
  if (400 <=? status_code response)%Z then Raise ValueError
  else
    match choices response with
    | [] => Raise ValueError
    | first :: _ =>
        match _normalize_chat_content (content_of_choice first) with
        | "" => Raise ValueError
        | content => Ok content
        end
    end.

(** [s.rstrip(chars)] for one character. *)
Fixpoint rstrip_char (q : ascii) (s : string) : string :=
  match s with
  | "" => ""
  | String c s' =>
      match rstrip_char q s' with
      | "" => if (c =? q)%char then "" else String c ""
      | r => String c r
      end
  end.

(** Lines 181-183: the address the request is posted to. *)
Definition endpoint_of (base_url : string) : string :=
  let endpoint := rstrip_char "/" base_url in
  if PyStr.endswith "/chat/completions" endpoint then endpoint
  else endpoint ++ "/chat/completions".

(** [x or default] for an optional [str]. *)
Definition str_or_default (x : option string) (default : string) : string :=
  match x with
  | Some (String c s) => String c s
  | _ => default
  end.

(** The desktop and the provider around the engine. *)
Record desktop : Type := Desktop {
  engine_host : host;
  gui_import : result unit;                    (* the imports of _import_gui_dependencies *)
  capture : result (Z * Z * string);           (* capture_screenshot: width, height, base64 *)
  post : string -> string -> string -> conversation -> result http_response
                                               (* client.post: endpoint, key, model, messages *)
}.

(** What happens outside the engine, and inside it. *)
Inductive outer_event : Type :=
| Captured
| Requested (endpoint api_key model_name : string) (messages : conversation)
| Acted (e : event).

Definition call_model_inference (D : desktop) (messages : conversation)
           (api_key : string) (model_name base_url : option string)
  : list outer_event * result string :=
  match api_key with
  | "" => ([], Raise ValueError)
  | _ =>
      let model_name := str_or_default model_name DEFAULT_MODEL in
      let base_url := str_or_default base_url DEFAULT_BASE_URL in
      let endpoint := endpoint_of base_url in
      ([Requested endpoint api_key model_name messages],
       response <- post D endpoint api_key model_name messages ;;
       read_reply response)
  end.

(** [AutomationResult] without its timing; the error is kept as the
    exception, not as its text. *)
Record AutomationResult : Set := {
  success : bool;
  image_size : option (Z * Z);
  response : option string;
  execution_result : option (list string);
  action_triggered : bool;
  result_action_type : option string;
  error : option exn
}.

(** Lines 637-648: the result of a run that raised. *)
Definition failed (e : exn) : AutomationResult :=
  {| success := false; image_size := None; response := None;
     execution_result := None; action_triggered := false;
     result_action_type := None; error := Some e |}.

(** Lines 36-46: a missing module becomes a DependencyError. *)
Definition _import_gui_dependencies (D : desktop) : result unit :=
  match gui_import D with
  | Ok deps => Ok deps
  | Raise ModuleNotFoundError => Raise DependencyError
  | Raise e => Raise e
  end.

Definition auto_screen_operation (D : desktop) (instruction api_key : string)
           (model_name base_url : option string)
           (action_parser action_parser_callable : option string)
           (execute_action : bool)
  : list outer_event * AutomationResult :=
  match _import_gui_dependencies D with
  | Raise e => ([], failed e)
  | Ok _ =>
      match capture D with
      | Raise e => ([Captured], failed e)
      | Ok (img_width, img_height, base64_image) =>
          let messages := build_conversation instruction base64_image SCREENSHOT_FORMAT in
          match call_model_inference D messages api_key model_name base_url with
          | (t, Raise e) => (Captured :: t, failed e)
          | (t, Ok reply) =>
              if execute_action then
                match parse_and_execute_action (engine_host D) reply img_height img_width
                        action_parser action_parser_callable COORDINATE_SCALE with
                | (t', Raise e) =>
                    ((Captured :: t) ++ Acted (Sleep (PFloat 0.5)) :: map Acted t',
                     failed e)%list
                | (t', Ok (triggered, steps, first_type)) =>
                    ((Captured :: t) ++ Acted (Sleep (PFloat 0.5)) :: map Acted t',
                     {| success := true; image_size := Some (img_width, img_height);
                        response := Some reply; execution_result := Some steps;
                        action_triggered := triggered;
                        result_action_type := first_type; error := None |})%list
                end
              else
                (Captured :: t,
                 {| success := true; image_size := Some (img_width, img_height);
                    response := Some reply; execution_result := None;
                    action_triggered := false;
                    result_action_type := None; error := None |})
          end
      end
  end.

(** Whether an event is a call of the engine. *)
Definition is_action (ev : outer_event) : bool :=
  match ev with
  | Acted _ => true
  | _ => false
  end.


(** A desktop for the examples: the equipped host behind a screen of
    1920 x 1080, and a provider that answers every request alike. *)
Definition demo_desktop (answer : result http_response) : desktop :=
  {| engine_host := Demo.equipped;
     gui_import := Ok tt;
     capture := Ok (1920, 1080, "aGVsbG8=")%Z;
     post := fun _ _ _ _ => answer |}.

(** An answer of status 200 with one choice whose content is the text. *)
Definition answer_text (text : string) : result http_response :=
  Ok (HttpResponse 200 [Some (ContentStr text)]).

(** ** The configuration and the command line around the engine *)

(** Truth of an optional [str]: neither [None] nor empty. *)
Definition truthy_str (o : option string) : bool :=
  match o with
  | Some (String _ _) => true
  | _ => false
  end.

(** [a or b] for optional [str]s. *)
Definition str_or_else (a b : option string) : option string :=
  if truthy_str a then a else b.

Module Config.

Definition ENV_API_KEY : string := "GUI_VISION_API_KEY".
Definition ENV_MODEL : string := "GUI_VISION_MODEL".
Definition ENV_BASE_URL : string := "GUI_VISION_BASE_URL".
Definition ENV_ACTION_PARSER : string := "GUI_VISION_ACTION_PARSER".
Definition ENV_ACTION_PARSER_CALLABLE : string := "GUI_VISION_ACTION_PARSER_CALLABLE".

(** [MigiConfig]; what a config file holds under a key is taken to be a
    [str] or [None]. *)
Record MigiConfig : Set := {
  provider : option string;
  api_key : option string;
  model : option string;
  base_url : option string;
  action_parser : option string;
  action_parser_callable : option string
}.

(** The environment variables, and [load_file_config] by the path given on
    the command line (None: the resolved default path). *)
Record environment : Type := {
  environ : string -> option string;
  load_file_config : option string -> result MigiConfig
}.

(** [sources], in the order in which the keys are set. *)
Definition sources : Set := list (string * string).

Fixpoint source_of (key : string) (srcs : sources) : option string :=
  match srcs with
  | [] => None
  | (k, v) :: srcs' => if k =? key then Some v else source_of key srcs'
  end.

(** The pattern of lines 118-126, which the function repeats for the model,
    the base URL and the parser reference: the command line, then the
    environment, then the file. *)
Definition from_cli_env_file (cli env file : option string) : option string * string :=
  if truthy_str cli then (cli, "cli")
  else if truthy_str env then (env, "env")
  else (file, if truthy_str file then "config" else "unset").

Definition resolve_runtime_config (E : environment)
           (cli_api_key cli_model cli_base_url cli_provider
            cli_action_parser cli_action_parser_callable : option string)
           (path : option string) : result (MigiConfig * sources) :=
  file_cfg <- load_file_config E path ;;
  let provider_ :=
    str_or_else (str_or_else cli_provider (provider file_cfg)) (Some "openai-compatible") in
  let provider_source :=
    if truthy_str cli_provider then "cli"
    else if truthy_str (provider file_cfg) then "config" else "default" in
  let (api_key_, api_key_source) :=
    from_cli_env_file cli_api_key (environ E ENV_API_KEY) (api_key file_cfg) in
  let (model_, model_source) :=
    from_cli_env_file cli_model (environ E ENV_MODEL) (model file_cfg) in
  let (base_url_, base_url_source) :=
    from_cli_env_file cli_base_url (environ E ENV_BASE_URL) (base_url file_cfg) in
  let (action_parser_, action_parser_source) :=
    if truthy_str cli_action_parser then (cli_action_parser, "cli")
    else if truthy_str (environ E ENV_ACTION_PARSER)
         then (environ E ENV_ACTION_PARSER, "env")
         else (str_or_else (action_parser file_cfg) (Some "doubao"),
               if truthy_str (action_parser file_cfg) then "config" else "default") in
  let (action_parser_callable_, action_parser_callable_source) :=
    from_cli_env_file cli_action_parser_callable (environ E ENV_ACTION_PARSER_CALLABLE)
                      (action_parser_callable file_cfg) in
  Ok ({| provider := provider_; api_key := api_key_; model := model_;
         base_url := base_url_; action_parser := action_parser_;
         action_parser_callable := action_parser_callable_ |},
      [("provider", provider_source); ("api_key", api_key_source);
       ("model", model_source); ("base_url", base_url_source);
       ("action_parser", action_parser_source);
       ("action_parser_callable", action_parser_callable_source)]).

End Config.

Module Cli.

(** The parsed arguments of [see] and [act]. *)
Record Namespace : Set := {
  instruction : string;
  api_key : option string;
  model : option string;
  base_url : option string;
  provider : option string;
  action_parser : option string;
  action_parser_callable : option string;
  config_path : option string;
  no_exec : bool
}.

(** The [data] of a payload. *)
Inductive payload_data : Set :=
| NoData
| SourcesData (srcs : Config.sources)              (* {"sources": sources} *)
| ResultData (result : AutomationResult)           (* {"result": result} *)
| RunData (instruction : string) (effective : Config.MigiConfig) (srcs : Config.sources)
          (analysis_response analysis_action_type : option string)
          (executed action_triggered : bool) (steps : list string)
          (image_size : option (Z * Z)).

(** What [ResultBuilder.ok] and [ResultBuilder.fail] return, without the
    constant texts and the meta data; of the error its type and, where it
    comes from the run, the exception. *)
Record payload : Set := {
  ok : bool;
  command : string;
  code : string;
  data : payload_data;
  error_type : option string;
  error_detail : option exn
}.

Definition builder_ok (command code : string) (data : payload_data) : payload :=
  {| ok := true; command := command; code := code; data := data;
     error_type := None; error_detail := None |}.

Definition builder_fail (command code error_type : string) (detail : option exn)
           (data : payload_data) : payload :=
  {| ok := false; command := command; code := code; data := data;
     error_type := Some error_type; error_detail := detail |}.

(** The desktop, the environment and the config files. *)
Record world : Type := {
  gui : desktop;
  os : Config.environment
}.

(** [result["execution_result"] or []] *)
Definition steps_or_nil (execution_result : option (list string)) : list string :=
  match execution_result with
  | Some steps => steps
  | None => []
  end.

Definition _handle_see_or_act (W : world) (args : Namespace) (command : string)
  : list outer_event * result payload :=
  let cfg_path := if truthy_str (config_path args) then config_path args else None in
  match Config.resolve_runtime_config (os W) (api_key args) (model args) (base_url args)
          (provider args) (action_parser args) (action_parser_callable args) cfg_path with
  | Raise e => ([], Raise e)
  | Ok (effective, srcs) =>
      match Config.api_key effective with
      | Some (String c key) =>
          if match Config.action_parser effective with
             | Some name => name =? "custom"
             | None => false
             end
             && negb (truthy_str (Config.action_parser_callable effective))
          then ([], Ok (builder_fail command "CONFIG_INVALID" "ConfigError" None
                                     (SourcesData srcs)))
          else
            let execute_action := if command =? "see" then false else negb (no_exec args) in
            let (t, result) :=
              auto_screen_operation (gui W) (instruction args) (String c key)
                                    (Config.model effective) (Config.base_url effective)
                                    (Config.action_parser effective)
                                    (Config.action_parser_callable effective)
                                    execute_action in
            if negb (success result)
            then (t, Ok (builder_fail command "ACTION_FAILED" "AutomationError"
                                      (error result) (ResultData result)))
            else (t, Ok (builder_ok command
                                    (if execute_action then "ACTION_DONE" else "ANALYSIS_DONE")
                                    (RunData (instruction args) effective srcs
                                             (response result) (result_action_type result)
                                             execute_action (action_triggered result)
                                             (steps_or_nil (execution_result result))
                                             (image_size result))))
      | _ => ([], Ok (builder_fail command "CONFIG_MISSING" "ConfigError" None
                                   (SourcesData srcs)))
      end
  end.



End Cli.

(** A world for the examples: the demo desktop, the given environment
    variables and no config file. *)
Definition no_file_config : Config.MigiConfig :=
  {| Config.provider := Some "openai-compatible"; Config.api_key := None;
     Config.model := None; Config.base_url := None;
     Config.action_parser := Some "doubao"; Config.action_parser_callable := None |}.

Definition demo_world (variables : list (string * string)) (answer : result http_response)
  : Cli.world :=
  {| Cli.gui := demo_desktop answer;
     Cli.os := {| Config.environ := fun name => Config.source_of name variables;
                  Config.load_file_config := fun _ => Ok no_file_config |} |}.

(** The arguments of [migi act <instruction>] without options. *)
Definition plain_args (instruction : string) : Cli.Namespace :=
  {| Cli.instruction := instruction; Cli.api_key := None; Cli.model := None;
     Cli.base_url := None; Cli.provider := None; Cli.action_parser := None;
     Cli.action_parser_callable := None; Cli.config_path := None;
     Cli.no_exec := false |}.


(** * Running the model *)

Module PyStrExamples.
Import PyStr.
Local Open Scope string_scope.

Example strip_ex : strip "  wait()
 " = "wait()".
Proof. reflexivity. Qed.

Example lower_ex : lower "Action: CLICK" = "action: click".
Proof. reflexivity. Qed.

Example replace_ex : replace "<point>" "" "<point>1 2</point>" = "1 2</point>".
Proof. reflexivity. Qed.

Example split_ex : split " ctrl  c " = ["ctrl"; "c"].
Proof. reflexivity. Qed.

Example re_split_ex : re_split_ws "12  34 5" = ["12"; "34"; "5"].
Proof. reflexivity. Qed.

Example re_split_empty : re_split_ws "" = [""].
Proof. reflexivity. Qed.

Example of_int_ex : (of_int 960, of_int (-7), of_int 0) = ("960", "-7", "0").
Proof. reflexivity. Qed.

Example endswith_ex : endswith "c" "abc" = true /\ endswith "b" "abc" = false.
Proof. split; reflexivity. Qed.

End PyStrExamples.

Module PyNumExamples.
Import PyNum.
Local Open Scope Z_scope.

Example round_ties : (round 0.5, round 1.5, round 2.5, round (-2.5), round (-0.5))
                     = (Ok 0, Ok 2, Ok 2, Ok (-2), Ok 0).
Proof. vm_compute. reflexivity. Qed.

Example round_plain : (round 2.4, round 2.6, round (-7.5), round 1e20)
                      = (Ok 2, Ok 3, Ok (-8), Ok 100000000000000000000).
Proof. vm_compute. reflexivity. Qed.

Example round_nan : (round nan, round infinity) = (Raise ValueError, Raise OverflowError).
Proof. vm_compute. reflexivity. Qed.

Example int_to_float_ex : (int_to_float 1920, int_to_float (2 ^ 1024))
                          = (Ok 1920%float, Raise OverflowError).
Proof. vm_compute. reflexivity. Qed.

Example int_to_float_ties : int_to_float (2 ^ 53 + 1) = Ok 9007199254740992%float.
Proof. vm_compute. reflexivity. Qed.

Example int_half_ex : (int_half 400, int_half 3, int_half (-1))
                      = (Ok 200%float, Ok 1.5%float, Ok (-0.5)%float).
Proof. vm_compute. reflexivity. Qed.

Example float_to_int_ex : (float_to_int 270.75, float_to_int (-0.25), float_floor (-0.25))
                          = (Ok 270, Ok 0, Ok (-1)).
Proof. vm_compute. reflexivity. Qed.

Example float_le_int_ex :
  (float_le_int 1000 1000, float_le_int 1000.5 1000, float_le_int nan 1000,
   float_le_int 0.1 0, float_le_int (-3) (-3))
  = (true, false, false, false, true).
Proof. vm_compute. reflexivity. Qed.

Example float_div_zero : float_div_int 0 0 = Raise ZeroDivisionError.
Proof. vm_compute. reflexivity. Qed.

End PyNumExamples.

Module ExtractorExamples.
Import PyStr Extractor.

Example two_spans :
  _split_multi_actions
    "First <action>click(point='<point>512 384</point>')</action> then <ACTION> wait() </Action>."
  = ["Action: click(point='<point>512 384</point>')"; "Action: wait()"].
Proof. reflexivity. Qed.

Example unclosed_span :
  _split_multi_actions "<action>wait()" = ["Action: wait()"].
Proof. reflexivity. Qed.

Example bare_calls :
  _split_multi_actions "I will Action: click(point='<point>1 2</point>') and then TYPE (content='a')!"
  = ["Action: click(point='<point>1 2</point>')"; "Action: TYPE (content='a')"].
Proof. reflexivity. Qed.

Example last_resort :
  _split_multi_actions "  nothing to do  " = ["Action: nothing to do"].
Proof. reflexivity. Qed.

End ExtractorExamples.

Module DemoExamples.
Import Demo.

Example parse_click :
  Builtin._parse_builtin_action linux "Action: click(point='<point>500 500</point>')"
  = Some (Command (Some "click") [("start_box", VSeq [INum (PFloat 500); INum (PFloat 500)])]).
Proof. vm_compute. reflexivity. Qed.

Example parse_drag :
  Builtin._parse_builtin_action linux
    "drag(start_point='<point>1 2</point>', end_point='<point>3 4</point>')"
  = Some (Command (Some "drag") [("start_box", VSeq [INum (PFloat 1); INum (PFloat 2)]);
                                 ("end_box", VSeq [INum (PFloat 3); INum (PFloat 4)])]).
Proof. vm_compute. reflexivity. Qed.

Example parse_unknown : Builtin._parse_builtin_action linux "foobar(x=1)" = None.
Proof. vm_compute. reflexivity. Qed.

Example run_click_type :
  parse_and_execute_action linux
    "<action>click(point='<point>500 500</point>')</action><action>type(content='hi')</action>"
    1080 1920 (Some "doubao") None 1000
  = ([Click 960 540 None; Sleep (PFloat 0.3); ClipboardCopy (VStr "hi");
      Sleep (PFloat 0.2); Hotkey ["ctrl"; "v"] (PFloat 0.1); Sleep (PFloat 0.5)],
     Ok (true, ["click:960,540"; "type:hi"], Some "click")).
Proof. vm_compute. reflexivity. Qed.

Example run_hotkey_scroll :
  parse_and_execute_action linux
    "hotkey(key='Control c') scroll(direction='Up')"
    1080 1920 None None 1000
  = ([Hotkey ["ctrl"; "c"] (PFloat 0.1); Sleep (PFloat 0.3); ScrollBy 18 None],
     Ok (true, ["hotkey:ctrl+c"; "scroll:up"], Some "hotkey")).
Proof. vm_compute. reflexivity. Qed.

End DemoExamples.

(** * Properties *)

Unset Implicit Arguments.

(** ** Laws of the two monads *)

Section MonadFacts.
Context {A B C : Type}.

Lemma mbind_mret (a : A) (k : A -> M B) : mbind (mret a) k = k a.
Proof. unfold mbind, mret. destruct (k a); reflexivity. Qed.

Lemma mbind_lift_ok (a : A) (k : A -> M B) : mbind (lift (Ok a)) k = k a.
Proof. exact (mbind_mret a k). Qed.

Lemma mbind_lift_raise (e : exn) (k : A -> M B) :
  mbind (lift (Raise e)) k = ([], Raise e).
Proof. reflexivity. Qed.

Lemma mbind_events (t : list event) (a : A) (k : A -> M B) :
  mbind (t, Ok a) k = ((t ++ fst (k a))%list, snd (k a)).
Proof. unfold mbind. destruct (k a); reflexivity. Qed.

Lemma mbind_raise (t : list event) (e : exn) (k : A -> M B) :
  mbind (t, Raise e) k = (t, Raise e).
Proof. reflexivity. Qed.

Lemma mbind_assoc (c : M A) (k : A -> M B) (k' : B -> M C) :
  mbind (mbind c k) k' = mbind c (fun a => mbind (k a) k').
Proof.
  destruct c as [t [a|e]]; [|reflexivity].
  unfold mbind at 2 3. destruct (k a) as [t1 [b|e]].
  - unfold mbind. destruct (k' b) as [t2 r]. now rewrite app_assoc.
  - reflexivity.
Qed.

End MonadFacts.

Lemma mbind_emit {B : Type} (ev : event) (k : unit -> M B) :
  mbind (emit ev) k = (ev :: fst (k tt), snd (k tt)).
Proof. unfold emit. now rewrite mbind_events. Qed.

Ltac msimpl :=
  repeat (rewrite ?mbind_mret, ?mbind_lift_ok, ?mbind_lift_raise, ?mbind_emit; cbn [fst snd]).

(** ** Coordinate normalizer *)

Section NormalizerFacts.
Local Open Scope Z_scope.

Lemma point_to_screen_xy_cases (H : host) (x y : float) (w h s : Z) :
  _point_to_screen_xy H (point_of x y) w h s =
  if float_le_int (abs x) s && float_le_int (abs y) s
  then px <- scale_axis x w s ;; py <- scale_axis y h s ;; Ok (px, py)
  else px <- round x ;; py <- round y ;; Ok (px, py).
Proof.
  unfold _point_to_screen_xy, scale_axis, point_of; simpl.
  destruct (float_le_int (abs x) s && float_le_int (abs y) s); [|reflexivity].
  destruct (float_mul_int x w) as [xw|e]; simpl; [|reflexivity].
  destruct (float_div_int xw s) as [xs|e]; simpl; [|reflexivity].
  destruct (round xs) as [px|e]; simpl; [|reflexivity].
  destruct (float_mul_int y h) as [yh|e]; simpl; [|reflexivity].
  destruct (float_div_int yh s) as [ys|e]; simpl; reflexivity.
Qed.

(** An [int] coordinate is converted by [float()] first. *)
Lemma point_to_screen_xy_int (H : host) (a b : Z) (x y : float) (w h s : Z) :
  int_to_float a = Ok x -> int_to_float b = Ok y ->
  _point_to_screen_xy H (VSeq [INum (PInt a); INum (PInt b)]) w h s =
  _point_to_screen_xy H (point_of x y) w h s.
Proof.
  intros Ha Hb. unfold _point_to_screen_xy, point_of; simpl.
  rewrite Ha, Hb. reflexivity.
Qed.

(** C2: for every point [(x, y)], width [w], height [h] and scale [s],
    [_point_to_screen_xy] returns [(round(x*w/s), round(y*h/s))] when
    [|x| <= s] and [|y| <= s], and [(round(x), round(y))] otherwise (an error
    of [round] or of the division is the error of the call); point
    [(500, 500)] on a 1920x1080 screen with scale 1000 maps to [(960, 540)],
    and point [(1200, 50)] with scale 1000 is returned as [(1200, 50)] on
    every screen. *)
Theorem point_to_screen_xy_spec :
  (forall (H : host) (x y : float) (w h s : Z),
      _point_to_screen_xy H (point_of x y) w h s =
      if float_le_int (abs x) s && float_le_int (abs y) s
      then px <- scale_axis x w s ;; py <- scale_axis y h s ;; Ok (px, py)
      else px <- round x ;; py <- round y ;; Ok (px, py))
  /\ (forall H : host,
         _point_to_screen_xy H (point_of 500 500) 1920 1080 1000 = Ok (960, 540)
         /\ _point_to_screen_xy H (VSeq [INum (PInt 500); INum (PInt 500)]) 1920 1080 1000
            = Ok (960, 540))
  /\ (forall (H : host) (w h : Z),
         _point_to_screen_xy H (point_of 1200 50) w h 1000 = Ok (1200, 50)
         /\ _point_to_screen_xy H (VSeq [INum (PInt 1200); INum (PInt 50)]) w h 1000
            = Ok (1200, 50)).
Proof.
  split; [exact point_to_screen_xy_cases|split].
  - intro H; split.
    + rewrite point_to_screen_xy_cases. vm_compute. reflexivity.
    + rewrite (@point_to_screen_xy_int H 500 500 500%float 500%float)
        by (vm_compute; reflexivity).
      rewrite point_to_screen_xy_cases. vm_compute. reflexivity.
  - intros H w h; split.
    + rewrite point_to_screen_xy_cases.
      replace (float_le_int (abs 1200) 1000) with false by (vm_compute; reflexivity).
      vm_compute. reflexivity.
    + rewrite (@point_to_screen_xy_int H 1200 50 1200%float 50%float)
        by (vm_compute; reflexivity).
      rewrite point_to_screen_xy_cases.
      replace (float_le_int (abs 1200) 1000) with false by (vm_compute; reflexivity).
      vm_compute. reflexivity.
Qed.

(** The boundary of the scale is inside the scaled range. *)
Example point_at_scale_boundary (H : host) :
  _point_to_screen_xy H (point_of 1000 (-1000)) 1920 1080 1000 = Ok (1920, -1080)
  /\ _point_to_screen_xy H (point_of 1000.5 0) 1920 1080 1000 = Ok (1000, 0).
Proof. split; rewrite point_to_screen_xy_cases; vm_compute; reflexivity. Qed.

(** A zero scale divides by zero; a NaN cannot be rounded. *)
Example point_errors (H : host) :
  _point_to_screen_xy H (point_of 0 0) 1920 1080 0 = Raise ZeroDivisionError
  /\ _point_to_screen_xy H (point_of nan 5) 1920 1080 1000 = Raise ValueError.
Proof. split; rewrite point_to_screen_xy_cases; vm_compute; reflexivity. Qed.

(** The centre of a box of four floats. *)
Lemma box_center_floats (x1 y1 x2 y2 : float) :
  box_center (VSeq [INum (PFloat x1); INum (PFloat y1); INum (PFloat x2); INum (PFloat y2)])
  = Ok (((x1 + x2) / 2)%float, ((y1 + y2) / 2)%float).
Proof. reflexivity. Qed.

(** C8: for every four-element box and every geometry, [_box_to_screen_xy]
    is [_point_to_screen_xy] of the centre [((x1+x2)/2, (y1+y2)/2)]; the box
    [(100, 100, 300, 300)] has the centre [(200, 200)]. *)
Theorem box_to_screen_xy_center :
  (forall (H : host) (a b c d : pyitem) (w h s : Z),
      _box_to_screen_xy H (VSeq [a; b; c; d]) w h s =
      ' (x, y) <- box_center (VSeq [a; b; c; d]) ;;
      _point_to_screen_xy H (point_of x y) w h s)
  /\ (forall (H : host) (x1 y1 x2 y2 : float) (w h s : Z),
         _box_to_screen_xy H
           (VSeq [INum (PFloat x1); INum (PFloat y1); INum (PFloat x2); INum (PFloat y2)]) w h s
         = _point_to_screen_xy H (point_of ((x1 + x2) / 2) ((y1 + y2) / 2)) w h s)
  /\ box_center (VSeq [INum (PInt 100); INum (PInt 100); INum (PInt 300); INum (PInt 300)])
     = Ok (200%float, 200%float)
  /\ box_center (VSeq [INum (PFloat 100); INum (PFloat 100); INum (PFloat 300); INum (PFloat 300)])
     = Ok (200%float, 200%float).
Proof.
  split; [|split; [|split]].
  - intros H a b c d w h s. reflexivity.
  - intros H x1 y1 x2 y2 w h s. reflexivity.
  - vm_compute. reflexivity.
  - vm_compute. reflexivity.
Qed.

End NormalizerFacts.

(** ** Scrolling *)

Section ScrollFacts.
Local Open Scope Z_scope.

(** [int()] truncates and [floor] rounds down; after the division by 15 and
    the minimum of one unit the difference is gone. *)
Lemma units_trunc_floor (f : float) :
  (q <- float_to_int f ;; Ok (Z.max 1 (q / 15))) =
  (q <- float_floor f ;; Ok (Z.max 1 (q / 15))).
Proof.
  unfold float_to_int, float_floor.
  destruct (Prim2SF f) as [s| s| |s m e]; try reflexivity.
  destruct (0 <=? e) eqn:He; [reflexivity|]. simpl. f_equal.
  apply Z.leb_gt in He.
  assert (Hd : 0 < 2 ^ (- e)) by (apply Z.pow_pos_nonneg; lia).
  destruct s; unfold signed.
  - assert (H1 : Z.quot (Z.neg m) (2 ^ (- e)) <= 0).
    { change (Z.neg m) with (- Z.pos m). rewrite Z.quot_opp_l by lia.
      assert (0 <= Z.quot (Z.pos m) (2 ^ (- e))) by (apply Z.quot_pos; lia). lia. }
    assert (H2 : Z.neg m / 2 ^ (- e) <= 0).
    { apply Z.div_le_upper_bound; lia. }
    assert (H3 : Z.quot (Z.neg m) (2 ^ (- e)) / 15 <= 0)
      by (apply Z.div_le_upper_bound; lia).
    assert (H4 : Z.neg m / 2 ^ (- e) / 15 <= 0)
      by (apply Z.div_le_upper_bound; lia).
    lia.
  - rewrite Z.quot_div_nonneg by lia. reflexivity.
Qed.

Lemma scroll_amount_units (h : Z) : scroll_amount h = scroll_units h.
Proof.
  unfold scroll_amount, scroll_units, PIXELS_PER_SCROLL_CLICK.
  destruct (int_to_float h) as [f|e]; [|reflexivity]. simpl.
  apply units_trunc_floor.
Qed.

Lemma all_in_spec (bits : nat) : forall (lo : Z) (P : Z -> bool),
  all_in bits lo P = true -> forall h, lo <= h < lo + 2 ^ Z.of_nat bits -> P h = true.
Proof.
  induction bits as [|b IH]; intros lo P Hall h Hh.
  - simpl in *. replace h with lo by lia. exact Hall.
  - simpl in Hall. apply andb_prop in Hall. destruct Hall as [H1 H2].
    rewrite Nat2Z.inj_succ, Z.pow_succ_r in Hh by lia.
    destruct (Z_lt_le_dec h (lo + 2 ^ Z.of_nat b)).
    + apply (IH lo); [exact H1|lia].
    + apply (IH (lo + 2 ^ Z.of_nat b)); [exact H2|lia].
Qed.

Lemma scroll_units_checked : all_in 14 0 scroll_units_agree = true.
Proof. vm_compute. reflexivity. Qed.

Lemma scroll_units_in_range (h : Z) :
  0 <= h <= 16383 -> scroll_units h = Ok (scroll_units_exact h).
Proof.
  intros Hh.
  assert (Hagree : scroll_units_agree h = true).
  { apply (@all_in_spec 14 0 _ scroll_units_checked). simpl. lia. }
  unfold scroll_units_agree in Hagree.
  destruct (scroll_units h) as [u|e]; [|discriminate].
  apply Z.eqb_eq in Hagree. now subst.
Qed.

Lemma step_scroll (H : host) (ih iw sf : Z) (c : command) (inputs : dict)
      (xy : option (Z * Z)) (units : Z) (log : list string) :
  action_type c = Some "scroll" ->
  normalize_inputs H (action_inputs c) [] = Ok inputs ->
  scroll_target H ih iw sf inputs = Ok xy ->
  scroll_units (screen_height H) = Ok units ->
  step H ih iw sf c log =
  if PyStr.contains "up" (scroll_direction H inputs)
  then ([ScrollBy units xy], Ok (Next (append log "scroll:up")))
  else if PyStr.contains "down" (scroll_direction H inputs)
       then ([ScrollBy (- units) xy], Ok (Next (append log "scroll:down")))
       else ([], Ok (Next log)).
Proof.
  intros Ht Hn Hxy Hu.
  unfold step. rewrite Hn, Ht. msimpl.
  unfold dispatch. cbn [kind_is kind_in existsb String.eqb Ascii.eqb Bool.eqb orb].
  unfold do_scroll. rewrite Hxy, scroll_amount_units, Hu. msimpl.
  fold (scroll_direction H inputs).
  destruct (PyStr.contains "up" (scroll_direction H inputs)); [reflexivity|].
  destruct (PyStr.contains "down" (scroll_direction H inputs)); reflexivity.
Qed.

(** C9: for every scroll command whose arguments pass the normalisation
    that opens every round and whose target, if it has one, resolves to a
    point, the dispatcher computes the unit count
    [max(1, floor(0.25 * screen_height) // 15)] (the product in binary64;
    for heights up to 16383 it is the integer [max(1, screen_height // 4 // 15)]);
    it scrolls up by that count and logs [scroll:up] when the lowercased
    direction contains [up], scrolls down by it and logs [scroll:down] when
    it contains [down] and not [up], and for any other direction performs no
    scroll and appends no step. *)
Theorem scroll_units_and_direction :
  (forall h : Z, scroll_amount h = scroll_units h)
  /\ (forall h : Z, 0 <= h <= 16383 -> scroll_units h = Ok (scroll_units_exact h))
  /\ (forall (H : host) (ih iw sf : Z) (c : command) (inputs : dict)
             (xy : option (Z * Z)) (units : Z) (log : list string),
         action_type c = Some "scroll" ->
         normalize_inputs H (action_inputs c) [] = Ok inputs ->
         scroll_target H ih iw sf inputs = Ok xy ->
         scroll_units (screen_height H) = Ok units ->
         step H ih iw sf c log =
         if PyStr.contains "up" (scroll_direction H inputs)
         then ([ScrollBy units xy], Ok (Next (append log "scroll:up")))
         else if PyStr.contains "down" (scroll_direction H inputs)
              then ([ScrollBy (- units) xy], Ok (Next (append log "scroll:down")))
              else ([], Ok (Next log))).
Proof.
  split; [exact scroll_amount_units|].
  split; [exact scroll_units_in_range|].
  exact step_scroll.
Qed.

(** On a screen of height 1080: eighteen units, up, down, and nothing for
    a sideways direction. *)
Lemma scroll_units_and_direction_witness :
  scroll_units 1080 = Ok 18
  /\ step Demo.linux 1080 1920 1000
          (Command (Some "scroll") [("direction", VStr "Up")]) ["click:1,2"]
     = ([ScrollBy 18 None], Ok (Next ["click:1,2"; "scroll:up"]))
  /\ step Demo.linux 1080 1920 1000
          (Command (Some "scroll") [("direction", VStr "down")]) []
     = ([ScrollBy (-18) None], Ok (Next ["scroll:down"]))
  /\ step Demo.linux 1080 1920 1000
          (Command (Some "scroll") [("direction", VStr "left")]) []
     = ([], Ok (Next [])).
Proof.
  destruct scroll_units_and_direction as [_ [Hrange Hstep]].
  split; [apply (Hrange 1080); lia|].
  split; [|split].
  - apply (Hstep Demo.linux 1080 1920 1000
                 (Command (Some "scroll") [("direction", VStr "Up")])
                 [("direction", VStr "Up")] None 18 ["click:1,2"]);
      vm_compute; reflexivity.
  - apply (Hstep Demo.linux 1080 1920 1000
                 (Command (Some "scroll") [("direction", VStr "down")])
                 [("direction", VStr "down")] None 18 []);
      vm_compute; reflexivity.
  - apply (Hstep Demo.linux 1080 1920 1000
                 (Command (Some "scroll") [("direction", VStr "left")])
                 [("direction", VStr "left")] None 18 []);
      vm_compute; reflexivity.
Defined.

(** C9, for every scroll command, fails: the builtin parser keeps the
    direction as it is written, and a direction that holds the point marker
    is evaluated by the normalisation of the arguments; the round raises
    and nothing is scrolled, although the direction contains [up]. *)
Lemma scroll_with_marker_raises :
  Builtin._parse_builtin_action Demo.linux "scroll(direction='<point>up')"
  = Some (Command (Some "scroll") [("direction", VStr "<point>up")])
  /\ PyStr.contains "up" (PyStr.lower "<point>up") = true
  /\ step Demo.linux 1080 1920 1000
          (Command (Some "scroll") [("direction", VStr "<point>up")]) []
     = ([], Raise SyntaxError)
  /\ parse_and_execute_action Demo.linux "<action>scroll(direction='<point>up')</action>"
                              1080 1920 None None 1000
     = ([], Raise SyntaxError).
Proof. repeat split; vm_compute; reflexivity. Qed.

End ScrollFacts.

(** ** Action dispatcher *)

Ltac break_match :=
  match goal with
  | |- context [match ?x with _ => _ end] =>
      lazymatch x with
      | context [match _ with _ => _ end] => fail
      | _ => destruct x eqn:?
      end
  end.

Ltac unfold_dispatch :=
  unfold dispatch, do_type, do_drag, do_scroll, do_click, do_hotkey, append,
    mbind, lift, emit, mret.

Lemma kind_is_true (t : option string) (name : string) :
  kind_is t name = true <-> t = Some name.
Proof.
  destruct t as [s|]; simpl.
  - rewrite String.eqb_eq. split; congruence.
  - split; discriminate.
Qed.

Lemma float_02_03 : (0.2 <> 0.3)%float.
Proof. intro E. apply (f_equal Prim2SF) in E. vm_compute in E. discriminate. Qed.

Lemma float_05_03 : (0.5 <> 0.3)%float.
Proof. intro E. apply (f_equal Prim2SF) in E. vm_compute in E. discriminate. Qed.

Section DispatcherFacts.
Variable H : host.
Variables ih iw sf : Z.

(** A round appends to the log it is given and does not look at it. *)
Lemma dispatch_relog (t : option string) (inputs : dict) (log : list string) :
  dispatch H ih iw sf t inputs log =
  (fst (dispatch H ih iw sf t inputs []), relog log (snd (dispatch H ih iw sf t inputs []))).
Proof.
  unfold_dispatch.
  repeat break_match; simpl; rewrite ?app_nil_r; reflexivity.
Qed.

Lemma step_relog (c : command) (log : list string) :
  step H ih iw sf c log =
  (fst (step H ih iw sf c []), relog log (snd (step H ih iw sf c []))).
Proof.
  unfold step.
  destruct (normalize_inputs H (action_inputs c) []) as [inputs|e].
  - rewrite !mbind_lift_ok. apply dispatch_relog.
  - reflexivity.
Qed.

(** Only the [finished] branch leaves the function. *)
Lemma dispatch_return (t : option string) (inputs : dict) (log log' : list string) :
  snd (dispatch H ih iw sf t inputs log) = Ok (Return log') -> t = Some "finished".
Proof.
  unfold_dispatch.
  repeat break_match; simpl; try discriminate; intros _;
    now apply kind_is_true.
Qed.

Lemma step_return (c : command) (log log' : list string) :
  snd (step H ih iw sf c log) = Ok (Return log') -> action_type c = Some "finished".
Proof.
  unfold step.
  destruct (normalize_inputs H (action_inputs c) []) as [inputs|e].
  - rewrite mbind_lift_ok. apply dispatch_return.
  - discriminate.
Qed.

Lemma step_finished (c : command) (inputs : dict) (log : list string) :
  action_type c = Some "finished" ->
  normalize_inputs H (action_inputs c) [] = Ok inputs ->
  step H ih iw sf c log = ([], Ok (Return (append log "finished"))).
Proof.
  intros Ht Hn. unfold step. rewrite Hn, Ht, mbind_lift_ok. reflexivity.
Qed.

(** One round of the loop, by the way its body ends. *)
Lemma loop_cons_next (i : nat) (c : command) (cs : list command)
      (log log' : list string) (t : list event) :
  step H ih iw sf c log = (t, Ok (Next log')) ->
  loop H ih iw sf i (c :: cs) log =
  ((settle_events i ++ t ++ fst (loop H ih iw sf (S i) cs log'))%list,
   snd (loop H ih iw sf (S i) cs log')).
Proof.
  intros Hs. cbn [loop]. unfold settle, settle_events.
  destruct (Nat.ltb 0 i); rewrite ?mbind_emit, ?mbind_mret, Hs, mbind_events;
    reflexivity.
Qed.

Lemma loop_cons_return (i : nat) (c : command) (cs : list command)
      (log log' : list string) (t : list event) :
  step H ih iw sf c log = (t, Ok (Return log')) ->
  loop H ih iw sf i (c :: cs) log = ((settle_events i ++ t)%list, Ok log').
Proof.
  intros Hs. cbn [loop]. unfold settle, settle_events.
  destruct (Nat.ltb 0 i); rewrite ?mbind_emit, ?mbind_mret, Hs, mbind_events;
    cbn; rewrite app_nil_r; reflexivity.
Qed.

Lemma loop_cons_raise (i : nat) (c : command) (cs : list command)
      (log : list string) (t : list event) (e : exn) :
  step H ih iw sf c log = (t, Raise e) ->
  loop H ih iw sf i (c :: cs) log = ((settle_events i ++ t)%list, Raise e).
Proof.
  intros Hs. cbn [loop]. unfold settle, settle_events.
  destruct (Nat.ltb 0 i); rewrite ?mbind_emit, ?mbind_mret, Hs; reflexivity.
Qed.

(** A prefix without [finished] that runs to its end leaves the rest of the
    batch to run behind it. *)
Lemma loop_app (pre : list command) :
  forall (i : nat) (log log' : list string) (t : list event) (rest : list command),
    Forall (fun c => action_type c <> Some "finished") pre ->
    loop H ih iw sf i pre log = (t, Ok log') ->
    loop H ih iw sf i (pre ++ rest) log =
    ((t ++ fst (loop H ih iw sf (i + List.length pre) rest log'))%list,
     snd (loop H ih iw sf (i + List.length pre) rest log')).
Proof.
  induction pre as [|c pre IH]; intros i log log' t rest Hnf Hrun.
  - cbn in Hrun. injection Hrun as <- <-. cbn [List.length app].
    rewrite Nat.add_0_r. now destruct (loop H ih iw sf i rest log).
  - inversion Hnf as [|? ? Hc Hpre]; subst.
    destruct (step H ih iw sf c log) as [t1 [[l1|l1]|e]] eqn:Hs.
    + rewrite (loop_cons_next i c pre log l1 t1 Hs) in Hrun.
      cbn [app]. rewrite (loop_cons_next i c (pre ++ rest) log l1 t1 Hs).
      destruct (loop H ih iw sf (S i) pre l1) as [t2 r2] eqn:Hp.
      cbn [fst snd] in Hrun. injection Hrun as <- ->.
      rewrite (IH (S i) l1 log' t2 rest Hpre Hp).
      cbn [fst snd List.length]. rewrite Nat.add_succ_r, <- !app_assoc. reflexivity.
    + exfalso. apply Hc. apply (step_return c log l1). now rewrite Hs.
    + rewrite (loop_cons_raise i c pre log t1 e Hs) in Hrun. discriminate.
Qed.

End DispatcherFacts.

Section DispatcherClaims.
Variable H : host.
Variables ih iw sf : Z.

Lemma step_own (c : command) (log : list string) :
  step H ih iw sf c log =
  (own_events H ih iw sf c, relog log (snd (step H ih iw sf c []))).
Proof. apply step_relog. Qed.

(** Behind the first round every started command follows one settle delay. *)
Lemma loop_settled (cs : list command) :
  forall (i : nat) (log : list string),
    (0 < i)%nat ->
    fst (loop H ih iw sf i cs log) =
    flat_map (fun c => settle_delay :: own_events H ih iw sf c) (started H ih iw sf cs).
Proof.
  induction cs as [|c cs IH]; intros i log Hi; [reflexivity|].
  assert (Hsettle : settle_events i = [settle_delay]).
  { unfold settle_events. destruct i; [lia|reflexivity]. }
  pose proof (step_own c log) as Hs.
  cbn [started flat_map]. unfold stops.
  destruct (snd (step H ih iw sf c [])) as [[items|items]|e]; cbn [relog] in Hs.
  - rewrite (loop_cons_next H ih iw sf i c cs log _ _ Hs), Hsettle.
    cbn [fst app]. rewrite (IH (S i) _ (Nat.lt_0_succ i)). reflexivity.
  - rewrite (loop_cons_return H ih iw sf i c cs log _ _ Hs), Hsettle.
    cbn [fst app flat_map]. now rewrite app_nil_r.
  - rewrite (loop_cons_raise H ih iw sf i c cs log _ _ Hs), Hsettle.
    cbn [fst app flat_map]. now rewrite app_nil_r.
Qed.

Lemma execute_settled (cs : list command) :
  fst (execute_pyautogui_action H ih iw sf (Many cs)) = settled_events H ih iw sf cs.
Proof.
  unfold execute_pyautogui_action, settled_events.
  destruct cs as [|c cs]; [reflexivity|].
  pose proof (step_own c []) as Hs.
  cbn [started]. unfold stops.
  destruct (snd (step H ih iw sf c [])) as [[items|items]|e]; cbn [relog] in Hs.
  - rewrite (loop_cons_next H ih iw sf 0 c cs [] _ _ Hs).
    cbn [fst app settle_events Nat.ltb Nat.leb].
    now rewrite (loop_settled cs 1 _ (Nat.lt_0_succ 0)).
  - rewrite (loop_cons_return H ih iw sf 0 c cs [] _ _ Hs).
    cbn [fst app settle_events Nat.ltb Nat.leb flat_map]. now rewrite app_nil_r.
  - rewrite (loop_cons_raise H ih iw sf 0 c cs [] _ _ Hs).
    cbn [fst app settle_events Nat.ltb Nat.leb flat_map]. now rewrite app_nil_r.
Qed.

(** No branch of the dispatcher sleeps for the settle delay itself. *)
Lemma own_events_no_settle (c : command) :
  ~ In settle_delay (own_events H ih iw sf c).
Proof.
  unfold own_events, step, settle_delay.
  destruct (normalize_inputs H (action_inputs c) []) as [inputs|e];
    [rewrite mbind_lift_ok|intros []].
  unfold_dispatch.
  repeat break_match; simpl; intros Hin;
    repeat (destruct Hin as [Hin|Hin]); try discriminate; try contradiction;
    injection Hin as Hin; first [exact (float_02_03 Hin) | exact (float_05_03 Hin)].
Qed.

End DispatcherClaims.

(** C7: in every batch the dispatcher sleeps the fixed settle delay before
    every command it starts except the first: the events of the batch are the
    first command's own events followed, for each later started command, by
    one settle delay and that command's own events, whatever the kinds; no
    command's own events contain the settle delay. *)
Theorem settle_delay_before_all_but_first :
  (forall (H : host) (ih iw sf : Z) (cs : list command),
      fst (execute_pyautogui_action H ih iw sf (Many cs)) = settled_events H ih iw sf cs)
  /\ (forall (H : host) (ih iw sf : Z) (c : command),
         fst (execute_pyautogui_action H ih iw sf (One c)) = own_events H ih iw sf c)
  /\ (forall (H : host) (ih iw sf : Z) (c : command),
         ~ In settle_delay (own_events H ih iw sf c)).
Proof.
  split; [exact execute_settled|split; [|exact own_events_no_settle]].
  intros H ih iw sf c.
  rewrite <- (app_nil_r (own_events H ih iw sf c)).
  change (fst (execute_pyautogui_action H ih iw sf (One c)))
    with (fst (execute_pyautogui_action H ih iw sf (Many [c]))).
  rewrite execute_settled. unfold settled_events. cbn [started].
  destruct (stops H ih iw sf c); reflexivity.
Qed.

Section FinishedFacts.
Variable H : host.
Variables ih iw sf : Z.

Lemma execute_finished (pre : list command) (c : command) (post : list command)
      (t : list event) (log : list string) (inputs : dict) :
  Forall (fun c' => action_type c' <> Some "finished") pre ->
  execute_pyautogui_action H ih iw sf (Many pre) = (t, Ok log) ->
  action_type c = Some "finished" ->
  normalize_inputs H (action_inputs c) [] = Ok inputs ->
  execute_pyautogui_action H ih iw sf (Many (pre ++ c :: post)) =
  ((t ++ settle_events (List.length pre))%list, Ok (append log "finished")).
Proof.
  intros Hpre Hrun Ht Hn. unfold execute_pyautogui_action in *.
  rewrite (loop_app H ih iw sf pre 0 [] log t (c :: post) Hpre Hrun).
  rewrite (loop_cons_return H ih iw sf _ c post log _ _
             (step_finished H ih iw sf c inputs log Ht Hn)).
  cbn [fst snd Nat.add]. now rewrite app_nil_r.
Qed.

Lemma box_of_empty (x y : Z) : _box_to_screen_xy H (VSeq []) iw ih sf <> Ok (x, y).
Proof. discriminate. Qed.

Lemma step_click (point : list pyitem) (x y : Z) (log : list string) :
  _box_to_screen_xy H (VSeq point) iw ih sf = Ok (x, y) ->
  step H ih iw sf (click_command point) log =
  ([Click x y None],
   Ok (Next (append log ("click:" ++ PyStr.of_int x ++ "," ++ PyStr.of_int y)))).
Proof.
  intros Hxy. unfold step, click_command.
  cbn [action_inputs action_type normalize_inputs normalize_value rbind].
  rewrite mbind_lift_ok.
  change (get_or_self KEY_MAPPING "start_box") with "start_box".
  cbn [dict_set]. unfold dispatch.
  cbn [kind_is kind_in existsb String.eqb Ascii.eqb Bool.eqb orb].
  unfold do_click. cbn [dict_get String.eqb Ascii.eqb Bool.eqb].
  destruct point as [|p point]; [now apply box_of_empty in Hxy|].
  cbn [truthy eval_if_str]. rewrite mbind_lift_ok. unfold to_xy. rewrite Hxy.
  rewrite mbind_lift_ok. reflexivity.
Qed.

Lemma step_type (content : string) (log : list string) :
  content <> "" ->
  PyStr.contains "<point>" content = false ->
  step H ih iw sf (type_command content) log =
  (type_events H content, Ok (Next (append log ("type:" ++ PyStr.take 50 content)))).
Proof.
  intros Hne Hpt. unfold step, type_command.
  cbn [action_inputs action_type normalize_inputs normalize_value rbind].
  rewrite Hpt. cbn [rbind]. rewrite mbind_lift_ok.
  change (get_or_self KEY_MAPPING "content") with "content".
  cbn [dict_set]. unfold dispatch.
  cbn [kind_is kind_in existsb String.eqb Ascii.eqb Bool.eqb orb].
  unfold do_type, dict_get_default. cbn [dict_get String.eqb Ascii.eqb Bool.eqb].
  destruct content as [|ch content]; [contradiction|].
  cbn [truthy PyStr.nonempty]. unfold type_events, paste_modifier.
  unfold mbind, emit, mret.
  destruct (sysname H =? "Darwin");
    destruct (PyStr.endswith nl (String ch content) || PyStr.endswith "\n" (String ch content));
    reflexivity.
Qed.

Lemma execute_click_type_finished (point : list pyitem) (x y : Z) (content : string)
      (fourth : command) :
  _box_to_screen_xy H (VSeq point) iw ih sf = Ok (x, y) ->
  content <> "" ->
  PyStr.contains "<point>" content = false ->
  execute_pyautogui_action H ih iw sf
    (Many [click_command point; type_command content; finished_command; fourth]) =
  (([Click x y None] ++ [settle_delay] ++ type_events H content ++ [settle_delay])%list,
   Ok ["click:" ++ PyStr.of_int x ++ "," ++ PyStr.of_int y;
       "type:" ++ PyStr.take 50 content;
       "finished"]).
Proof.
  intros Hxy Hne Hpt. unfold execute_pyautogui_action.
  rewrite (loop_cons_next H ih iw sf 0 _ _ [] _ _ (step_click point x y [] Hxy)).
  rewrite (loop_cons_next H ih iw sf 1 _ _ _ _ _ (step_type content _ Hne Hpt)).
  rewrite (loop_cons_return H ih iw sf 2 finished_command [fourth] _ _ _
             (step_finished H ih iw sf finished_command [] _ eq_refl eq_refl)).
  cbn [fst snd settle_events Nat.ltb Nat.leb app append].
  rewrite <- ?app_assoc. reflexivity.
Qed.

End FinishedFacts.

(** C1: when the dispatcher reaches a command of kind [finished] whose
    arguments pass the normalisation that opens every round (the commands
    before it ran to their end and none of them was [finished]), it
    appends [finished] to the log of the steps executed so far and returns
    that log without error, and nothing of the later commands runs: the
    events are those of the commands before it and the settle delay.  A batch
    [click, type, finished, fourth] with a point, a non-empty content and any
    fourth command executes three commands and returns three steps. *)
Theorem finished_halts_batch :
  (forall (H : host) (ih iw sf : Z) (pre : list command) (c : command)
          (post : list command) (t : list event) (log : list string) (inputs : dict),
      Forall (fun c' => action_type c' <> Some "finished") pre ->
      execute_pyautogui_action H ih iw sf (Many pre) = (t, Ok log) ->
      action_type c = Some "finished" ->
      normalize_inputs H (action_inputs c) [] = Ok inputs ->
      execute_pyautogui_action H ih iw sf (Many (pre ++ c :: post)) =
      ((t ++ settle_events (List.length pre))%list, Ok (log ++ ["finished"])%list))
  /\ (forall (H : host) (ih iw sf : Z) (point : list pyitem) (x y : Z)
             (content : string) (fourth : command),
         _box_to_screen_xy H (VSeq point) iw ih sf = Ok (x, y) ->
         content <> "" ->
         PyStr.contains "<point>" content = false ->
         execute_pyautogui_action H ih iw sf
           (Many [click_command point; type_command content; finished_command; fourth]) =
         (([Click x y None] ++ [settle_delay] ++ type_events H content ++ [settle_delay])%list,
          Ok ["click:" ++ PyStr.of_int x ++ "," ++ PyStr.of_int y;
              "type:" ++ PyStr.take 50 content;
              "finished"])).
Proof.
  split.
  - exact execute_finished.
  - exact execute_click_type_finished.
Qed.

(** A click, then [finished], then a click that never runs; and the batch of
    four on a 1920x1080 screen. *)
Lemma finished_halts_batch_witness :
  execute_pyautogui_action Demo.linux 1080 1920 1000
    (Many ([click_command [INum (PFloat 500); INum (PFloat 500)]]
           ++ finished_command :: [click_command [INum (PFloat 1); INum (PFloat 2)]]))
  = ([Click 960 540 None; settle_delay], Ok ["click:960,540"; "finished"])
  /\ execute_pyautogui_action Demo.linux 1080 1920 1000
       (Many [click_command [INum (PFloat 500); INum (PFloat 500)];
              type_command "hello"; finished_command;
              click_command [INum (PFloat 1); INum (PFloat 2)]])
     = ([Click 960 540 None; settle_delay; ClipboardCopy (VStr "hello");
         Sleep (PFloat 0.2); Hotkey ["ctrl"; "v"] (PFloat 0.1); Sleep (PFloat 0.5);
         settle_delay],
        Ok ["click:960,540"; "type:hello"; "finished"]).
Proof.
  destruct finished_halts_batch as [Hgen Hfour]. split.
  - apply (Hgen Demo.linux 1080%Z 1920%Z 1000%Z
                [click_command [INum (PFloat 500); INum (PFloat 500)]]
                finished_command
                [click_command [INum (PFloat 1); INum (PFloat 2)]]
                [Click 960%Z 540%Z None] ["click:960,540"] []).
    + repeat constructor. discriminate.
    + vm_compute. reflexivity.
    + reflexivity.
    + reflexivity.
  - apply (Hfour Demo.linux 1080%Z 1920%Z 1000%Z
                 [INum (PFloat 500); INum (PFloat 500)] 960%Z 540%Z "hello"
                 (click_command [INum (PFloat 1); INum (PFloat 2)])).
    + vm_compute. reflexivity.
    + discriminate.
    + reflexivity.
Defined.

(** C1, without the condition on the arguments, fails: the normalisation
    of the arguments opens the round of every command, [finished] too.  The
    builtin parser keeps the content of [finished] as it is written; when
    it holds the point marker, the round raises before the kind is looked
    at, the batch ends in that error, and the step of the click before it
    is not returned. *)
Lemma finished_with_marker_raises :
  Builtin._parse_builtin_action Demo.linux "finished(content='done <point>1 2</point>')"
  = Some (Command (Some "finished") [("content", VStr "done <point>1 2</point>")])
  /\ execute_pyautogui_action Demo.linux 1080 1920 1000
       (Many [click_command [INum (PFloat 500); INum (PFloat 500)];
              Command (Some "finished") [("content", VStr "done <point>1 2</point>")]])
     = ([Click 960 540 None; settle_delay], Raise SyntaxError)
  /\ parse_and_execute_action Demo.linux
       "<action>click(point='<point>500 500</point>')</action><action>finished(content='done <point>1 2</point>')</action>"
       1080 1920 None None 1000
     = ([Click 960 540 None; settle_delay], Raise SyntaxError).
Proof. repeat split; vm_compute; reflexivity. Qed.

(** ** More on the dispatcher *)

Section DispatcherMore.
Variable H : host.
Variables ih iw sf : Z.

Lemma kind_in_false_cons (t : option string) (name : string) (names : list string) :
  kind_in t (name :: names) = false ->
  kind_is t name = false /\ kind_in t names = false.
Proof. unfold kind_in. cbn [existsb]. apply orb_false_elim. Qed.

Lemma step_unhandled (c : command) (inputs : dict) (log : list string) :
  kind_in (action_type c) handled_kinds = false ->
  normalize_inputs H (action_inputs c) [] = Ok inputs ->
  step H ih iw sf c log = ([], Ok (Next log)).
Proof.
  intros Hk Hn. unfold step. rewrite Hn, mbind_lift_ok.
  unfold handled_kinds in Hk.
  repeat (apply kind_in_false_cons in Hk;
          let Hone := fresh "Hone" in destruct Hk as [Hone Hk]).
  unfold dispatch, kind_in. cbn [existsb].
  now rewrite Hone, Hone0, Hone1, Hone2, Hone3, Hone4, Hone5, Hone6, Hone7, Hone8,
    Hone9, Hone10.
Qed.

(** A round appends at most one step. *)
Lemma dispatch_one_step (t : option string) (inputs : dict) :
  match snd (dispatch H ih iw sf t inputs []) with
  | Ok (Next items) | Ok (Return items) => (List.length items <= 1)%nat
  | Raise _ => True
  end.
Proof.
  unfold_dispatch.
  repeat break_match; simpl in *; subst; try exact I; try discriminate;
    repeat match goal with
           | Hx : Ok _ = Ok _ |- _ => injection Hx as Hx
           end;
    subst; simpl; lia.
Qed.

Lemma step_one_step (c : command) :
  match snd (step H ih iw sf c []) with
  | Ok (Next items) | Ok (Return items) => (List.length items <= 1)%nat
  | Raise _ => True
  end.
Proof.
  unfold step.
  destruct (normalize_inputs H (action_inputs c) []) as [inputs|e]; [|exact I].
  rewrite mbind_lift_ok. apply dispatch_one_step.
Qed.

Lemma loop_log_bound (cs : list command) :
  forall (i : nat) (log log' : list string) (t : list event),
    loop H ih iw sf i cs log = (t, Ok log') ->
    exists items, log' = (log ++ items)%list
                  /\ (List.length items <= List.length (started H ih iw sf cs))%nat.
Proof.
  induction cs as [|c cs IH]; intros i log log' t Hrun.
  - cbn in Hrun. injection Hrun as _ <-. exists []. now rewrite app_nil_r.
  - pose proof (step_own H ih iw sf c log) as Hs.
    pose proof (step_one_step c) as Hone.
    cbn [started]. unfold stops.
    destruct (snd (step H ih iw sf c [])) as [[items|items]|e]; cbn [relog] in Hs.
    + rewrite (loop_cons_next H ih iw sf i c cs log _ _ Hs) in Hrun.
      destruct (loop H ih iw sf (S i) cs (log ++ items)) as [t2 r2] eqn:Hrest.
      cbn [fst snd] in Hrun. injection Hrun as _ ->.
      destruct (IH _ _ _ _ Hrest) as [more [-> Hlen]].
      exists (items ++ more)%list. rewrite app_assoc. split; [reflexivity|].
      rewrite length_app. cbn [List.length]. lia.
    + rewrite (loop_cons_return H ih iw sf i c cs log _ _ Hs) in Hrun.
      injection Hrun as _ <-. exists items. split; [reflexivity|].
      cbn [List.length]. lia.
    + rewrite (loop_cons_raise H ih iw sf i c cs log _ _ Hs) in Hrun. discriminate.
Qed.

Lemma started_length (cs : list command) :
  (List.length (started H ih iw sf cs) <= List.length cs)%nat.
Proof.
  induction cs as [|c cs IH]; [reflexivity|].
  cbn [started List.length]. destruct (stops H ih iw sf c); cbn [List.length]; lia.
Qed.

Lemma at_most_one_step (cs : list command) (t : list event) (log : list string) :
  execute_pyautogui_action H ih iw sf (Many cs) = (t, Ok log) ->
  (List.length log <= List.length (started H ih iw sf cs))%nat
  /\ (List.length (started H ih iw sf cs) <= List.length cs)%nat.
Proof.
  intros Hrun. split; [|apply started_length].
  destruct (loop_log_bound cs 0 [] log t Hrun) as [items [-> Hlen]].
  exact Hlen.
Qed.

Lemma execute_raises (pre : list command) (c : command) (post : list command)
      (t tc : list event) (log : list string) (e : exn) :
  Forall (fun c' => action_type c' <> Some "finished") pre ->
  execute_pyautogui_action H ih iw sf (Many pre) = (t, Ok log) ->
  step H ih iw sf c log = (tc, Raise e) ->
  execute_pyautogui_action H ih iw sf (Many (pre ++ c :: post)) =
  ((t ++ settle_events (List.length pre) ++ tc)%list, Raise e).
Proof.
  intros Hpre Hrun Hs. unfold execute_pyautogui_action in *.
  rewrite (loop_app H ih iw sf pre 0 [] log t (c :: post) Hpre Hrun).
  now rewrite (loop_cons_raise H ih iw sf _ c post log tc e Hs).
Qed.

Lemma get_or_self_KEY_MAPPING (k : string) : get_or_self KEY_MAPPING k = k.
Proof.
  unfold KEY_MAPPING. cbn [get_or_self].
  repeat match goal with
         | |- context [String.eqb ?a k] => destruct (String.eqb_spec a k) as [<-|_]
         end; reflexivity.
Qed.

Lemma dict_set_fresh (k : string) (v : value) (d : dict) :
  ~ In k (map fst d) -> dict_set k v d = (d ++ [(k, v)])%list.
Proof.
  induction d as [|[k' v'] d IH]; intros Hfresh; [reflexivity|].
  cbn [dict_set app]. cbn [map fst In] in Hfresh.
  destruct (String.eqb_spec k' k) as [->|_]; [tauto|].
  rewrite IH by tauto. reflexivity.
Qed.

Lemma normalize_marker_free (d : dict) :
  forall acc : dict,
    NoDup (map fst (acc ++ d)) ->
    marker_free d ->
    normalize_inputs H d acc = Ok (acc ++ d)%list.
Proof.
  induction d as [|[k v] d IH]; intros acc Hnd Hfree.
  - cbn. now rewrite app_nil_r.
  - cbn [normalize_inputs].
    assert (Hv : normalize_value H v = Ok v).
    { destruct v as [s|items]; [|reflexivity]. cbn.
      now rewrite (Hfree k s (or_introl eq_refl)). }
    rewrite Hv. cbn [rbind]. rewrite get_or_self_KEY_MAPPING.
    assert (Hfresh : ~ In k (map fst acc)).
    { rewrite map_app in Hnd. cbn [map fst] in Hnd.
      apply NoDup_remove_2 in Hnd. intros Hin. apply Hnd.
      apply in_or_app. now left. }
    rewrite (dict_set_fresh k v acc Hfresh).
    rewrite IH.
    + now rewrite <- app_assoc.
    + now rewrite <- app_assoc.
    + intros k' s Hin. apply (Hfree k' s). now right.
Qed.

End DispatcherMore.

Section DispatcherSkips.
Variable H : host.
Variables ih iw sf : Z.

Lemma kind_in_true (t : option string) (names : list string) :
  kind_in t names = true -> exists name, In name names /\ t = Some name.
Proof.
  unfold kind_in. intros Hin. apply existsb_exists in Hin.
  destruct Hin as [name [Hname Hk]]. exists name. split; [exact Hname|].
  now apply kind_is_true.
Qed.

Lemma step_type_without_content (c : command) (inputs : dict) (log : list string) :
  action_type c = Some "type" ->
  normalize_inputs H (action_inputs c) [] = Ok inputs ->
  truthy (dict_get_default "content" (VStr "") inputs) = false ->
  step H ih iw sf c log = ([], Ok (Next log)).
Proof.
  intros Ht Hn Hc. unfold step. rewrite Hn, Ht, mbind_lift_ok.
  unfold dispatch. cbn [kind_is String.eqb Ascii.eqb Bool.eqb].
  unfold do_type. now rewrite Hc.
Qed.

Lemma step_pointer_without_box (c : command) (inputs : dict) (log : list string) :
  kind_in (action_type c) pointer_kinds = true ->
  normalize_inputs H (action_inputs c) [] = Ok inputs ->
  truthy_opt (dict_get "start_box" inputs) = false ->
  step H ih iw sf c log = ([], Ok (Next log)).
Proof.
  intros Hk Hn Hb. unfold step. rewrite Hn, mbind_lift_ok.
  destruct (kind_in_true _ _ Hk) as [name [Hname ->]].
  unfold pointer_kinds in Hname. cbn [In] in Hname.
  assert (Hskip : do_click H ih iw sf (Some name) inputs log = ([], Ok (Next log))).
  { unfold do_click. destruct (dict_get "start_box" inputs) as [box|]; [|reflexivity].
    cbn [truthy_opt] in Hb. now rewrite Hb. }
  destruct Hname as [<-|[<-|[<-|[<-|[<-|[]]]]]]; exact Hskip.
Qed.

Lemma step_drag_without_boxes (c : command) (inputs : dict) (log : list string) :
  kind_in (action_type c) ["drag"; "select"] = true ->
  normalize_inputs H (action_inputs c) [] = Ok inputs ->
  truthy_opt (dict_get "start_box" inputs) && truthy_opt (dict_get "end_box" inputs) = false ->
  step H ih iw sf c log = ([], Ok (Next log)).
Proof.
  intros Hk Hn Hb. unfold step. rewrite Hn, mbind_lift_ok.
  destruct (kind_in_true _ _ Hk) as [name [Hname ->]].
  cbn [In] in Hname.
  assert (Hskip : do_drag H ih iw sf inputs log = ([], Ok (Next log))).
  { unfold do_drag.
    destruct (dict_get "start_box" inputs) as [sb|]; [|reflexivity].
    destruct (dict_get "end_box" inputs) as [eb|]; [|reflexivity].
    cbn [truthy_opt] in Hb. now rewrite Hb. }
  destruct Hname as [<-|[<-|[]]]; exact Hskip.
Qed.

End DispatcherSkips.

(** The round of a command of a kind the dispatcher does not know calls
    nothing and appends no step; all it does is normalise the arguments:
    when that succeeds the batch goes on with the log as it was, and when
    it raises the round raises the same error. *)
Theorem unhandled_kind_is_ignored :
  forall (H : host) (ih iw sf : Z) (c : command) (log : list string),
    kind_in (action_type c) handled_kinds = false ->
    step H ih iw sf c log =
    ([], match normalize_inputs H (action_inputs c) [] with
         | Ok _ => Ok (Next log)
         | Raise e => Raise e
         end).
Proof.
  intros H ih iw sf c log Hk.
  destruct (normalize_inputs H (action_inputs c) []) as [inputs|e] eqn:Hn.
  - exact (step_unhandled H ih iw sf c inputs log Hk Hn).
  - unfold step. rewrite Hn. apply mbind_lift_raise.
Qed.

(** An unknown kind with plain arguments, a command without a kind, and an
    unknown kind with an argument that holds the point marker. *)
Lemma unhandled_kind_is_ignored_witness :
  step Demo.linux 1080 1920 1000 (Command (Some "foobar") [("x", VStr "1")]) ["click:1,2"]
  = ([], Ok (Next ["click:1,2"]))
  /\ step Demo.linux 1080 1920 1000 (Command None []) [] = ([], Ok (Next []))
  /\ step Demo.linux 1080 1920 1000 (Command (Some "foobar") [("x", VStr "<point>")])
          ["click:1,2"]
     = ([], Raise SyntaxError).
Proof.
  split; [|split].
  - apply (unhandled_kind_is_ignored Demo.linux 1080 1920 1000
             (Command (Some "foobar") [("x", VStr "1")]) ["click:1,2"]).
    reflexivity.
  - apply (unhandled_kind_is_ignored Demo.linux 1080 1920 1000 (Command None []) []).
    reflexivity.
  - apply (unhandled_kind_is_ignored Demo.linux 1080 1920 1000
             (Command (Some "foobar") [("x", VStr "<point>")]) ["click:1,2"]).
    reflexivity.
Defined.

(** A batch that returns has logged at most one step per command: the log
    is no longer than the list of commands started, which is no longer than
    the batch. *)
Theorem at_most_one_step_per_command :
  forall (H : host) (ih iw sf : Z) (cs : list command) (t : list event)
         (log : list string),
    execute_pyautogui_action H ih iw sf (Many cs) = (t, Ok log) ->
    (List.length log <= List.length (started H ih iw sf cs))%nat
    /\ (List.length (started H ih iw sf cs) <= List.length cs)%nat.
Proof.
  exact at_most_one_step.
Qed.

Lemma at_most_one_step_per_command_witness :
  (List.length ["click:960,540"; "finished"]
   <= List.length (started Demo.linux 1080 1920 1000
                     [click_command [INum (PFloat 500); INum (PFloat 500)];
                      Command (Some "foobar") []; finished_command;
                      type_command "never"]))%nat
  /\ (List.length (started Demo.linux 1080 1920 1000
                     [click_command [INum (PFloat 500); INum (PFloat 500)];
                      Command (Some "foobar") []; finished_command;
                      type_command "never"])
      <= 4)%nat.
Proof.
  apply (at_most_one_step_per_command Demo.linux 1080 1920 1000
           [click_command [INum (PFloat 500); INum (PFloat 500)];
            Command (Some "foobar") []; finished_command; type_command "never"]
           [Click 960 540 None; settle_delay; settle_delay]
           ["click:960,540"; "finished"]).
  vm_compute. reflexivity.
Defined.

(** When a command raises, the batch raises the same error: the log of the
    steps executed so far is lost, the calls already made stay made, and no
    later command runs. *)
Theorem failing_command_aborts_batch :
  forall (H : host) (ih iw sf : Z) (pre : list command) (c : command)
         (post : list command) (t tc : list event) (log : list string) (e : exn),
    Forall (fun c' => action_type c' <> Some "finished") pre ->
    execute_pyautogui_action H ih iw sf (Many pre) = (t, Ok log) ->
    step H ih iw sf c log = (tc, Raise e) ->
    execute_pyautogui_action H ih iw sf (Many (pre ++ c :: post)) =
    ((t ++ settle_events (List.length pre) ++ tc)%list, Raise e).
Proof. exact execute_raises. Qed.

(** A click, then a text that holds the point marker and does not evaluate. *)
Lemma failing_command_aborts_batch_witness :
  execute_pyautogui_action Demo.linux 1080 1920 1000
    (Many ([click_command [INum (PFloat 500); INum (PFloat 500)]]
           ++ type_command "see <point>1 2</point>" :: [finished_command]))
  = ([Click 960 540 None; settle_delay], Raise SyntaxError).
Proof.
  apply (failing_command_aborts_batch Demo.linux 1080 1920 1000
           [click_command [INum (PFloat 500); INum (PFloat 500)]]
           (type_command "see <point>1 2</point>") [finished_command]
           [Click 960 540 None] [] ["click:960,540"] SyntaxError).
  - repeat constructor. discriminate.
  - vm_compute. reflexivity.
  - reflexivity.
Defined.

(** Arguments none of which is a [str] with the point marker pass the
    normalisation of a round unchanged: no key is renamed and no value is
    evaluated. *)
Theorem arguments_without_marker_unchanged :
  forall (H : host) (d : dict),
    NoDup (map fst d) ->
    marker_free d ->
    normalize_inputs H d [] = Ok d.
Proof.
  intros H d Hnd Hfree. exact (normalize_marker_free H d [] Hnd Hfree).
Qed.

Lemma arguments_without_marker_unchanged_witness :
  normalize_inputs Demo.linux
    [("content", VStr "hi"); ("start_box", VSeq [INum (PFloat 1); INum (PFloat 2)])] []
  = Ok [("content", VStr "hi"); ("start_box", VSeq [INum (PFloat 1); INum (PFloat 2)])].
Proof.
  apply arguments_without_marker_unchanged.
  - repeat constructor; cbn; intuition discriminate.
  - intros k s [Heq|[Heq|[]]]; inversion Heq; reflexivity.
Defined.

(** Commands whose arguments pass the normalisation and then lack what
    the kind needs are passed over without an event and without a step:
    [type] without content (missing or empty), the pointer kinds without a
    box, [drag] and [select] without both boxes. *)
Theorem incomplete_commands_are_skipped :
  forall (H : host) (ih iw sf : Z) (c : command) (inputs : dict) (log : list string),
    normalize_inputs H (action_inputs c) [] = Ok inputs ->
    (action_type c = Some "type"
     /\ truthy (dict_get_default "content" (VStr "") inputs) = false)
    \/ (kind_in (action_type c) pointer_kinds = true
        /\ truthy_opt (dict_get "start_box" inputs) = false)
    \/ (kind_in (action_type c) ["drag"; "select"] = true
        /\ truthy_opt (dict_get "start_box" inputs)
           && truthy_opt (dict_get "end_box" inputs) = false) ->
    step H ih iw sf c log = ([], Ok (Next log)).
Proof.
  intros H ih iw sf c inputs log Hn [[Ht Hc]|[[Hk Hb]|[Hk Hb]]].
  - now apply (step_type_without_content H ih iw sf c inputs).
  - now apply (step_pointer_without_box H ih iw sf c inputs).
  - now apply (step_drag_without_boxes H ih iw sf c inputs).
Qed.

Lemma incomplete_commands_are_skipped_witness :
  step Demo.linux 1080 1920 1000 (Command (Some "type") [("content", VStr "")]) [] = ([], Ok (Next []))
  /\ step Demo.linux 1080 1920 1000 (Command (Some "hover") []) [] = ([], Ok (Next []))
  /\ step Demo.linux 1080 1920 1000
       (Command (Some "drag") [("start_box", VSeq [INum (PFloat 1); INum (PFloat 2)])]) []
     = ([], Ok (Next [])).
Proof.
  split; [|split].
  - apply (incomplete_commands_are_skipped Demo.linux 1080 1920 1000
             (Command (Some "type") [("content", VStr "")]) [("content", VStr "")] []);
      [reflexivity|]. left. split; reflexivity.
  - apply (incomplete_commands_are_skipped Demo.linux 1080 1920 1000
             (Command (Some "hover") []) [] []); [reflexivity|].
    right. left. split; reflexivity.
  - apply (incomplete_commands_are_skipped Demo.linux 1080 1920 1000
             (Command (Some "drag") [("start_box", VSeq [INum (PFloat 1); INum (PFloat 2)])])
             [("start_box", VSeq [INum (PFloat 1); INum (PFloat 2)])] []); [reflexivity|].
    right. right. split; reflexivity.
Defined.

(** ** Parser backends *)

Section BackendFacts.
Variable H : host.

Lemma prefix_colon (c : ascii) (s : string) :
  prefix ":" (String c s) = (c =? ":")%char.
Proof.
  cbn [prefix]. destruct (ascii_dec ":" c) as [<-|Hne].
  - now destruct s.
  - symmetry. apply Ascii.eqb_neq. congruence.
Qed.

(** [":" not in callable_path] is the case in which the split finds nothing. *)
Lemma split_colon_none (s : string) :
  PyStr.contains ":" s = false <-> split_colon s = None.
Proof.
  induction s as [|c s IH]; [split; reflexivity|].
  cbn [PyStr.contains split_colon]. rewrite prefix_colon.
  destruct (c =? ":")%char; cbn [orb].
  - split; discriminate.
  - rewrite IH. destruct (split_colon s) as [[m f]|]; split; congruence.
Qed.

Lemma load_fails (callable_path : string) (e : exn) :
  resolution_failure H callable_path e ->
  _load_custom_action_parser H callable_path = Raise e.
Proof.
  unfold _load_custom_action_parser.
  intros [Hno | m f e' Hsplit Himp | m f module Hsplit Himp Hget
          | m f module parser Hsplit Himp Hget Hcall].
  - apply split_colon_none in Hno. now rewrite Hno.
  - now rewrite Hsplit, Himp.
  - rewrite Hsplit, Himp. cbn [rbind]. now rewrite Hget.
  - rewrite Hsplit, Himp. cbn [rbind]. now rewrite Hget, Hcall.
Qed.

Lemma parse_all_custom_fails (response : string) (ih iw : Z)
      (action_parser : option string) (callable_path : string) (s : Z) (e : exn) :
  selected_parser action_parser = "custom" ->
  _load_custom_action_parser H callable_path = Raise e ->
  parse_all H response ih iw action_parser (Some callable_path) s = ([], Raise e).
Proof.
  intros Hsel Hload. unfold parse_all. fold (selected_parser action_parser).
  rewrite Hsel. cbn [String.eqb Ascii.eqb Bool.eqb].
  destruct callable_path as [|c path].
  - cbn in Hload. now injection Hload as <-.
  - now rewrite Hload.
Qed.

(** The ui_tars loop over expressions on which the external parser returns
    or raises ValueError: every expression is handed over, and each one
    contributes its commands or nothing. *)
Lemma ui_tars_loop_tolerant (parse : string -> Z -> Z -> result parsed) (w h : Z)
      (action_strings : list string) :
  forall parsed_all : list command,
    Forall (fun a => tolerated (parse (tars_text a) w h)) action_strings ->
    ui_tars_loop parse w h action_strings parsed_all =
    (map (fun a => TarsParse (tars_text a) w h) action_strings,
     Ok (parsed_all ++ flat_map (fun a => commands_of (parse (tars_text a) w h))
                                action_strings)%list).
Proof.
  induction action_strings as [|a strs IH]; intros acc Hall.
  - cbn. now rewrite app_nil_r.
  - inversion Hall as [|? ? Ha Hstrs]; subst.
    cbn [ui_tars_loop map flat_map]. fold (tars_text a).
    rewrite mbind_emit. unfold tolerated in Ha.
    destruct (parse (tars_text a) w h) as [p|[]]; try contradiction;
      rewrite (IH _ Hstrs); cbn [fst snd commands_of app];
      now rewrite ?app_assoc.
Qed.

(** An expression on which the external parser raises ValueError changes
    nothing in what the loop returns. *)
Lemma ui_tars_loop_skips (parse : string -> Z -> Z -> result parsed) (w h : Z)
      (bad : string) (after : list string) (before : list string) :
  forall parsed_all : list command,
    parse (tars_text bad) w h = Raise ValueError ->
    snd (ui_tars_loop parse w h (before ++ bad :: after) parsed_all) =
    snd (ui_tars_loop parse w h (before ++ after) parsed_all).
Proof.
  induction before as [|a before IH]; intros acc Hbad.
  - cbn [app ui_tars_loop]. fold (tars_text bad).
    now rewrite mbind_emit, Hbad.
  - cbn [app ui_tars_loop]. fold (tars_text a). rewrite !mbind_emit.
    destruct (parse (tars_text a) w h) as [p|[]]; cbn [snd]; auto.
Qed.

Lemma parse_all_ui_tars (response : string) (ih iw : Z)
      (action_parser action_parser_callable : option string) (s : Z) :
  selected_parser action_parser = "ui_tars" ->
  parse_all H response ih iw action_parser action_parser_callable s =
  match import_ui_tars H with
  | Ok parse => ui_tars_loop parse iw ih (Extractor._split_multi_actions response) []
  | Raise e => ([], Raise e)
  end.
Proof.
  intros Hsel. unfold parse_all. fold (selected_parser action_parser).
  rewrite Hsel. cbn [String.eqb Ascii.eqb Bool.eqb].
  destruct (import_ui_tars H); [now rewrite mbind_lift_ok|reflexivity].
Qed.

End BackendFacts.

(** C4: with the custom backend selected, a parser reference that lacks the
    colon, whose module cannot be imported, or whose symbol is missing or not
    callable makes [parse_and_execute_action] raise that error with no event
    at all: the parser is not called and no command is executed. *)
Theorem custom_resolution_failure_is_fatal :
  forall (H : host) (response : string) (ih iw : Z) (action_parser : option string)
         (callable_path : string) (s : Z) (e : exn),
    selected_parser action_parser = "custom" ->
    resolution_failure H callable_path e ->
    parse_and_execute_action H response ih iw action_parser (Some callable_path) s
    = ([], Raise e).
Proof.
  intros H response ih iw action_parser callable_path s e Hsel Hfail.
  unfold parse_and_execute_action.
  now rewrite (parse_all_custom_fails H response ih iw action_parser callable_path s e
                 Hsel (load_fails H callable_path e Hfail)).
Qed.

(** A reference without a colon, on a response that holds an action. *)
Lemma custom_resolution_failure_is_fatal_witness :
  parse_and_execute_action Demo.linux "<action>wait()</action>" 1080 1920
                           (Some " Custom ") (Some "my_parsers.parse") 1000
  = ([], Raise ValueError).
Proof.
  apply (custom_resolution_failure_is_fatal Demo.linux "<action>wait()</action>"
           1080 1920 (Some " Custom ") "my_parsers.parse" 1000 ValueError).
  - reflexivity.
  - apply no_separator. reflexivity.
Defined.

(** C6: with the ui_tars backend selected, a missing package raises
    DependencyError before any expression is parsed; when the package is
    there, an expression on which the external parser raises ValueError is
    skipped: what the loop returns is what it returns without that
    expression, and when every expression parses or raises ValueError each
    one is handed over and contributes its commands or nothing. *)
Theorem ui_tars_skips_bad_expressions :
  (forall (H : host) (response : string) (ih iw : Z)
          (action_parser action_parser_callable : option string) (s : Z),
      selected_parser action_parser = "ui_tars" ->
      ui_tars H = Raise ModuleNotFoundError ->
      parse_and_execute_action H response ih iw action_parser action_parser_callable s
      = ([], Raise DependencyError))
  /\ (forall (H : host) (response : string) (ih iw : Z)
             (action_parser action_parser_callable : option string) (s : Z)
             (parse : string -> Z -> Z -> result parsed),
         selected_parser action_parser = "ui_tars" ->
         ui_tars H = Ok parse ->
         parse_all H response ih iw action_parser action_parser_callable s
         = ui_tars_loop parse iw ih (Extractor._split_multi_actions response) [])
  /\ (forall (parse : string -> Z -> Z -> result parsed) (w h : Z)
             (before : list string) (bad : string) (after : list string)
             (parsed_all : list command),
         parse (tars_text bad) w h = Raise ValueError ->
         snd (ui_tars_loop parse w h (before ++ bad :: after) parsed_all) =
         snd (ui_tars_loop parse w h (before ++ after) parsed_all))
  /\ (forall (parse : string -> Z -> Z -> result parsed) (w h : Z)
             (action_strings : list string) (parsed_all : list command),
         Forall (fun a => tolerated (parse (tars_text a) w h)) action_strings ->
         ui_tars_loop parse w h action_strings parsed_all =
         (map (fun a => TarsParse (tars_text a) w h) action_strings,
          Ok (parsed_all ++ flat_map (fun a => commands_of (parse (tars_text a) w h))
                                     action_strings)%list)).
Proof.
  split; [|split; [|split]].
  - intros H response ih iw ap apc s Hsel Himp.
    unfold parse_and_execute_action.
    rewrite (parse_all_ui_tars H response ih iw ap apc s Hsel).
    unfold import_ui_tars. now rewrite Himp.
  - intros H response ih iw ap apc s parse Hsel Himp.
    rewrite (parse_all_ui_tars H response ih iw ap apc s Hsel).
    unfold import_ui_tars. now rewrite Himp.
  - intros parse w h before bad after acc Hbad.
    now apply ui_tars_loop_skips.
  - intros parse w h strs acc Hall. now apply ui_tars_loop_tolerant.
Qed.

(** Without the package; and three expressions of which the second is
    rejected by the external parser. *)
Lemma ui_tars_skips_bad_expressions_witness :
  parse_and_execute_action Demo.linux "<action>wait()</action>" 1080 1920
                           (Some "ui_tars") None 1000
  = ([], Raise DependencyError)
  /\ parse_all Demo.equipped "<action>wait()</action>" 1080 1920 (Some "UI_TARS") None 1000
     = ui_tars_loop Demo.tars_stub 1920 1080 ["Action: wait()"] []
  /\ snd (ui_tars_loop Demo.tars_stub 1920 1080
            (["Action: wait()"] ++ "Action: jump()" :: ["wait()"]) [])
     = snd (ui_tars_loop Demo.tars_stub 1920 1080 (["Action: wait()"] ++ ["wait()"]) [])
  /\ ui_tars_loop Demo.tars_stub 1920 1080 ["Action: wait()"; "Action: jump()"; "wait()"] []
     = ([TarsParse "Action: wait()" 1920 1080; TarsParse "Action: jump()" 1920 1080;
         TarsParse "Action: wait()" 1920 1080],
        Ok [Command (Some "wait") []; Command (Some "wait") []]).
Proof.
  destruct ui_tars_skips_bad_expressions as [Hmissing [Hloop [Hskip Hall]]].
  split; [|split; [|split]].
  - apply Hmissing; reflexivity.
  - apply (Hloop Demo.equipped "<action>wait()</action>" 1080%Z 1920%Z
                 (Some "UI_TARS") None 1000%Z Demo.tars_stub); reflexivity.
  - apply Hskip. reflexivity.
  - apply (Hall Demo.tars_stub 1920%Z 1080%Z
                ["Action: wait()"; "Action: jump()"; "wait()"] []).
    repeat constructor.
Defined.

(** ** Builtin parser *)

Section BuiltinFacts.
Import Builtin.

Lemma split_last_snoc (s : string) (c : ascii) :
  split_last (s ++ String c "") = Some (s, c).
Proof.
  induction s as [|d s IH]; [reflexivity|].
  cbn [String.append split_last]. now rewrite IH.
Qed.

Lemma span_ident_call (name rest : string) :
  all_ident name = true ->
  span_ident (name ++ String "(" rest) = (name, String "(" rest).
Proof.
  induction name as [|c name IH]; intros Hid; [reflexivity|].
  cbn [all_ident] in Hid. apply andb_prop in Hid. destruct Hid as [Hc Hname].
  cbn [String.append span_ident]. now rewrite Hc, (IH Hname).
Qed.

Lemma append_snoc_assoc (a b : string) (c : ascii) :
  (a ++ b ++ String c "")%string = ((a ++ b) ++ String c "")%string.
Proof. induction a as [|d a IH]; [reflexivity|]. cbn [String.append]. now rewrite IH. Qed.

(** The call-syntax shape: an identifier, an opening parenthesis, anything,
    and a closing parenthesis at the end. *)
Lemma call_match_shape (name args : string) :
  is_identifier name = true ->
  call_match (name ++ "(" ++ args ++ ")") = Some (name, args).
Proof.
  destruct name as [|c name]; [discriminate|]. intros Hid.
  cbn [is_identifier] in Hid. apply andb_prop in Hid. destruct Hid as [Hc Hname].
  assert (Hall : all_ident (String c name) = true).
  { cbn [all_ident]. unfold ident_char. now rewrite Hc, Hname. }
  unfold call_match. cbn [String.append]. rewrite Hc.
  change (String c (name ++ String "(" (args ++ ")")))
    with (String c name ++ String "(" (args ++ ")"))%string.
  rewrite (span_ident_call (String c name) (args ++ ")") Hall).
  cbn [Ascii.eqb Bool.eqb]. unfold call_args.
  now rewrite split_last_snoc.
Qed.

Variable H : host.

Lemma quoted_arg_of_nothing (name : string) :
  name <> "" -> _extract_quoted_arg "" name = None.
Proof. destruct name; [contradiction|reflexivity]. Qed.

Lemma parts_without_call (action_str : string) :
  call_match (call_text action_str) = None ->
  _extract_call_parts action_str = (PyStr.lower (call_text action_str), "").
Proof. intros Hno. unfold _extract_call_parts. now rewrite Hno. Qed.

Lemma parse_without_call (action_str : string) :
  call_match (call_text action_str) = None ->
  _parse_builtin_action H action_str
  = bare_word_command (PyStr.lower (call_text action_str)).
Proof.
  intros Hno. unfold _parse_builtin_action. rewrite (parts_without_call _ Hno).
  generalize (PyStr.lower (call_text action_str)). intros kind.
  unfold bare_word_command.
  destruct (String.eqb_spec kind "scroll") as [->|Hscroll]; [reflexivity|].
  destruct (String.eqb_spec kind "wait") as [->|Hwait]; [reflexivity|].
  destruct (String.eqb_spec kind "finished") as [->|Hfin]; [reflexivity|].
  destruct (in_set kind ["click"; "left_single"; "left_double"; "right_single"; "hover"]);
    [reflexivity|].
  destruct (in_set kind ["drag"; "select"]); [reflexivity|].
  destruct (kind =? "type"); [reflexivity|].
  destruct (kind =? "hotkey"); reflexivity.
Qed.

End BuiltinFacts.

(** C5, as the code has it: for every expression that does not match the
    call syntax, [_extract_call_parts] returns the lowercase text of the
    expression (trimmed, without the Action: label) as kind and no
    arguments, and the builtin parser makes no command of it unless that
    text is [scroll], [wait] or [finished], for which it builds the command
    of that kind without arguments (a scroll down). *)
Theorem bare_word_is_passed_through :
  forall (H : host) (action_str : string),
    Builtin.call_match (Builtin.call_text action_str) = None ->
    Builtin._extract_call_parts action_str
    = (PyStr.lower (Builtin.call_text action_str), "")
    /\ Builtin._parse_builtin_action H action_str
       = bare_word_command (PyStr.lower (Builtin.call_text action_str)).
Proof.
  intros H action_str Hno. split.
  - now apply parts_without_call.
  - now apply parse_without_call.
Qed.

(** A sentence is dropped; the bare word [Wait] is a command. *)
Lemma bare_word_is_passed_through_witness :
  (Builtin._extract_call_parts "Action: I am done" = ("i am done", "")
   /\ Builtin._parse_builtin_action Demo.linux "Action: I am done" = None)
  /\ (Builtin._extract_call_parts " Wait " = ("wait", "")
      /\ Builtin._parse_builtin_action Demo.linux " Wait " = Some (Command (Some "wait") [])).
Proof.
  split.
  - apply (bare_word_is_passed_through Demo.linux "Action: I am done"). reflexivity.
  - apply (bare_word_is_passed_through Demo.linux " Wait "). reflexivity.
Defined.

(** C5, as stated, fails: [finished] without parentheses does not match the
    call syntax, yet the builtin parser returns the command [finished] of the
    closed set, and the dispatcher executes it. *)
Lemma bare_finished_is_executed :
  Builtin.call_match (Builtin.call_text "finished") = None
  /\ Builtin._parse_builtin_action Demo.linux "finished" = Some finished_command
  /\ parse_and_execute_action Demo.linux "finished" 1080 1920 None None 1000
     = ([], Ok (true, ["finished"], Some "finished")).
Proof. repeat split. Qed.

(** ** Extractor *)

Section ExtractorFacts.
Import PyStr Extractor.

Lemma lower_length (s : string) : String.length (lower s) = String.length s.
Proof. induction s as [|c s IH]; [reflexivity|]. cbn. now rewrite IH. Qed.

Lemma app_assoc_str (a b c : string) : ((a ++ b) ++ c = a ++ b ++ c)%string.
Proof. induction a as [|d a IH]; [reflexivity|]. cbn [String.append]. now rewrite IH. Qed.

Lemma drop_app (a b : string) : drop (String.length a) (a ++ b) = b.
Proof. induction a as [|d a IH]; [now destruct b|]. cbn. exact IH. Qed.

(** A marker in any letter case matches its pattern. *)
Lemma prefix_ci_lower (p : string) : forall o rest : string,
  lower o = lower p -> prefix_ci p (o ++ rest) = true.
Proof.
  induction p as [|a p IH]; intros o rest Hlow; [reflexivity|].
  destruct o as [|b o]; [discriminate|].
  cbn [lower] in Hlow. injection Hlow as Hb Ho.
  cbn [String.append prefix_ci]. rewrite Hb, Ascii.eqb_refl. now apply IH.
Qed.

(** A pattern without [<] that fails on [t] fails on [t] followed by [<]. *)
Lemma prefix_ci_no_lt (p : string) : forall (t y : string),
  no_lt p = true ->
  prefix_ci p t = false ->
  prefix_ci p (t ++ String "<" y) = false.
Proof.
  induction p as [|a p IH]; intros t y Hp Hfail; [discriminate|].
  cbn [no_lt] in Hp. apply andb_prop in Hp. destruct Hp as [Ha Hp].
  destruct t as [|b t].
  - cbn [String.append prefix_ci]. apply negb_true_iff in Ha. now rewrite Ha.
  - cbn [String.append prefix_ci] in *.
    apply andb_false_iff in Hfail. apply andb_false_iff.
    destruct Hfail as [Hb|Ht]; [now left|right]. now apply IH.
Qed.

(** A pattern that starts with its only [<] and fails at the head of a
    non-empty [t] fails there too when a [<] follows [t]. *)
Lemma prefix_ci_before_lt (a : ascii) (p : string) (b : ascii) (t y : string) :
  no_lt p = true ->
  prefix_ci (String a p) (String b t) = false ->
  prefix_ci (String a p) (String b t ++ String "<" y) = false.
Proof.
  intros Hp Hfail. cbn [String.append prefix_ci] in *.
  apply andb_false_iff in Hfail. apply andb_false_iff.
  destruct Hfail as [Hb|Ht]; [now left|right]. now apply prefix_ci_no_lt.
Qed.

Lemma lower_char_lt (b : ascii) : lower_char b = "<"%char -> b = "<"%char.
Proof.
  destruct b as [[] [] [] [] [] [] [] []]; intros Hb; vm_compute in Hb;
    first [discriminate Hb | reflexivity].
Qed.

Lemma tag_starts_with_lt (p o : string) :
  lower o = String "<" p -> exists o', o = String "<" o'.
Proof.
  destruct o as [|b o]; [discriminate|]. cbn [lower]. intros Hlow.
  injection Hlow as Hb _. exists o. f_equal. now apply lower_char_lt.
Qed.

Lemma length_app_str (a b : string) :
  String.length (a ++ b) = String.length a + String.length b.
Proof. induction a as [|d a IH]; [reflexivity|]. cbn. now rewrite IH. Qed.

Lemma occurs_ci_cons (p : string) (b : ascii) (t : string) :
  occurs_ci p (String b t) = false ->
  prefix_ci p (String b t) = false /\ occurs_ci p t = false.
Proof. cbn [occurs_ci]. intros Hno. now apply orb_false_elim in Hno. Qed.

(** The scan passes over the characters of a match. *)
Lemma scan_skip {A : Type} (match_at : string -> option (A * nat)) (x y : string) :
  scan match_at (String.length x) (x ++ y) = scan match_at 0 y.
Proof. induction x as [|d x IH]; [reflexivity|]. cbn. exact IH. Qed.

(** Text without a start marker yields no match, and is passed over when a
    marker follows. *)
Lemma scan_no_open (t : string) :
  occurs_ci "<action>" t = false -> xml_findall t = [].
Proof.
  unfold xml_findall. induction t as [|b t IH]; intros Hno; [reflexivity|].
  apply occurs_ci_cons in Hno. destruct Hno as [Hhead Hrest].
  cbn [scan]. unfold xml_match_at at 1. rewrite Hhead. now apply IH.
Qed.

Lemma scan_text_then_lt (t y : string) :
  occurs_ci "<action>" t = false ->
  xml_findall (t ++ String "<" y) = xml_findall (String "<" y).
Proof.
  unfold xml_findall. induction t as [|b t IH]; intros Hno; [reflexivity|].
  apply occurs_ci_cons in Hno. destruct Hno as [Hhead Hrest].
  cbn [String.append scan]. unfold xml_match_at at 1.
  change (String b (t ++ String "<" y)) with (String b t ++ String "<" y)%string.
  rewrite (prefix_ci_before_lt "<" "action>" b t y eq_refl Hhead).
  now apply IH.
Qed.

Lemma until_close_eq (s : string) :
  until_close s =
  if prefix_ci "</action>" s then Some ""%string
  else match s with
       | ""%string => None
       | String c s' =>
           match until_close s' with
           | Some body => Some (String c body)
           | None => None
           end
       end.
Proof. destruct s; reflexivity. Qed.

(** The lazy group stops at the first end marker: a body without one is
    matched whole. *)
Lemma until_close_body (body c rest : string) :
  occurs_ci "</action>" body = false ->
  close_tag c ->
  until_close (body ++ c ++ rest) = Some body.
Proof.
  intros Hno Hc. destruct (tag_starts_with_lt "/action>" c Hc) as [c' ->].
  induction body as [|b body IH].
  - rewrite until_close_eq. cbn [String.append].
    change (String "<" (c' ++ rest)) with (String "<" c' ++ rest)%string.
    now rewrite (prefix_ci_lower "</action>" (String "<" c') rest Hc).
  - apply occurs_ci_cons in Hno. destruct Hno as [Hhead Hrest].
    rewrite until_close_eq.
    change (String b body ++ String "<" c' ++ rest)%string
      with (String b body ++ String "<" (c' ++ rest))%string.
    rewrite (prefix_ci_before_lt "<" "/action>" b body (c' ++ rest) eq_refl Hhead).
    specialize (IH Hrest). cbn [String.append] in IH |- *. now rewrite IH.
Qed.

(** One well-formed span at the head of the text. *)
Lemma xml_match_span (o body c rest : string) :
  open_tag o ->
  occurs_ci "</action>" body = false ->
  close_tag c ->
  xml_match_at (o ++ body ++ c ++ rest) = Some (body, 8 + String.length body + 9).
Proof.
  intros Ho Hno Hc. unfold xml_match_at.
  rewrite (prefix_ci_lower "<action>" o (body ++ c ++ rest) Ho).
  assert (Hlen : String.length o = 8).
  { rewrite <- lower_length, Ho. reflexivity. }
  rewrite <- Hlen at 1. rewrite drop_app.
  now rewrite (until_close_body body c rest Hno Hc).
Qed.

Lemma findall_span (o body c rest : string) :
  open_tag o ->
  occurs_ci "</action>" body = false ->
  close_tag c ->
  xml_findall (o ++ body ++ c ++ rest) = body :: xml_findall rest.
Proof.
  intros Ho Hno Hc. unfold xml_findall.
  pose proof (xml_match_span o body c rest Ho Hno Hc) as Hm.
  assert (Hlo : String.length o = 8) by (rewrite <- lower_length, Ho; reflexivity).
  assert (Hlc : String.length c = 9) by (rewrite <- lower_length, Hc; reflexivity).
  destruct (tag_starts_with_lt "action>" o Ho) as [o' ->].
  cbn [String.append scan] in *.
  rewrite Hm. f_equal.
  rewrite <- (app_assoc_str body c rest), <- (app_assoc_str o' (body ++ c) rest).
  replace (8 + String.length body + 9 - 1) with (String.length (o' ++ body ++ c)).
  - apply scan_skip.
  - rewrite !length_app_str, Hlc. cbn [String.length] in Hlo. lia.
Qed.

(** The matches of a response cut into well-formed spans are the bodies of
    the spans, in document order. *)
Lemma findall_tagged (response : string) (bodies : list string) :
  Tagged response bodies -> xml_findall response = bodies.
Proof.
  induction 1 as [t Ht | t o body c rest bodies Ht Ho Hbody Hc Hrest IH].
  - now apply scan_no_open.
  - destruct (tag_starts_with_lt "action>" o Ho) as [o' Eo].
    rewrite Eo at 1. cbn [String.append].
    rewrite (scan_text_then_lt t _ Ht).
    change (String "<" (o' ++ body ++ c ++ rest))
      with (String "<" o' ++ body ++ c ++ rest)%string.
    rewrite <- Eo, (findall_span o body c rest Ho Hbody Hc). now rewrite IH.
Qed.

End ExtractorFacts.

Section ExtractorClaims.
Import PyStr Extractor.

Lemma xml_actions_labelled (xml_matches : list string) :
  xml_actions xml_matches = labelled_bodies xml_matches.
Proof.
  unfold xml_actions, labelled_bodies.
  induction xml_matches as [|m ms IH]; [reflexivity|].
  cbn [flat_map map filter]. rewrite IH.
  now destruct (nonempty (strip m)).
Qed.

Lemma split_with_matches (response : string) :
  xml_findall response <> [] ->
  _split_multi_actions response = labelled_bodies (xml_findall response).
Proof.
  intros Hsome. unfold _split_multi_actions.
  destruct (xml_findall response) as [|m ms] eqn:E; [contradiction|].
  apply xml_actions_labelled.
Qed.

Lemma labelled_blank (bodies : list string) :
  Forall (fun body => strip body = ""%string) bodies -> labelled_bodies bodies = [].
Proof.
  unfold labelled_bodies. induction 1 as [|body bodies Hb _ IH]; [reflexivity|].
  cbn [map filter]. now rewrite Hb.
Qed.

End ExtractorClaims.

(** C3, as the code has it: for every response in which the start/end
    pattern matches at least once, in particular for every response cut into
    well-formed spans, [_split_multi_actions] returns, in document order, the
    trimmed body of every span whose trimmed body is not empty, each behind
    the label [Action: ]; the pass over bare calls plays no part. *)
Theorem delimited_spans_are_labelled :
  (forall response : string,
      Extractor.xml_findall response <> [] ->
      Extractor._split_multi_actions response
      = labelled_bodies (Extractor.xml_findall response))
  /\ (forall (response : string) (bodies : list string),
         Tagged response bodies ->
         Extractor.xml_findall response = bodies)
  /\ (forall (response : string) (bodies : list string),
         Tagged response bodies ->
         bodies <> [] ->
         Extractor._split_multi_actions response = labelled_bodies bodies).
Proof.
  split; [exact split_with_matches|split; [exact findall_tagged|]].
  intros response bodies Htag Hsome.
  rewrite <- (findall_tagged response bodies Htag) in Hsome |- *.
  now apply split_with_matches.
Qed.

(** Two spans around text, in mixed letter case and over two lines. *)
Lemma delimited_spans_are_labelled_witness :
  Extractor._split_multi_actions
    "Plan: <action> click(point='<point>1 2</point>') </action> then <ACTION>wait(
)</Action> done"
  = ["Action: click(point='<point>1 2</point>')"; "Action: wait(
)"].
Proof.
  destruct delimited_spans_are_labelled as [_ [_ Htagged]].
  apply (Htagged _ [" click(point='<point>1 2</point>') "; "wait(
)"]); [|discriminate].
  apply (@tagged_span "Plan: " "<action>" " click(point='<point>1 2</point>') "
                     "</action>" _ ["wait(
)"]); try reflexivity.
  apply (@tagged_span " then " "<ACTION>" "wait(
)" "</Action>" " done" []); try reflexivity.
  apply tagged_text. reflexivity.
Defined.

(** C3, as stated, fails: the extractor does not return the trimmed bodies
    themselves; it labels them and leaves out the empty ones. *)
Lemma delimited_bodies_are_not_returned_bare :
  Tagged "<action>wait()</action><action> </action>" ["wait()"; " "]
  /\ Extractor._split_multi_actions "<action>wait()</action><action> </action>"
     = ["Action: wait()"]
  /\ Extractor._split_multi_actions "<action>wait()</action><action> </action>"
     <> map PyStr.strip ["wait()"; " "].
Proof.
  split; [|split; [reflexivity|discriminate]].
  apply (@tagged_span "" "<action>" "wait()" "</action>" _ [" "]); try reflexivity.
  apply (@tagged_span "" "<action>" " " "</action>" "" []); try reflexivity.
  apply tagged_text. reflexivity.
Qed.

Section BlankSpans.
Variable H : host.

Lemma parse_all_of_nothing (response : string) (ih iw : Z)
      (action_parser action_parser_callable : option string) (s : Z) :
  Extractor._split_multi_actions response = [] ->
  selected_parser action_parser <> "custom" ->
  (selected_parser action_parser = "ui_tars" ->
   exists parse, ui_tars H = Ok parse) ->
  parse_all H response ih iw action_parser action_parser_callable s = ([], Ok []).
Proof.
  intros Hnone Hcustom Htars. unfold parse_all.
  fold (selected_parser action_parser). rewrite Hnone.
  apply String.eqb_neq in Hcustom. rewrite Hcustom.
  destruct (String.eqb_spec (selected_parser action_parser) "ui_tars") as [Hsel|_];
    [|reflexivity].
  destruct (Htars Hsel) as [parse Hparse].
  unfold import_ui_tars. now rewrite Hparse.
Qed.

End BlankSpans.

(** C10, as the code has it: when the start/end pattern matches and every
    body is empty or whitespace, [_split_multi_actions] returns the empty
    list, and with a backend that parses the extracted expressions (any
    parser name but [custom]; for [ui_tars] the package must be importable)
    [parse_and_execute_action] returns [(False, [], None)] without any
    event, whatever else the response holds. *)
Theorem blank_spans_trigger_nothing :
  (forall response : string,
      Extractor.xml_findall response <> [] ->
      Forall (fun body => PyStr.strip body = "") (Extractor.xml_findall response) ->
      Extractor._split_multi_actions response = [])
  /\ (forall (H : host) (response : string) (ih iw : Z)
             (action_parser action_parser_callable : option string) (s : Z),
         Extractor.xml_findall response <> [] ->
         Forall (fun body => PyStr.strip body = "") (Extractor.xml_findall response) ->
         selected_parser action_parser <> "custom" ->
         (selected_parser action_parser = "ui_tars" ->
          exists parse, ui_tars H = Ok parse) ->
         parse_and_execute_action H response ih iw action_parser action_parser_callable s
         = ([], Ok (false, [], None))).
Proof.
  assert (Hsplit : forall response : string,
             Extractor.xml_findall response <> [] ->
             Forall (fun body => PyStr.strip body = "") (Extractor.xml_findall response) ->
             Extractor._split_multi_actions response = []).
  { intros response Hsome Hblank.
    rewrite (split_with_matches response Hsome). now apply labelled_blank. }
  split; [exact Hsplit|].
  intros H response ih iw ap apc s Hsome Hblank Hcustom Htars.
  unfold parse_and_execute_action.
  now rewrite (parse_all_of_nothing H response ih iw ap apc s
                 (Hsplit response Hsome Hblank) Hcustom Htars).
Qed.

(** A blank span in front of a usable bare call, with the default backend
    and with ui_tars. *)
Lemma blank_spans_trigger_nothing_witness :
  Extractor._split_multi_actions "<action> </action> click(point='<point>1 2</point>')" = []
  /\ parse_and_execute_action Demo.linux
       "<action> </action> click(point='<point>1 2</point>')" 1080 1920
       (Some "doubao") None 1000
     = ([], Ok (false, [], None))
  /\ parse_and_execute_action Demo.equipped
       "<action> </action> click(point='<point>1 2</point>')" 1080 1920
       (Some "ui_tars") None 1000
     = ([], Ok (false, [], None)).
Proof.
  destruct blank_spans_trigger_nothing as [Hsplit Hrun].
  split; [|split].
  - apply Hsplit; [discriminate|].
    change (Forall (fun body => PyStr.strip body = "") [" "]). now repeat constructor.
  - apply Hrun; [discriminate| | discriminate | discriminate].
    change (Forall (fun body => PyStr.strip body = "") [" "]). now repeat constructor.
  - apply Hrun; [discriminate| | discriminate |].
    + change (Forall (fun body => PyStr.strip body = "") [" "]). now repeat constructor.
    + intros _. exists Demo.tars_stub. reflexivity.
Defined.

(** C10, as stated, fails: the custom backend is handed the whole response,
    not the extracted expressions, and what it returns is executed; and
    without the ui_tars package that backend raises. *)
Lemma blank_spans_with_custom_backend :
  Extractor.xml_findall "<action> </action>" = [" "]
  /\ Extractor._split_multi_actions "<action> </action>" = []
  /\ parse_and_execute_action Demo.equipped "<action> </action>" 1080 1920
       (Some "custom") (Some "my_parsers:parse") 1000
     = ([CustomParse "<action> </action>" 1920 1080 1000],
        Ok (true, ["finished"], Some "finished"))
  /\ parse_and_execute_action Demo.linux "<action> </action>" 1080 1920
       (Some "ui_tars") None 1000
     = ([], Raise DependencyError).
Proof. repeat split. Qed.

(** ** More on the builtin parser *)

Section BuiltinMore.
Import PyStr Builtin.

Lemma in_set_true (s : string) (names : list string) :
  in_set s names = true -> In s names.
Proof.
  unfold in_set. intros Hin. apply existsb_exists in Hin.
  destruct Hin as [name [Hname Heq]]. apply String.eqb_eq in Heq. now subst.
Qed.

Lemma in_set_false_cons (s name : string) (names : list string) :
  in_set s (name :: names) = false -> (s =? name) = false /\ in_set s names = false.
Proof. unfold in_set. cbn [existsb]. apply orb_false_elim. Qed.

Variable H : host.

(** What the builtin parser returns is a command of its closed set, of the
    kind the expression names. *)
Lemma parse_kind (action_str : string) (c : command) :
  _parse_builtin_action H action_str = Some c ->
  action_type c = Some (fst (_extract_call_parts action_str))
  /\ In (fst (_extract_call_parts action_str)) builtin_kinds.
Proof.
  unfold _parse_builtin_action.
  destruct (_extract_call_parts action_str) as [kind args]. cbn [fst].
  destruct (in_set kind ["click"; "left_single"; "left_double"; "right_single"; "hover"])
    eqn:Hpointer.
  { apply in_set_true in Hpointer.
    destruct (or_else _ _); [|discriminate]. intros Hc. injection Hc as <-.
    split; [reflexivity|]. unfold builtin_kinds. cbn [In] in *. tauto. }
  destruct (in_set kind ["drag"; "select"]) eqn:Hdrag.
  { apply in_set_true in Hdrag.
    destruct (_extract_point_arg H args "start_point"); [|discriminate].
    destruct (_extract_point_arg H args "end_point"); [|discriminate].
    intros Hc. injection Hc as <-.
    split; [reflexivity|]. unfold builtin_kinds. cbn [In] in *. tauto. }
  destruct (String.eqb_spec kind "scroll") as [->|_].
  { intros Hc. injection Hc as <-. split; [reflexivity|]. cbn. tauto. }
  destruct (String.eqb_spec kind "type") as [->|_].
  { destruct (_extract_quoted_arg args "content"); [|discriminate].
    intros Hc. injection Hc as <-. split; [reflexivity|]. cbn. tauto. }
  destruct (String.eqb_spec kind "hotkey") as [->|_].
  { destruct (str_or _ _); [|discriminate].
    intros Hc. injection Hc as <-. split; [reflexivity|]. cbn. tauto. }
  destruct (String.eqb_spec kind "wait") as [->|_].
  { intros Hc. injection Hc as <-. split; [reflexivity|]. cbn. tauto. }
  destruct (String.eqb_spec kind "finished") as [->|_]; [|discriminate].
  destruct (_extract_quoted_arg args "content") as [[|ch content]|];
    intros Hc; injection Hc as <-; (split; [reflexivity|cbn; tauto]).
Qed.

Lemma parse_unknown_kind (action_str : string) :
  in_set (fst (_extract_call_parts action_str)) builtin_kinds = false ->
  _parse_builtin_action H action_str = None.
Proof.
  intros Hk.
  destruct (_parse_builtin_action H action_str) as [c|] eqn:Hp; [|reflexivity].
  destruct (parse_kind action_str c Hp) as [_ Hin].
  unfold in_set in Hk.
  assert (Htrue : existsb (String.eqb (fst (_extract_call_parts action_str))) builtin_kinds
                  = true).
  { apply existsb_exists. exists (fst (_extract_call_parts action_str)).
    split; [exact Hin|apply String.eqb_refl]. }
  congruence.
Qed.

Lemma builtin_loop_app (a b : list string) :
  builtin_loop H (a ++ b) = (builtin_loop H a ++ builtin_loop H b)%list.
Proof. unfold builtin_loop. apply flat_map_app. Qed.

Lemma builtin_loop_skips (a b : list string) (bad : string) :
  _parse_builtin_action H bad = None ->
  builtin_loop H (a ++ bad :: b) = builtin_loop H (a ++ b).
Proof.
  intros Hbad. rewrite !builtin_loop_app. f_equal.
  unfold builtin_loop. cbn [flat_map]. now rewrite Hbad.
Qed.

End BuiltinMore.

Section TextFacts.
Import PyStr Builtin.

Lemma prefix_app (p s : string) : prefix p (p ++ s) = true.
Proof.
  induction p as [|c p IH]; [now destruct s|].
  cbn [String.append prefix]. destruct (ascii_dec c c); [exact IH|contradiction].
Qed.

Lemma until_quote_value (q : ascii) (v rest : string) :
  has_char q v = false ->
  until_quote q (v ++ String q rest) = Some v.
Proof.
  induction v as [|c v IH]; intros Hv.
  - cbn. now rewrite Ascii.eqb_refl.
  - cbn [has_char] in Hv. apply orb_false_elim in Hv. destruct Hv as [Hc Hv].
    cbn [String.append until_quote]. now rewrite Hc, (IH Hv).
Qed.

Lemma re_search_here {A : Type} (match_at : string -> option A) (s : string) (a : A) :
  match_at s = Some a -> re_search match_at s = Some a.
Proof. intros Hm. destruct s; cbn [re_search]; now rewrite Hm. Qed.

Lemma re_search_next {A : Type} (match_at : string -> option A) (c : ascii) (s : string) :
  match_at (String c s) = None ->
  re_search match_at (String c s) = re_search match_at s.
Proof. intros Hm. cbn [re_search]. now rewrite Hm. Qed.

Lemma quoted_at_value (name v rest : string) :
  has_char "'" v = false ->
  quoted_at name "'" (quoted_text name v ++ rest) = Some v.
Proof.
  intros Hv. unfold quoted_at, quoted_text.
  rewrite !app_assoc_str, prefix_app, drop_app.
  cbn [String.append lstrip isspace N_of_ascii Ascii.eqb Bool.eqb].
  cbn. now apply until_quote_value.
Qed.

Lemma quoted_arg_value (name v rest : string) :
  has_char "'" v = false ->
  _extract_quoted_arg (quoted_text name v ++ rest) name = Some v.
Proof.
  intros Hv. unfold _extract_quoted_arg.
  now rewrite (re_search_here _ _ _ (quoted_at_value name v rest Hv)).
Qed.

(** A lookup of [point] finds the value of an argument whose name only ends
    in [point]. *)
Lemma point_lookup_in_longer_name (v rest : string) :
  has_char "'" v = false ->
  _extract_quoted_arg (quoted_text "end_point" v ++ rest) "point" = Some v
  /\ _extract_quoted_arg (quoted_text "start_point" v ++ rest) "point" = Some v.
Proof.
  intros Hv. unfold _extract_quoted_arg. split.
  - change (quoted_text "end_point" v ++ rest)%string
      with ("end_" ++ (quoted_text "point" v ++ rest))%string.
    cbn [String.append].
    do 4 (rewrite re_search_next by reflexivity).
    now rewrite (re_search_here _ _ _ (quoted_at_value "point" v rest Hv)).
  - change (quoted_text "start_point" v ++ rest)%string
      with ("start_" ++ (quoted_text "point" v ++ rest))%string.
    cbn [String.append].
    do 6 (rewrite re_search_next by reflexivity).
    now rewrite (re_search_here _ _ _ (quoted_at_value "point" v rest Hv)).
Qed.

End TextFacts.

(** ** From the text of a call to its command *)

Section PipelineFacts.
Import PyStr Builtin Extractor.

Lemma append_nil_r (s : string) : (s ++ "")%string = s.
Proof. induction s as [|c s IH]; [reflexivity|]. cbn. now rewrite IH. Qed.

Lemma ident_start_not_space (c : ascii) : ident_start c = true -> isspace c = false.
Proof.
  destruct c as [[] [] [] [] [] [] [] []]; intros Hc; vm_compute in Hc |- *;
    congruence.
Qed.

Lemma rstrip_snoc (s : string) (c : ascii) :
  isspace c = false -> rstrip (s ++ String c "") = (s ++ String c "")%string.
Proof.
  intros Hc. induction s as [|d s IH].
  - cbn. now rewrite Hc.
  - cbn [String.append rstrip]. rewrite IH. now destruct s.
Qed.

Lemma strip_word (c : ascii) (s : string) (d : ascii) :
  isspace c = false -> isspace d = false ->
  strip (String c (s ++ String d "")) = String c (s ++ String d "").
Proof.
  intros Hc Hd. unfold strip. cbn [lstrip]. rewrite Hc.
  exact (rstrip_snoc (String c s) d Hd).
Qed.

(** A call is text without whitespace at its ends. *)
Lemma call_text_of_shape (name args : string) :
  is_identifier name = true ->
  exists (c : ascii) (s : string),
    call_text_of name args = String c (s ++ ")") /\ isspace c = false.
Proof.
  destruct name as [|c name]; [discriminate|]. intros Hid.
  cbn [is_identifier] in Hid. apply andb_prop in Hid. destruct Hid as [Hc _].
  exists c, (name ++ "(" ++ args)%string. split.
  - unfold call_text_of. cbn [String.append]. f_equal.
    now rewrite !app_assoc_str.
  - now apply ident_start_not_space.
Qed.

Lemma strip_call (name args : string) :
  is_identifier name = true ->
  strip (call_text_of name args) = call_text_of name args.
Proof.
  intros Hid. destruct (call_text_of_shape name args Hid) as [c [s [-> Hc]]].
  now apply strip_word.
Qed.

Lemma strip_labelled_call (name args : string) :
  is_identifier name = true ->
  strip (label (call_text_of name args)) = label (call_text_of name args).
Proof.
  intros Hid. destruct (call_text_of_shape name args Hid) as [c [s [-> Hc]]].
  change (label (String c (s ++ ")")))
    with (String "A" (("ction: " ++ String c s) ++ ")"))%string.
  now apply strip_word.
Qed.

Lemma call_text_of_labelled (name args : string) :
  is_identifier name = true ->
  call_text (label (call_text_of name args)) = call_text_of name args.
Proof.
  intros Hid. unfold call_text. rewrite (strip_labelled_call name args Hid).
  unfold label. cbn [String.append lower startswith prefix drop].
  change (prefix "action:" (String (lower_char "A") (String (lower_char "c")
            (String (lower_char "t") (String (lower_char "i") (String (lower_char "o")
            (String (lower_char "n") (String (lower_char ":") (String (lower_char " ")
            (lower (call_text_of name args))))))))))) with true.
  cbv iota. unfold strip. cbn [lstrip]. change (isspace " ") with true. cbv iota.
  exact (strip_call name args Hid).
Qed.

Lemma call_parts_of_labelled (name args : string) :
  is_identifier name = true ->
  _extract_call_parts (label (call_text_of name args)) = (lower name, strip args).
Proof.
  intros Hid. unfold _extract_call_parts.
  rewrite (call_text_of_labelled name args Hid).
  unfold call_text_of. now rewrite (call_match_shape name args Hid).
Qed.

Variable H : host.

Lemma strip_quoted (name v : string) (c : ascii) :
  isspace c = false ->
  strip (quoted_text (String c name) v) = quoted_text (String c name) v.
Proof.
  intros Hc.
  assert (E : quoted_text (String c name) v
              = String c ((name ++ "='" ++ v) ++ "'")%string).
  { unfold quoted_text. rewrite (app_assoc_str name ("='" ++ v) "'").
    cbn [String.append]. reflexivity. }
  rewrite E. now apply strip_word.
Qed.

Lemma parse_type_call (v : string) :
  has_char "'" v = false ->
  _parse_builtin_action H (label (call_text_of "type" (quoted_text "content" v)))
  = Some (type_command v).
Proof.
  intros Hv. unfold _parse_builtin_action.
  rewrite (call_parts_of_labelled "type" (quoted_text "content" v) eq_refl).
  rewrite (strip_quoted "ontent" v "c" eq_refl).
  cbn [lower in_set existsb String.eqb Ascii.eqb Bool.eqb orb].
  change (lower "type") with "type"%string.
  cbn [in_set existsb String.eqb Ascii.eqb Bool.eqb orb].
  rewrite <- (append_nil_r (quoted_text "content" v)).
  now rewrite (quoted_arg_value "content" v "" Hv).
Qed.

End PipelineFacts.

Section RoundTrip.
Import PyStr Builtin Extractor.
Variable H : host.

Lemma split_one_call (name args : string) :
  is_identifier name = true ->
  occurs_ci "</action>" (call_text_of name args) = false ->
  _split_multi_actions ("<action>" ++ call_text_of name args ++ "</action>")
  = [label (call_text_of name args)].
Proof.
  intros Hid Hbody.
  assert (Htag : Tagged ("<action>" ++ call_text_of name args ++ "</action>")
                        [call_text_of name args]).
  { apply (@tagged_span "" "<action>" (call_text_of name args) "</action>" "" []);
      try reflexivity; [exact Hbody|]. apply tagged_text. reflexivity. }
  rewrite (split_with_matches _); rewrite (findall_tagged _ _ Htag); [|discriminate].
  unfold labelled_bodies. cbn [map]. rewrite (strip_call name args Hid).
  destruct (call_text_of_shape name args Hid) as [c [s [-> _]]]. reflexivity.
Qed.

Lemma builtin_backend (response : string) (ih iw : Z)
      (action_parser action_parser_callable : option string) (s : Z) :
  selected_parser action_parser <> "custom" ->
  selected_parser action_parser <> "ui_tars" ->
  parse_all H response ih iw action_parser action_parser_callable s
  = ([], Ok (builtin_loop H (_split_multi_actions response))).
Proof.
  intros Hcustom Htars. unfold parse_all. fold (selected_parser action_parser).
  apply String.eqb_neq in Hcustom, Htars. now rewrite Hcustom, Htars.
Qed.

End RoundTrip.

(** Whatever the builtin parser returns is a command of its closed set of
    kinds, and its kind is the lowercased name the expression starts with. *)
Theorem builtin_commands_of_closed_set :
  forall (H : host) (action_str : string) (c : command),
    Builtin._parse_builtin_action H action_str = Some c ->
    action_type c = Some (fst (Builtin._extract_call_parts action_str))
    /\ In (fst (Builtin._extract_call_parts action_str)) builtin_kinds.
Proof. exact parse_kind. Qed.

Lemma builtin_commands_of_closed_set_witness :
  action_type (Command (Some "click")
                 [("start_box", VSeq [INum (PFloat 500); INum (PFloat 500)])])
  = Some (fst (Builtin._extract_call_parts "Action: CLICK(point='<point>500 500</point>')"))
  /\ In (fst (Builtin._extract_call_parts "Action: CLICK(point='<point>500 500</point>')"))
        builtin_kinds.
Proof.
  apply (builtin_commands_of_closed_set Demo.linux
           "Action: CLICK(point='<point>500 500</point>')").
  vm_compute. reflexivity.
Defined.

(** An expression whose name is not one of the builtin kinds gives no
    command, and the commands of the expressions around it are the same as
    without it. *)
Theorem unknown_kind_contributes_nothing :
  forall (H : host) (before : list string) (bad : string) (after : list string),
    Builtin.in_set (fst (Builtin._extract_call_parts bad)) builtin_kinds = false ->
    Builtin._parse_builtin_action H bad = None
    /\ builtin_loop H (before ++ bad :: after) = builtin_loop H (before ++ after).
Proof.
  intros H before bad after Hk.
  pose proof (parse_unknown_kind H bad Hk) as Hnone.
  split; [exact Hnone|]. now apply builtin_loop_skips.
Qed.

Lemma unknown_kind_contributes_nothing_witness :
  Builtin._parse_builtin_action Demo.linux "Action: foobar(x=1)" = None
  /\ builtin_loop Demo.linux (["Action: wait()"] ++ "Action: foobar(x=1)" :: ["finished()"])
     = builtin_loop Demo.linux (["Action: wait()"] ++ ["finished()"]).
Proof.
  apply unknown_kind_contributes_nothing. reflexivity.
Defined.

(** The parser takes an expression the extractor labelled apart again: for
    every identifier [name] and all [args], the labelled call [name(args)]
    splits into the lowercased name and the trimmed arguments. *)
Theorem labelled_call_splits_into_parts :
  forall (name args : string),
    is_identifier name = true ->
    Builtin._extract_call_parts (Extractor.label (call_text_of name args))
    = (PyStr.lower name, PyStr.strip args).
Proof. exact call_parts_of_labelled. Qed.

Lemma labelled_call_splits_into_parts_witness :
  Builtin._extract_call_parts "Action: Left_Double( point='<point>1 2</point>' )"
  = ("left_double", "point='<point>1 2</point>'").
Proof.
  apply (labelled_call_splits_into_parts "Left_Double" " point='<point>1 2</point>' ").
  reflexivity.
Defined.

(** For a name that is an identifier, the value of a single-quoted
    argument at the head of the argument text is found whole, whatever
    follows, when it holds no single quote. *)
Theorem quoted_argument_is_found :
  forall (name v rest : string),
    is_identifier name = true ->
    has_char "'" v = false ->
    Builtin._extract_quoted_arg (quoted_text name v ++ rest) name = Some v.
Proof. intros name v rest _ Hv. now apply quoted_arg_value. Qed.

Lemma quoted_argument_is_found_witness :
  Builtin._extract_quoted_arg "direction='up', point='<point>1 2</point>'" "direction"
  = Some "up".
Proof.
  apply (quoted_argument_is_found "direction" "up" ", point='<point>1 2</point>'");
    reflexivity.
Defined.

(** The lookup of an argument is a search for its name anywhere in the
    text: a lookup of [point] finds the value of [end_point] and of
    [start_point]. *)
Theorem point_lookup_matches_longer_names :
  forall (v rest : string),
    has_char "'" v = false ->
    Builtin._extract_quoted_arg (quoted_text "end_point" v ++ rest) "point" = Some v
    /\ Builtin._extract_quoted_arg (quoted_text "start_point" v ++ rest) "point" = Some v.
Proof. exact point_lookup_in_longer_name. Qed.

(** A click that names only an end point is a click on that point. *)
Lemma point_lookup_matches_longer_names_witness :
  (Builtin._extract_quoted_arg "end_point='<point>5 6</point>'" "point"
   = Some "<point>5 6</point>"
   /\ Builtin._extract_quoted_arg "start_point='<point>5 6</point>'" "point"
      = Some "<point>5 6</point>")
  /\ Builtin._parse_builtin_action Demo.linux "click(end_point='<point>5 6</point>')"
     = Some (click_command [INum (PFloat 5); INum (PFloat 6)]).
Proof.
  split.
  - apply (point_lookup_matches_longer_names "<point>5 6</point>" ""). reflexivity.
  - vm_compute. reflexivity.
Defined.

Section TypedText.
Variable H : host.

Lemma execute_one_type (ih iw sf : Z) (v : string) :
  v <> "" ->
  PyStr.contains "<point>" v = false ->
  execute_pyautogui_action H ih iw sf (Many [type_command v])
  = (type_events H v, Ok ["type:" ++ PyStr.take 50 v]).
Proof.
  intros Hne Hpt. unfold execute_pyautogui_action.
  rewrite (loop_cons_next H ih iw sf 0 _ _ [] _ _ (step_type H ih iw sf v [] Hne Hpt)).
  cbn [loop mret fst snd settle_events Nat.ltb Nat.leb app append].
  now rewrite app_nil_r.
Qed.

End TypedText.

(** From the response to the keyboard: with the builtin backend, a response
    that is one delimited [type(content='v')] call types exactly [v] (not
    empty, without single quote, point marker or end marker) and reports the
    one step with the first 50 characters. *)
Theorem typed_text_round_trip :
  forall (H : host) (ih iw : Z) (action_parser action_parser_callable : option string)
         (s : Z) (v : string),
    selected_parser action_parser <> "custom" ->
    selected_parser action_parser <> "ui_tars" ->
    v <> "" ->
    has_char "'" v = false ->
    PyStr.contains "<point>" v = false ->
    occurs_ci "</action>" (call_text_of "type" (quoted_text "content" v)) = false ->
    parse_and_execute_action H
      ("<action>" ++ call_text_of "type" (quoted_text "content" v) ++ "</action>")
      ih iw action_parser action_parser_callable s
    = (type_events H v, Ok (true, ["type:" ++ PyStr.take 50 v], Some "type")).
Proof.
  intros H ih iw ap apc s v Hcustom Htars Hne Hquote Hpt Hbody.
  unfold parse_and_execute_action.
  rewrite (builtin_backend H _ ih iw ap apc s Hcustom Htars).
  rewrite (split_one_call "type" (quoted_text "content" v) eq_refl Hbody).
  unfold builtin_loop. cbn [flat_map]. rewrite (parse_type_call H v Hquote).
  cbn [app]. rewrite mbind_events. cbn [fst snd app].
  rewrite (execute_one_type H ih iw s v Hne Hpt).
  rewrite mbind_events. cbn [fst snd mret type_command action_type].
  now rewrite app_nil_r.
Qed.

Lemma typed_text_round_trip_witness :
  parse_and_execute_action Demo.linux "<action>type(content='hello world')</action>"
    1080 1920 (Some "doubao") None 1000
  = ([ClipboardCopy (VStr "hello world"); Sleep (PFloat 0.2);
      Hotkey ["ctrl"; "v"] (PFloat 0.1); Sleep (PFloat 0.5)],
     Ok (true, ["type:hello world"], Some "type")).
Proof.
  apply (typed_text_round_trip Demo.linux 1080 1920 (Some "doubao") None 1000
           "hello world"); try discriminate; reflexivity.
Defined.

(** ** More on the extractor *)

Section ExtractorMore.
Import PyStr Extractor.

Lemma labelled_nil (bodies : list string) :
  labelled_bodies bodies = [] -> Forall (fun body => strip body = ""%string) bodies.
Proof.
  unfold labelled_bodies. induction bodies as [|body bodies IH]; intros Hnil.
  - constructor.
  - cbn [map filter] in Hnil. destruct (strip body) as [|c s] eqn:Hs.
    + constructor; [exact Hs|]. now apply IH.
    + discriminate.
Qed.

Lemma bare_actions_not_nil (response : string) : bare_actions response <> [].
Proof.
  unfold bare_actions.
  destruct (map _ (scan bare_match_at 0 response)); discriminate.
Qed.

Lemma label_starts_with_label (action_str : string) :
  startswith "Action: " (label action_str) = true.
Proof. unfold label. apply prefix_app. Qed.

Lemma bare_actions_labelled (response : string) :
  Forall (fun a => startswith "Action: " a = true) (bare_actions response).
Proof.
  unfold bare_actions.
  destruct (map _ (scan bare_match_at 0 response)) as [|a l] eqn:Hmap.
  - repeat constructor. apply label_starts_with_label.
  - rewrite <- Hmap. apply Forall_forall. intros x Hin.
    apply in_map_iff in Hin. destruct Hin as [y [<- _]].
    apply label_starts_with_label.
Qed.

Lemma xml_actions_are_labelled (xml_matches : list string) :
  Forall (fun a => startswith "Action: " a = true) (xml_actions xml_matches).
Proof.
  rewrite xml_actions_labelled. unfold labelled_bodies.
  apply Forall_forall. intros x Hin.
  apply in_map_iff in Hin. destruct Hin as [y [<- _]].
  apply label_starts_with_label.
Qed.

End ExtractorMore.

(** Every expression the extractor returns begins with the label
    [Action: ], whichever pass produced it. *)
Theorem extracted_expressions_are_labelled :
  forall response : string,
    Forall (fun a => PyStr.startswith "Action: " a = true)
           (Extractor._split_multi_actions response).
Proof.
  intros response. unfold Extractor._split_multi_actions.
  destruct (Extractor.xml_findall response) as [|m ms].
  - apply bare_actions_labelled.
  - apply xml_actions_are_labelled.
Qed.

(** The extractor returns the empty list only when the start/end pattern
    matched and every body was empty or whitespace; without a delimited
    span it always returns at least one expression. *)
Theorem no_expression_only_for_blank_spans :
  forall response : string,
    Extractor._split_multi_actions response = [] ->
    Extractor.xml_findall response <> []
    /\ Forall (fun body => PyStr.strip body = "") (Extractor.xml_findall response).
Proof.
  intros response. unfold Extractor._split_multi_actions.
  destruct (Extractor.xml_findall response) as [|m ms] eqn:Hfind; intros Hnil.
  - now apply bare_actions_not_nil in Hnil.
  - split; [discriminate|]. rewrite xml_actions_labelled in Hnil.
    now apply labelled_nil.
Qed.

Lemma no_expression_only_for_blank_spans_witness :
  Extractor.xml_findall "<action>  </action> wait()" <> []
  /\ Forall (fun body => PyStr.strip body = "")
            (Extractor.xml_findall "<action>  </action> wait()").
Proof.
  apply (no_expression_only_for_blank_spans "<action>  </action> wait()").
  reflexivity.
Defined.

Section BareCalls.
Import PyStr Extractor.

Lemma take_app (a b : string) : take (String.length a) (a ++ b) = a.
Proof. induction a as [|c a IH]; [now destruct b|]. cbn. now rewrite IH. Qed.

Lemma until_char_found (q : ascii) (args rest : string) :
  has_char q args = false ->
  until_char q (args ++ String q rest) = Some (String.length args).
Proof.
  induction args as [|c args IH]; intros Hq.
  - cbn. now rewrite Ascii.eqb_refl.
  - cbn [has_char] in Hq. apply orb_false_elim in Hq. destruct Hq as [Hc Hq].
    cbn [String.append until_char String.length]. now rewrite Hc, (IH Hq).
Qed.

(** The parenthesised tail ends at the first closing parenthesis. *)
Lemma call_tail_paren (args rest : string) :
  has_char ")" args = false ->
  call_tail (String "(" (args ++ String ")" rest)) = Some (String.length args + 2).
Proof.
  intros Hq. unfold call_tail. cbn [lstrip]. change (isspace "(") with false.
  cbv iota. rewrite Ascii.eqb_refl, (until_char_found ")" args rest Hq).
  f_equal. rewrite Nat.sub_diag. lia.
Qed.

Lemma named_call_miss (name : string) (names : list string) (s : string) :
  prefix_ci name s = false ->
  named_call (name :: names) s = named_call names s.
Proof. intros Hm. cbn [named_call]. now rewrite Hm. Qed.

Lemma named_call_hit (name : string) (names : list string) (s : string) (n : nat) :
  prefix_ci name s = true ->
  call_tail (drop (String.length name) s) = Some n ->
  named_call (name :: names) s = Some (String.length name + n).
Proof. intros Hm Ht. cbn [named_call]. now rewrite Hm, Ht. Qed.

Lemma call_text_of_app (name args rest : string) :
  (call_text_of name args ++ rest)%string
  = (name ++ String "(" (args ++ String ")" rest))%string.
Proof. unfold call_text_of. now rewrite !app_assoc_str. Qed.

Lemma call_text_of_length (name args : string) :
  String.length (call_text_of name args) = String.length name + (String.length args + 2).
Proof.
  unfold call_text_of. rewrite !length_app_str. cbn [String.length]. lia.
Qed.

Ltac try_names args :=
  repeat (rewrite named_call_miss by reflexivity);
  rewrite named_call_hit with (n := String.length args + 2);
  [reflexivity | reflexivity | apply call_tail_paren; assumption].

Lemma named_call_of_name (name args rest : string) :
  In name action_funcs ->
  has_char ")" args = false ->
  named_call action_funcs (name ++ String "(" (args ++ String ")" rest))
  = Some (String.length name + (String.length args + 2)).
Proof.
  intros Hin Hq. unfold action_funcs in *. cbn [In] in Hin.
  destruct Hin as [<-|[<-|[<-|[<-|[<-|[<-|[<-|[<-|[<-|[<-|[<-|[<-|[]]]]]]]]]]]]];
    cbn [String.append]; try_names args.
Qed.

(** A bare call at the head of the text is matched up to its first closing
    parenthesis. *)
Lemma bare_match_call (name args rest : string) :
  In name action_funcs ->
  has_char ")" args = false ->
  bare_match_at (call_text_of name args ++ rest)
  = Some (call_text_of name args, String.length (call_text_of name args)).
Proof.
  intros Hin Hq. unfold bare_match_at.
  assert (Hlabel : prefix_ci "Action:" (call_text_of name args ++ rest) = false).
  { unfold action_funcs in Hin. cbn [In] in Hin.
    destruct Hin as [<-|[<-|[<-|[<-|[<-|[<-|[<-|[<-|[<-|[<-|[<-|[<-|[]]]]]]]]]]]]];
      reflexivity. }
  rewrite Hlabel, call_text_of_app, (named_call_of_name name args rest Hin Hq).
  rewrite <- call_text_of_length, <- call_text_of_app. now rewrite take_app.
Qed.

Lemma bare_call_not_labelled (name args : string) :
  In name action_funcs ->
  startswith "action:" (lower (call_text_of name args)) = false.
Proof.
  intros Hin. unfold action_funcs in Hin. cbn [In] in Hin.
  destruct Hin as [<-|[<-|[<-|[<-|[<-|[<-|[<-|[<-|[<-|[<-|[<-|[<-|[]]]]]]]]]]]]];
    reflexivity.
Qed.

Lemma call_text_of_cons (name args : string) :
  In name action_funcs ->
  exists (c : ascii) (s : string), call_text_of name args = String c s.
Proof.
  intros Hin. destruct name as [|c name].
  - unfold action_funcs in Hin. cbn [In] in Hin.
    repeat (destruct Hin as [Hin|Hin]; [discriminate|]). contradiction.
  - now exists c, (name ++ "(" ++ args ++ ")")%string.
Qed.

Lemma bare_actions_head (name args rest : string) :
  In name action_funcs ->
  has_char ")" args = false ->
  hd_error (bare_actions (call_text_of name args ++ rest))
  = Some (label (call_text_of name args)).
Proof.
  intros Hin Hq. unfold bare_actions.
  pose proof (bare_match_call name args rest Hin Hq) as Hm.
  destruct (call_text_of_cons name args Hin) as [c [s Hcall]].
  rewrite Hcall in Hm |- *. cbn [String.append scan] in Hm |- *.
  rewrite Hm. cbn [map hd_error].
  rewrite <- Hcall. now rewrite (bare_call_not_labelled name args Hin).
Qed.

End BareCalls.

(** Without a delimited span, a bare call of a known name at the head of
    the response is the first expression, cut at its first closing
    parenthesis, whatever follows. *)
Theorem bare_call_ends_at_first_parenthesis :
  forall (name args rest : string),
    In name Extractor.action_funcs ->
    has_char ")" args = false ->
    Extractor.xml_findall (call_text_of name args ++ rest) = [] ->
    hd_error (Extractor._split_multi_actions (call_text_of name args ++ rest))
    = Some (Extractor.label (call_text_of name args)).
Proof.
  intros name args rest Hin Hq Hxml. unfold Extractor._split_multi_actions.
  rewrite Hxml. now apply bare_actions_head.
Qed.

(** A text with a parenthesis inside the quotes loses its end. *)
Lemma bare_call_ends_at_first_parenthesis_witness :
  hd_error (Extractor._split_multi_actions "type(content='a)b') and wait()")
  = Some "Action: type(content='a)".
Proof.
  apply (bare_call_ends_at_first_parenthesis "type" "content='a" "b') and wait()");
    [cbn; tauto|reflexivity|reflexivity].
Defined.

(** ** More on the driver *)

Section DriverMore.
Variable H : host.

Lemma load_resolves (callable_path module_name func_name : string)
      (module : string -> option pyobject) (parser : pyobject) :
  split_colon callable_path = Some (module_name, func_name) ->
  import_module H module_name = Ok module ->
  module func_name = Some parser ->
  callable parser = true ->
  _load_custom_action_parser H callable_path = Ok parser.
Proof.
  intros Hsplit Himp Hget Hcall. unfold _load_custom_action_parser.
  rewrite Hsplit, Himp. cbn [rbind]. now rewrite Hget, Hcall.
Qed.

Lemma parse_all_custom (response : string) (ih iw : Z) (action_parser : option string)
      (callable_path : string) (s : Z) (parser : pyobject) :
  selected_parser action_parser = "custom" ->
  _load_custom_action_parser H callable_path = Ok parser ->
  parse_all H response ih iw action_parser (Some callable_path) s =
  ([CustomParse response iw ih s],
   match call parser response iw ih s with
   | Ok p => Ok (dicts_of p)
   | Raise e => Raise e
   end).
Proof.
  intros Hsel Hload. unfold parse_all. fold (selected_parser action_parser).
  rewrite Hsel. cbn [String.eqb Ascii.eqb Bool.eqb].
  destruct callable_path as [|c path]; [discriminate|].
  rewrite Hload, mbind_lift_ok, mbind_emit.
  now destruct (call parser response iw ih s).
Qed.

Lemma run_shape (response : string) (ih iw : Z)
      (action_parser action_parser_callable : option string) (s : Z)
      (t : list event) (triggered : bool) (steps : list string) (first : option string) :
  parse_and_execute_action H response ih iw action_parser action_parser_callable s
  = (t, Ok (triggered, steps, first)) ->
  (triggered = false ->
   steps = [] /\ first = None
   /\ parse_all H response ih iw action_parser action_parser_callable s = (t, Ok []))
  /\ (triggered = true ->
      exists (t1 : list event) (c : command) (cs : list command),
        parse_all H response ih iw action_parser action_parser_callable s
        = (t1, Ok (c :: cs))
        /\ first = action_type c
        /\ (List.length steps <= List.length (c :: cs))%nat).
Proof.
  unfold parse_and_execute_action.
  destruct (parse_all H response ih iw action_parser action_parser_callable s)
    as [t1 [[|c cs]|e]]; [| |discriminate].
  - rewrite mbind_events. cbn [fst snd mret]. rewrite app_nil_r.
    intros Hrun. injection Hrun as <- <- <- <-.
    split; [now intros _|discriminate].
  - rewrite mbind_events.
    destruct (execute_pyautogui_action H ih iw s (Many (c :: cs))) as [t2 [log|e]] eqn:Hexec;
      rewrite ?mbind_events; cbn [fst snd mret mbind]; [|discriminate].
    intros Hrun. injection Hrun as <- <- <- <-.
    split; [discriminate|]. intros _. exists t1, c, cs.
    split; [reflexivity|split; [reflexivity|]].
    destruct (at_most_one_step H ih iw s (c :: cs) t2 log Hexec) as [Hlog Hstarted].
    lia.
Qed.

End DriverMore.

(** With the custom backend and a reference that resolves, the parser is
    called once with the whole response, the image width and height and the
    scale; the dicts it returns are the commands, an error it raises ends
    the call, and when it returns no dict nothing is executed. *)
Theorem custom_parser_decides :
  forall (H : host) (response : string) (ih iw : Z) (action_parser : option string)
         (callable_path module_name func_name : string) (s : Z)
         (module : string -> option pyobject) (parser : pyobject),
    selected_parser action_parser = "custom" ->
    split_colon callable_path = Some (module_name, func_name) ->
    import_module H module_name = Ok module ->
    module func_name = Some parser ->
    callable parser = true ->
    parse_all H response ih iw action_parser (Some callable_path) s =
    ([CustomParse response iw ih s],
     match call parser response iw ih s with
     | Ok p => Ok (dicts_of p)
     | Raise e => Raise e
     end)
    /\ (forall e : exn,
           call parser response iw ih s = Raise e ->
           parse_and_execute_action H response ih iw action_parser (Some callable_path) s
           = ([CustomParse response iw ih s], Raise e))
    /\ (forall p : parsed,
           call parser response iw ih s = Ok p ->
           dicts_of p = [] ->
           parse_and_execute_action H response ih iw action_parser (Some callable_path) s
           = ([CustomParse response iw ih s], Ok (false, [], None))).
Proof.
  intros H response ih iw ap path m f s module parser Hsel Hsplit Himp Hget Hcall.
  pose proof (parse_all_custom H response ih iw ap path s parser Hsel
                (load_resolves H path m f module parser Hsplit Himp Hget Hcall)) as Hall.
  split; [exact Hall|split].
  - intros e He. unfold parse_and_execute_action. rewrite Hall, He. reflexivity.
  - intros p Hp Hnone. unfold parse_and_execute_action. rewrite Hall, Hp, Hnone.
    reflexivity.
Qed.

Lemma custom_parser_decides_witness :
  parse_all Demo.equipped "anything" 1080 1920 (Some "custom") (Some "my_parsers:parse") 1000
  = ([CustomParse "anything" 1920 1080 1000], Ok [Command (Some "finished") []]).
Proof.
  apply (custom_parser_decides Demo.equipped "anything" 1080 1920 (Some "custom")
           "my_parsers:parse" "my_parsers" "parse" 1000 Demo.my_parsers
           (PyObject true (fun _ _ _ _ => Ok (ParsedDict (Command (Some "finished") [])))));
    reflexivity.
Defined.

(** What [parse_and_execute_action] returns: not triggered means that no
    command was parsed, and then there is no step and no type; triggered
    means that at least one command was parsed, the reported type is the
    type of the first of them, and there is at most one step per command. *)
Theorem run_result_shape :
  forall (H : host) (response : string) (ih iw : Z)
         (action_parser action_parser_callable : option string) (s : Z)
         (t : list event) (triggered : bool) (steps : list string)
         (first : option string),
    parse_and_execute_action H response ih iw action_parser action_parser_callable s
    = (t, Ok (triggered, steps, first)) ->
    (triggered = false ->
     steps = [] /\ first = None
     /\ parse_all H response ih iw action_parser action_parser_callable s = (t, Ok []))
    /\ (triggered = true ->
        exists (t1 : list event) (c : command) (cs : list command),
          parse_all H response ih iw action_parser action_parser_callable s
          = (t1, Ok (c :: cs))
          /\ first = action_type c
          /\ (List.length steps <= List.length (c :: cs))%nat).
Proof. exact run_shape. Qed.

(** Triggered, although the one command parsed leaves no step. *)
Lemma run_result_shape_witness :
  exists (t1 : list event) (c : command) (cs : list command),
    parse_all Demo.linux "scroll(direction='left')" 1080 1920 None None 1000
    = (t1, Ok (c :: cs))
    /\ Some "scroll" = action_type c
    /\ (List.length (@nil string) <= List.length (c :: cs))%nat.
Proof.
  apply (run_result_shape Demo.linux "scroll(direction='left')" 1080 1920 None None 1000
           [] true [] (Some "scroll")).
  - vm_compute. reflexivity.
  - reflexivity.
Defined.

(** ** Model inference *)

Section InferenceFacts.
Import PyStr.










End InferenceFacts.


Lemma returned_nonempty (r : http_response) (reply : string) :
  read_reply r = Ok reply ->
  reply <> "" /\ (status_code r < 400)%Z /\ choices r <> [].
Proof.
  unfold read_reply.
  destruct (400 <=? status_code r)%Z eqn:Hs; [discriminate|].
  apply Z.leb_gt in Hs.
  destruct (choices r) as [|first rest]; [discriminate|].
  destruct (_normalize_chat_content (content_of_choice first)) as [|c s]; [discriminate|].
  intros Hr. injection Hr as <-. repeat split; [discriminate|exact Hs|discriminate].
Qed.

(** A reply that is returned is never empty: the status is below 400,
    there is a choice, and the text of its content is not empty. *)
Theorem returned_reply_is_not_empty :
  forall (r : http_response) (reply : string),
    read_reply r = Ok reply ->
    reply <> "" /\ (status_code r < 400)%Z /\ choices r <> [].
Proof. exact returned_nonempty. Qed.

Lemma returned_reply_is_not_empty_witness :
  "<action>wait()</action>" <> ""
  /\ (status_code (HttpResponse 200 [Some (ContentStr "<action>wait()</action>")]) < 400)%Z
  /\ choices (HttpResponse 200 [Some (ContentStr "<action>wait()</action>")]) <> [].
Proof.
  apply (returned_reply_is_not_empty
           (HttpResponse 200 [Some (ContentStr "<action>wait()</action>")])).
  reflexivity.
Defined.

(** A first choice whose message has no content is not an error: its
    content reads as the text [None], whatever the other choices hold,
    while an empty text or a list without text raises. *)
Theorem missing_content_reads_as_none :
  forall (status : Z) (rest : list (option chat_content)),
    (status < 400)%Z ->
    read_reply (HttpResponse status (None :: rest)) = Ok "None"
    /\ read_reply (HttpResponse status (Some (ContentStr "") :: rest)) = Raise ValueError
    /\ read_reply (HttpResponse status (Some (ContentList []) :: rest)) = Raise ValueError.
Proof.
  intros status rest Hs. apply Z.leb_gt in Hs. unfold read_reply.
  cbn [status_code choices]. rewrite Hs. repeat split.
Qed.

Lemma missing_content_reads_as_none_witness :
  read_reply (HttpResponse 200 [None]) = Ok "None".
Proof.
  apply (missing_content_reads_as_none 200 []). reflexivity.
Defined.



(** ** The screen operation *)

Section OperationFacts.
Variable D : desktop.

Lemma operation_without_key (instruction : string) (model_name base_url : option string)
      (action_parser action_parser_callable : option string) (execute_action : bool)
      (w h : Z) (base64_image : string) :
  _import_gui_dependencies D = Ok tt ->
  capture D = Ok (w, h, base64_image) ->
  auto_screen_operation D instruction "" model_name base_url
                        action_parser action_parser_callable execute_action
  = ([Captured], failed ValueError).
Proof.
  intros Himp Hcap. unfold auto_screen_operation. now rewrite Himp, Hcap.
Qed.

Lemma existsb_map_acted (t : list event) (f : outer_event -> bool) :
  existsb f (map Acted t) = existsb (fun e => f (Acted e)) t.
Proof. induction t as [|e t IH]; [reflexivity|]. cbn. now rewrite IH. Qed.

Lemma inference_no_action (messages : conversation) (api_key : string)
      (model_name base_url : option string) :
  existsb is_action (fst (call_model_inference D messages api_key model_name base_url))
  = false.
Proof. unfold call_model_inference. now destruct api_key. Qed.

Lemma operation_see (instruction api_key : string) (model_name base_url : option string)
      (action_parser action_parser_callable : option string) :
  let run := auto_screen_operation D instruction api_key model_name base_url
                                   action_parser action_parser_callable false in
  existsb is_action (fst run) = false
  /\ action_triggered (snd run) = false
  /\ execution_result (snd run) = None
  /\ result_action_type (snd run) = None.
Proof.
  unfold auto_screen_operation.
  destruct (_import_gui_dependencies D) as [[]|e]; [|now repeat split].
  destruct (capture D) as [[[w h] b64]|e]; [|now repeat split].
  pose proof (inference_no_action (build_conversation instruction b64 SCREENSHOT_FORMAT)
                api_key model_name base_url) as Hno.
  destruct (call_model_inference D _ api_key model_name base_url) as [t [reply|e]];
    cbn [fst snd existsb is_action orb] in *; now repeat split.
Qed.

Lemma operation_result (instruction api_key : string) (model_name base_url : option string)
      (action_parser action_parser_callable : option string) (execute_action : bool) :
  let r := snd (auto_screen_operation D instruction api_key model_name base_url
                                      action_parser action_parser_callable execute_action) in
  (success r = false ->
   image_size r = None /\ response r = None /\ execution_result r = None
   /\ action_triggered r = false /\ result_action_type r = None /\ error r <> None)
  /\ (success r = true ->
      error r = None
      /\ exists (w h : Z) (reply : string),
          image_size r = Some (w, h) /\ response r = Some reply /\ reply <> "").
Proof.
  unfold auto_screen_operation.
  destruct (_import_gui_dependencies D) as [[]|e];
    [|cbn; split; [now repeat split|discriminate]].
  destruct (capture D) as [[[w h] b64]|e];
    [|cbn; split; [now repeat split|discriminate]].
  unfold call_model_inference.
  destruct api_key as [|c key]; [cbn; split; [now repeat split|discriminate]|].
  destruct (post D _ _ _ _) as [resp|e]; cbn [rbind];
    [|cbn; split; [now repeat split|discriminate]].
  destruct (read_reply resp) as [reply|e] eqn:Hreply;
    [|cbn; split; [now repeat split|discriminate]].
  destruct (returned_nonempty resp reply Hreply) as [Hne _].
  destruct execute_action.
  - destruct (parse_and_execute_action _ _ _ _ _ _ _) as [t' [[[trig steps] ft]|e]];
      cbn; (split; [try discriminate; now repeat split|]); try discriminate.
    intros _. split; [reflexivity|]. now exists w, h, reply.
  - cbn. split; [discriminate|]. intros _. split; [reflexivity|]. now exists w, h, reply.
Qed.

Lemma operation_fails_in_batch (instruction api_key : string)
      (model_name base_url : option string)
      (action_parser action_parser_callable : option string)
      (w h : Z) (base64_image reply : string) (t : list outer_event)
      (t' : list event) (e : exn) :
  _import_gui_dependencies D = Ok tt ->
  capture D = Ok (w, h, base64_image) ->
  call_model_inference D (build_conversation instruction base64_image SCREENSHOT_FORMAT)
                       api_key model_name base_url = (t, Ok reply) ->
  parse_and_execute_action (engine_host D) reply h w action_parser action_parser_callable
                           COORDINATE_SCALE = (t', Raise e) ->
  auto_screen_operation D instruction api_key model_name base_url
                        action_parser action_parser_callable true
  = ((Captured :: t) ++ Acted (Sleep (PFloat 0.5)) :: map Acted t', failed e)%list.
Proof.
  intros Himp Hcap Hinf Hrun. unfold auto_screen_operation.
  now rewrite Himp, Hcap, Hinf, Hrun.
Qed.

End OperationFacts.

Lemma operation_trace (D : desktop) (instruction api_key : string)
      (model_name base_url : option string)
      (action_parser action_parser_callable : option string) (execute_action : bool) :
  let t := fst (auto_screen_operation D instruction api_key model_name base_url
                                      action_parser action_parser_callable execute_action) in
  t = [] \/ t = [Captured]
  \/ exists (endpoint model : string) (messages : conversation),
      t = [Captured; Requested endpoint api_key model messages]
      \/ (execute_action = true
          /\ exists t' : list event,
              t = [Captured; Requested endpoint api_key model messages;
                   Acted (Sleep (PFloat 0.5))] ++ map Acted t')%list.
Proof.
  unfold auto_screen_operation.
  destruct (_import_gui_dependencies D) as [[]|e]; [|now left].
  destruct (capture D) as [[[w h] b64]|e]; [|now right; left].
  unfold call_model_inference.
  destruct api_key as [|c key]; [now right; left|].
  right; right.
  eexists _, _, _.
  destruct (rbind _ _) as [reply|e]; [|now left].
  destruct execute_action; [|now left].
  right. split; [reflexivity|].
  destruct (parse_and_execute_action _ _ _ _ _ _ _) as [t' [[[trig steps] ft]|e]];
    now exists t'.
Qed.

(** Without an API key the screenshot is still taken: the run fails with
    a ValueError after the capture, before any request. *)
Theorem missing_key_fails_after_capture :
  forall (D : desktop) (instruction : string)
         (model_name base_url action_parser action_parser_callable : option string)
         (execute_action : bool) (w h : Z) (base64_image : string),
    _import_gui_dependencies D = Ok tt ->
    capture D = Ok (w, h, base64_image) ->
    auto_screen_operation D instruction "" model_name base_url
                          action_parser action_parser_callable execute_action
    = ([Captured], failed ValueError).
Proof. exact operation_without_key. Qed.

Lemma missing_key_fails_after_capture_witness :
  auto_screen_operation (demo_desktop (answer_text "wait()")) "open the browser" ""
                        None None None None true
  = ([Captured], failed ValueError).
Proof.
  apply (missing_key_fails_after_capture (demo_desktop (answer_text "wait()"))
           "open the browser" None None None None true 1920%Z 1080%Z "aGVsbG8=");
    reflexivity.
Defined.

(** Without [execute_action] a run never calls the engine: no event is an
    action, not even the sleep before the parsing, and the result reports
    no action, no steps and no action type. *)
Theorem see_mode_never_acts :
  forall (D : desktop) (instruction api_key : string)
         (model_name base_url action_parser action_parser_callable : option string),
    let run := auto_screen_operation D instruction api_key model_name base_url
                                     action_parser action_parser_callable false in
    existsb is_action (fst run) = false
    /\ action_triggered (snd run) = false
    /\ execution_result (snd run) = None
    /\ result_action_type (snd run) = None.
Proof. exact operation_see. Qed.


(** When the batch raises, the result is that of a failed run: it reports
    no reply, no step and no triggered action, although the calls made
    before the error, the events of the batch, have happened. *)
Theorem failure_while_acting_hides_the_actions :
  forall (D : desktop) (instruction api_key : string)
         (model_name base_url action_parser action_parser_callable : option string)
         (w h : Z) (base64_image reply : string) (t : list outer_event)
         (t' : list event) (e : exn),
    _import_gui_dependencies D = Ok tt ->
    capture D = Ok (w, h, base64_image) ->
    call_model_inference D (build_conversation instruction base64_image SCREENSHOT_FORMAT)
                         api_key model_name base_url = (t, Ok reply) ->
    parse_and_execute_action (engine_host D) reply h w action_parser
                             action_parser_callable COORDINATE_SCALE = (t', Raise e) ->
    auto_screen_operation D instruction api_key model_name base_url
                          action_parser action_parser_callable true
    = ((Captured :: t) ++ Acted (Sleep (PFloat 0.5)) :: map Acted t', failed e)%list.
Proof. exact operation_fails_in_batch. Qed.

(** A click, then a text that holds the point marker and does not
    evaluate: the click is made, the result shows none. *)
Lemma failure_while_acting_hides_the_actions_witness :
  let reply := "<action>click(point='<point>500 500</point>')</action><action>type(content='see <point>1 2</point>')</action>" in
  let run := auto_screen_operation (demo_desktop (answer_text reply)) "click it" "sk-1"
                                   None None (Some "builtin") None true in
  existsb (fun ev => match ev with Acted (Click 960 540 None) => true | _ => false end)
          (fst run) = true
  /\ snd run = failed SyntaxError.
Proof.
  intros reply run.
  assert (Hrun : run =
    (([Captured;
       Requested "https://api.openai.com/v1/chat/completions" "sk-1" "gpt-4o-mini"
                 (build_conversation "click it" "aGVsbG8=" SCREENSHOT_FORMAT)]
      ++ Acted (Sleep (PFloat 0.5))
      :: map Acted [Click 960 540 None; Sleep (PFloat 0.3)])%list,
     failed SyntaxError)).
  { apply (failure_while_acting_hides_the_actions
             (demo_desktop (answer_text reply)) "click it" "sk-1"
             None None (Some "builtin") None 1920%Z 1080%Z "aGVsbG8=" reply).
    - reflexivity.
    - reflexivity.
    - reflexivity.
    - vm_compute. reflexivity. }
  rewrite Hrun. split; reflexivity.
Defined.

(** A run captures the screen at most once, asks the provider at most
    once and only after the capture, and acts only after the request, with
    the given key; the first action is the sleep of half a second. *)
Theorem run_trace_is_ordered :
  forall (D : desktop) (instruction api_key : string)
         (model_name base_url action_parser action_parser_callable : option string)
         (execute_action : bool),
    let t := fst (auto_screen_operation D instruction api_key model_name base_url
                                        action_parser action_parser_callable
                                        execute_action) in
    t = [] \/ t = [Captured]
    \/ exists (endpoint model : string) (messages : conversation),
        t = [Captured; Requested endpoint api_key model messages]
        \/ (execute_action = true
            /\ exists t' : list event,
                t = [Captured; Requested endpoint api_key model messages;
                     Acted (Sleep (PFloat 0.5))] ++ map Acted t')%list.
Proof. exact operation_trace. Qed.

(** ** The configuration and the command line *)






Section HandlerFacts.
Variable W : Cli.world.
Variable args : Cli.Namespace.

Lemma handler_see :
  existsb is_action (fst (Cli._handle_see_or_act W args "see")) = false
  /\ forall p : Cli.payload,
      snd (Cli._handle_see_or_act W args "see") = Ok p ->
      Cli.ok p = true ->
      Cli.code p = "ANALYSIS_DONE"
      /\ exists effective srcs reply size,
          Cli.data p = Cli.RunData (Cli.instruction args) effective srcs (Some reply) None
                                   false false [] (Some size).
Proof.
  unfold Cli._handle_see_or_act.
  destruct (Config.resolve_runtime_config _ _ _ _ _ _ _ _) as [[effective srcs]|e];
    [|split; [reflexivity|discriminate]].
  destruct (Config.api_key effective) as [[|c key]|];
    try (split; [reflexivity|intros p [= <-]; discriminate]).
  destruct (_ && _); [split; [reflexivity|intros p [= <-]; discriminate]|].
  cbn [String.eqb Ascii.eqb Bool.eqb].
  pose proof (operation_see (Cli.gui W) (Cli.instruction args) (String c key)
                (Config.model effective) (Config.base_url effective)
                (Config.action_parser effective)
                (Config.action_parser_callable effective)) as Hsee.
  pose proof (operation_result (Cli.gui W) (Cli.instruction args) (String c key)
                (Config.model effective) (Config.base_url effective)
                (Config.action_parser effective)
                (Config.action_parser_callable effective) false) as Hres.
  cbv zeta in Hsee, Hres.
  destruct (auto_screen_operation _ _ _ _ _ _ _ false) as [t r].
  cbn [fst snd] in Hsee, Hres. destruct Hsee as (Hno & Htrig & Hsteps & Htype).
  destruct Hres as [_ Hok].
  destruct (success r) eqn:Hs; cbn [negb fst snd].
  - split; [exact Hno|]. intros p [= <-] _. split; [reflexivity|].
    destruct (Hok eq_refl) as (_ & w & h & reply & Hsize & Hreply & _).
    exists effective, srcs, reply, (w, h). cbn [Cli.data Cli.builder_ok].
    now rewrite Htrig, Hsteps, Htype, Hsize, Hreply.
  - split; [exact Hno|]. intros p [= <-]. discriminate.
Qed.

End HandlerFacts.

Lemma custom_without_callable (H : host) (response : string) (ih iw : Z)
      (action_parser action_parser_callable : option string) (s : Z) :
  selected_parser action_parser = "custom" ->
  truthy_str action_parser_callable = false ->
  parse_and_execute_action H response ih iw action_parser action_parser_callable s
  = ([], Raise ValueError).
Proof.
  intros Hsel Hcall. unfold parse_and_execute_action, parse_all.
  fold (selected_parser action_parser). rewrite Hsel.
  cbn [String.eqb Ascii.eqb Bool.eqb].
  now destruct action_parser_callable as [[|c path]|].
Qed.

Lemma operation_asks (D : desktop) (instruction : string) (c : ascii) (key : string)
      (model_name base_url action_parser action_parser_callable : option string)
      (execute_action : bool) (w h : Z) (base64_image : string) :
  _import_gui_dependencies D = Ok tt ->
  capture D = Ok (w, h, base64_image) ->
  exists (endpoint model : string) (messages : conversation) (rest : list outer_event),
    fst (auto_screen_operation D instruction (String c key) model_name base_url
                               action_parser action_parser_callable execute_action)
    = Captured :: Requested endpoint (String c key) model messages :: rest.
Proof.
  intros Himp Hcap. unfold auto_screen_operation. rewrite Himp, Hcap.
  unfold call_model_inference.
  destruct (rbind _ _) as [reply|e]; [|now eexists _, _, _, _].
  destruct execute_action; [|now eexists _, _, _, _].
  destruct (parse_and_execute_action _ _ _ _ _ _ _) as [t' [[[trig steps] ft]|e]];
    now eexists _, _, _, _.
Qed.

Section GuardFacts.
Variable W : Cli.world.
Variable args : Cli.Namespace.
Variable command : string.

Lemma handler_asks (t : list outer_event) (p : Cli.payload) :
  Cli._handle_see_or_act W args command = (t, Ok p) ->
  ((Cli.code p = "CONFIG_MISSING" \/ Cli.code p = "CONFIG_INVALID") ->
   t = [] /\ Cli.ok p = false)
  /\ (Cli.code p <> "CONFIG_MISSING" -> Cli.code p <> "CONFIG_INVALID" ->
      (Cli.code p = "ACTION_FAILED" \/ Cli.code p = "ACTION_DONE"
       \/ Cli.code p = "ANALYSIS_DONE")
      /\ forall (w h : Z) (base64_image : string),
          _import_gui_dependencies (Cli.gui W) = Ok tt ->
          capture (Cli.gui W) = Ok (w, h, base64_image) ->
          exists (endpoint key model : string) (messages : conversation)
                 (rest : list outer_event),
            t = Captured :: Requested endpoint key model messages :: rest
            /\ key <> "").
Proof.
  unfold Cli._handle_see_or_act.
  destruct (Config.resolve_runtime_config _ _ _ _ _ _ _ _) as [[effective srcs]|e];
    [|discriminate].
  destruct (Config.api_key effective) as [[|c key]|];
    try (intros [= <- <-]; split; [intros _; now split|intros Hc; now contradiction Hc]).
  destruct (_ && _);
    [intros [= <- <-]; split; [intros _; now split|intros _ Hc; now contradiction Hc]|].
  set (execute_action := if (command =? "see")%string then false else _).
  pose proof (operation_asks (Cli.gui W) (Cli.instruction args) c key
                (Config.model effective) (Config.base_url effective)
                (Config.action_parser effective)
                (Config.action_parser_callable effective) execute_action) as Hasks.
  destruct (auto_screen_operation _ _ _ _ _ _ _ _) as [t0 r].
  cbn [fst] in Hasks.
  destruct (success r); cbn [negb]; intros [= <- <-];
    cbn [Cli.code Cli.builder_fail Cli.builder_ok].
  - split; [intros [Hc|Hc]; destruct execute_action; discriminate Hc|].
    intros _ _. split; [destruct execute_action; auto|].
    intros w h b64 Himp Hcap.
    destruct (Hasks w h b64 Himp Hcap) as (ep & m & msgs & rest & Ht).
    exists ep, (String c key), m, msgs, rest. split; [exact Ht|discriminate].
  - split; [intros [Hc|Hc]; discriminate Hc|].
    intros _ _. split; [now left|].
    intros w h b64 Himp Hcap.
    destruct (Hasks w h b64 Himp Hcap) as (ep & m & msgs & rest & Ht).
    exists ep, (String c key), m, msgs, rest. split; [exact Ht|discriminate].
Qed.

Lemma handler_inexact_custom (effective : Config.MigiConfig) (srcs : Config.sources)
      (name key : string) (w h : Z) (base64_image reply : string)
      (t : list outer_event) :
  Config.resolve_runtime_config (Cli.os W) (Cli.api_key args) (Cli.model args)
    (Cli.base_url args) (Cli.provider args) (Cli.action_parser args)
    (Cli.action_parser_callable args)
    (if truthy_str (Cli.config_path args) then Cli.config_path args else None)
  = Ok (effective, srcs) ->
  Config.api_key effective = Some key -> key <> "" ->
  Config.action_parser effective = Some name ->
  name <> "custom" -> selected_parser (Some name) = "custom" ->
  truthy_str (Config.action_parser_callable effective) = false ->
  command <> "see" -> Cli.no_exec args = false ->
  _import_gui_dependencies (Cli.gui W) = Ok tt ->
  capture (Cli.gui W) = Ok (w, h, base64_image) ->
  call_model_inference (Cli.gui W)
    (build_conversation (Cli.instruction args) base64_image SCREENSHOT_FORMAT)
    key (Config.model effective) (Config.base_url effective) = (t, Ok reply) ->
  Cli._handle_see_or_act W args command
  = ((Captured :: t) ++ [Acted (Sleep (PFloat 0.5))],
     Ok (Cli.builder_fail command "ACTION_FAILED" "AutomationError" (Some ValueError)
                          (Cli.ResultData (failed ValueError))))%list.
Proof.
  intros Hres Hkey Hne Hname Hnot Hsel Hcall Hcmd Hexec Himp Hcap Hinf.
  unfold Cli._handle_see_or_act. rewrite Hres, Hkey.
  destruct key as [|c key]; [contradiction|].
  rewrite Hname.
  apply String.eqb_neq in Hnot. rewrite Hnot. cbn [andb].
  apply String.eqb_neq in Hcmd. rewrite Hcmd, Hexec. cbn [negb].
  rewrite (operation_fails_in_batch (Cli.gui W) (Cli.instruction args) (String c key)
             (Config.model effective) (Config.base_url effective) (Some name)
             (Config.action_parser_callable effective) w h base64_image reply t []
             ValueError Himp Hcap Hinf).
  - reflexivity.
  - now apply custom_without_callable.
Qed.

End GuardFacts.

(** The command [see] never acts, whatever [--no-exec] says: no event of
    the run is an action, and a successful payload has the code
    ANALYSIS_DONE, the reply, and neither an action type nor steps. *)
Theorem see_command_never_acts :
  forall (W : Cli.world) (args : Cli.Namespace),
    existsb is_action (fst (Cli._handle_see_or_act W args "see")) = false
    /\ forall p : Cli.payload,
        snd (Cli._handle_see_or_act W args "see") = Ok p ->
        Cli.ok p = true ->
        Cli.code p = "ANALYSIS_DONE"
        /\ exists effective srcs reply size,
            Cli.data p = Cli.RunData (Cli.instruction args) effective srcs (Some reply) None
                                     false false [] (Some size).
Proof. exact handler_see. Qed.

(** When the handler answers CONFIG_MISSING or CONFIG_INVALID nothing has
    happened: no capture, no request, no action.  Every other payload is
    that of a run of the engine (ACTION_FAILED, ACTION_DONE or
    ANALYSIS_DONE), and when its imports and capture succeed the run
    begins with the capture and a request whose key is not empty: the
    missing key of the engine cannot occur from the command line. *)
Theorem handler_rejects_or_asks :
  forall (W : Cli.world) (args : Cli.Namespace) (command : string)
         (t : list outer_event) (p : Cli.payload),
    Cli._handle_see_or_act W args command = (t, Ok p) ->
    ((Cli.code p = "CONFIG_MISSING" \/ Cli.code p = "CONFIG_INVALID") ->
     t = [] /\ Cli.ok p = false)
    /\ (Cli.code p <> "CONFIG_MISSING" -> Cli.code p <> "CONFIG_INVALID" ->
        (Cli.code p = "ACTION_FAILED" \/ Cli.code p = "ACTION_DONE"
         \/ Cli.code p = "ANALYSIS_DONE")
        /\ forall (w h : Z) (base64_image : string),
            _import_gui_dependencies (Cli.gui W) = Ok tt ->
            capture (Cli.gui W) = Ok (w, h, base64_image) ->
            exists (endpoint key model : string) (messages : conversation)
                   (rest : list outer_event),
              t = Captured :: Requested endpoint key model messages :: rest
              /\ key <> "").
Proof. exact handler_asks. Qed.

(** Without a key anywhere the handler answers CONFIG_MISSING and nothing
    has happened; with a key in the environment the run captures and
    asks. *)
Lemma handler_rejects_or_asks_witness :
  (@nil outer_event = [] /\ false = false)
  /\ exists (endpoint key model : string) (messages : conversation)
            (rest : list outer_event),
      [Captured;
       Requested "https://api.openai.com/v1/chat/completions" "sk-1" "gpt-4o-mini"
                 (build_conversation "open the browser" "aGVsbG8=" SCREENSHOT_FORMAT);
       Acted (Sleep (PFloat 0.5)); Acted (Sleep (PInt 5))]
      = Captured :: Requested endpoint key model messages :: rest
      /\ key <> "".
Proof.
  split.
  - apply (handler_rejects_or_asks (demo_world [] (answer_text "<action>wait()</action>"))
             (plain_args "open the browser") "act" []
             (Cli.builder_fail "act" "CONFIG_MISSING" "ConfigError" None
                (Cli.SourcesData [("provider", "config"); ("api_key", "unset");
                                  ("model", "unset"); ("base_url", "unset");
                                  ("action_parser", "config");
                                  ("action_parser_callable", "unset")]))).
    + reflexivity.
    + left. reflexivity.
  - apply (handler_rejects_or_asks
             (demo_world [("GUI_VISION_API_KEY", "sk-1")]
                         (answer_text "<action>wait()</action>"))
             (plain_args "open the browser") "act"
             [Captured;
              Requested "https://api.openai.com/v1/chat/completions" "sk-1" "gpt-4o-mini"
                        (build_conversation "open the browser" "aGVsbG8=" SCREENSHOT_FORMAT);
              Acted (Sleep (PFloat 0.5)); Acted (Sleep (PInt 5))]
             (Cli.builder_ok "act" "ACTION_DONE"
                (Cli.RunData "open the browser"
                   {| Config.provider := Some "openai-compatible";
                      Config.api_key := Some "sk-1";
                      Config.model := None; Config.base_url := None;
                      Config.action_parser := Some "doubao";
                      Config.action_parser_callable := None |}
                   [("provider", "config"); ("api_key", "env"); ("model", "unset");
                    ("base_url", "unset"); ("action_parser", "config");
                    ("action_parser_callable", "unset")]
                   (Some "<action>wait()</action>") (Some "wait") true true ["wait:5s"]
                   (Some (1920, 1080)%Z)))
             ltac:(vm_compute; reflexivity)) with (w := 1920%Z) (h := 1080%Z)
                                                 (base64_image := "aGVsbG8=").
    + discriminate.
    + discriminate.
    + reflexivity.
    + reflexivity.
Defined.

(** The handler rejects the parser [custom] without a reference only when
    the name is spelled exactly so. Under a name that the engine also
    reads as custom (other case, blanks around it) the run goes on: the
    screen is captured, the provider is asked, and the run fails with the
    engine's ValueError, reported as ACTION_FAILED. *)
Theorem custom_guard_compares_exactly :
  forall (W : Cli.world) (args : Cli.Namespace) (command : string)
         (effective : Config.MigiConfig) (srcs : Config.sources)
         (name key : string) (w h : Z) (base64_image reply : string)
         (t : list outer_event),
    Config.resolve_runtime_config (Cli.os W) (Cli.api_key args) (Cli.model args)
      (Cli.base_url args) (Cli.provider args) (Cli.action_parser args)
      (Cli.action_parser_callable args)
      (if truthy_str (Cli.config_path args) then Cli.config_path args else None)
    = Ok (effective, srcs) ->
    Config.api_key effective = Some key -> key <> "" ->
    Config.action_parser effective = Some name ->
    name <> "custom" -> selected_parser (Some name) = "custom" ->
    truthy_str (Config.action_parser_callable effective) = false ->
    command <> "see" -> Cli.no_exec args = false ->
    _import_gui_dependencies (Cli.gui W) = Ok tt ->
    capture (Cli.gui W) = Ok (w, h, base64_image) ->
    call_model_inference (Cli.gui W)
      (build_conversation (Cli.instruction args) base64_image SCREENSHOT_FORMAT)
      key (Config.model effective) (Config.base_url effective) = (t, Ok reply) ->
    Cli._handle_see_or_act W args command
    = ((Captured :: t) ++ [Acted (Sleep (PFloat 0.5))],
       Ok (Cli.builder_fail command "ACTION_FAILED" "AutomationError" (Some ValueError)
                            (Cli.ResultData (failed ValueError))))%list.
Proof. exact handler_inexact_custom. Qed.

(** The parser comes from the environment as [Custom]. *)
Lemma custom_guard_compares_exactly_witness :
  Cli._handle_see_or_act
    (demo_world [("GUI_VISION_API_KEY", "sk-1"); ("GUI_VISION_ACTION_PARSER", "Custom")]
                (answer_text "<action>wait()</action>"))
    (plain_args "open the browser") "act"
  = ([Captured;
      Requested "https://api.openai.com/v1/chat/completions" "sk-1" "gpt-4o-mini"
                (build_conversation "open the browser" "aGVsbG8=" SCREENSHOT_FORMAT);
      Acted (Sleep (PFloat 0.5))],
     Ok (Cli.builder_fail "act" "ACTION_FAILED" "AutomationError" (Some ValueError)
                          (Cli.ResultData (failed ValueError)))).
Proof.
  apply (custom_guard_compares_exactly
           (demo_world [("GUI_VISION_API_KEY", "sk-1");
                        ("GUI_VISION_ACTION_PARSER", "Custom")]
                       (answer_text "<action>wait()</action>"))
           (plain_args "open the browser") "act"
           {| Config.provider := Some "openai-compatible"; Config.api_key := Some "sk-1";
              Config.model := None; Config.base_url := None;
              Config.action_parser := Some "Custom";
              Config.action_parser_callable := None |}
           [("provider", "config"); ("api_key", "env"); ("model", "unset");
            ("base_url", "unset"); ("action_parser", "env");
            ("action_parser_callable", "unset")]
           "Custom" "sk-1" 1920%Z 1080%Z "aGVsbG8=" "<action>wait()</action>"
           [Requested "https://api.openai.com/v1/chat/completions" "sk-1" "gpt-4o-mini"
                      (build_conversation "open the browser" "aGVsbG8=" SCREENSHOT_FORMAT)]);
    try reflexivity; discriminate.
Defined.

(** ** The output mode *)

Section JsonMode.
Import Cli.





End JsonMode.

